(** * KVDB benchmark harness (benchmark.py): model and checked properties

    A shallow embedding of [benchmark.py]: the vector generator, the
    protocol encoder, the child-process driver and the two-phase [main]
    routine, over an explicit runtime (clock, random source, child
    processes), in a state-and-exception monad that records what the
    script prints and which processes it spawns.

    Python [float] is IEEE binary64 and is modelled by Rocq's primitive
    floats; [numpy.float32] values are modelled by [spec_float] in the
    binary32 format (precision 24, maximal exponent 128), and their
    text by numpy's shortest-digits printer. *)

From Stdlib Require Import ZArith List String Ascii Bool Lia Arith.
From Stdlib Require Import PrimFloat SpecFloat FloatOps.
From Stdlib Require FloatAxioms.
From Stdlib Require Import Decimal DecimalString DecimalNat.
Import ListNotations.

Local Open Scope list_scope.
Local Open Scope string_scope.

(** ** Text primitives *)

Module Text.

(** Python [s * n] for a string [s]. *)
Fixpoint repeat_string (s : string) (n : nat) : string :=
  match n with
  | O => ""
  | S k => s ++ repeat_string s k
  end.

(** Python [str(n)] and [f"{n}"] for a non-negative [int]. *)
Definition str_nat (n : nat) : string :=
  NilEmpty.string_of_uint (Nat.to_uint n).

(** Decimal digits of a non-negative integer. *)
Definition digits_of_Z (z : Z) : string :=
  NilEmpty.string_of_uint (N.to_uint (Z.to_N z)).

(** Characters of a string, and back. *)
Definition chars (s : string) : list ascii := list_ascii_of_string s.
Definition text (l : list ascii) : string := string_of_list_ascii l.

(** The [,] format option: a comma between groups of three digits,
    counted from the right.  [group3 k l] walks the reversed digit list
    [l]; [k] digits of the current group are already emitted. *)
Fixpoint group3 (k : nat) (l : list ascii) : list ascii :=
  match l with
  | [] => []
  | c :: rest =>
      match k with
      | 3 => "," %char :: c :: group3 1 rest
      | _ => c :: group3 (S k) rest
      end
  end.

(** Python [f"{n:,}"] for a non-negative [int]. *)
Definition format_comma (n : nat) : string :=
  text (List.rev (group3 0 (List.rev (chars (str_nat n))))).

(** Python [s.startswith(p)]. *)
Fixpoint starts_with (p s : string) : bool :=
  match p with
  | EmptyString => true
  | String a p' =>
      match s with
      | EmptyString => false
      | String b s' => Ascii.eqb a b && starts_with p' s'
      end
  end.

(** The characters Python's [str.isspace] accepts in the ASCII range. *)
Definition is_whitespace (c : ascii) : bool :=
  let n := nat_of_ascii c in
  (((9 <=? n) && (n <=? 13)) || ((28 <=? n) && (n <=? 32)))%nat.

Definition is_digit (c : ascii) : bool :=
  let n := nat_of_ascii c in ((48 <=? n) && (n <=? 57))%nat.

Definition whitespace_free (s : string) : Prop :=
  Forall (fun c => is_whitespace c = false) (chars s).

(** The number of line terminators in a text. *)
Definition count_newlines (s : string) : nat :=
  count_occ ascii_dec (chars s) "010"%char.

End Text.

(** ** Floating-point primitives *)

Module Num.

(** Round a non-negative rational [a / 2^k] to the nearest integer,
    ties to even. *)
Definition round_half_even (a : Z) (k : Z) : Z :=
  let d := Z.pow 2 k in
  let q := Z.div a d in
  let r := Z.modulo a d in
  match Z.compare (2 * r) d with
  | Lt => q
  | Gt => q + 1
  | Eq => if Z.even q then q else q + 1
  end%Z.

(** [|x| * 10^p] rounded to an integer, for finite non-zero [x] given by
    mantissa [m] and exponent [e]: correctly rounded, ties to even, as
    Python's float formatting is. *)
Definition scaled (p : nat) (m : positive) (e : Z) : Z :=
  let a := (Zpos m * Z.pow 10 (Z.of_nat p))%Z in
  if (0 <=? e)%Z then (a * Z.pow 2 e)%Z else round_half_even a (- e).

(** Fixed-point text of a non-negative scaled integer [q] with [p]
    fractional digits. *)
Definition fixed_digits (p : nat) (q : Z) : string :=
  let ds := Text.digits_of_Z q in
  let ds := Text.repeat_string "0" (S p - String.length ds) ++ ds in
  let n := String.length ds in
  match p with
  | O => ds
  | _ => substring 0 (n - p) ds ++ "." ++ substring (n - p) p ds
  end.

(** Python [f"{x:.pf}"] for a [float]. *)
Definition format_fixed (p : nat) (x : float) : string :=
  match Prim2SF x with
  | S754_nan => "nan"
  | S754_infinity s => if s then "-inf" else "inf"
  | S754_zero s => (if s then "-" else "") ++ fixed_digits p 0
  | S754_finite s m e => (if s then "-" else "") ++ fixed_digits p (scaled p m e)
  end.

(** The binary64 value nearest to an integer (ties to even): the
    conversion Python applies to an [int] operand of a [float]
    operation.  An integer beyond the binary64 range yields an infinity
    here; Python raises [OverflowError] there, see [Py.float_of_int]. *)
Definition Z2float (z : Z) : float :=
  SF2Prim (binary_normalize prec emax z 0 false).

(** [numpy.float32]: binary32 values. *)
Definition float32 := spec_float.

Definition prec32 : Z := 24.
Definition emax32 : Z := 128.

(** [arr.astype(np.float32)] on one binary64 component: round to the
    nearest binary32 value, ties to even. *)
Definition astype_float32 (x : float) : float32 :=
  match Prim2SF x with
  | S754_finite s m e => binary_round prec32 emax32 s m e
  | other => other
  end.

End Num.

(** ** The text of a [numpy.float32] scalar *)

Module Numpy.
Import Num.
Local Open Scope list_scope.
Local Open Scope Z_scope.

(** [str(x)] of a [numpy.float32] scalar is what [format_vector] (line
    28) maps over a vector.  numpy prints the shortest decimal that
    identifies [x] among the binary32 values: its [dragon4.c] generates
    the digits in unique mode with exact integer arithmetic, and
    [scalartypes.c] lays them out in positional notation for
    [1e-4 <= |x| < 1e16] and in scientific notation otherwise.  The
    definitions below follow that code for a finite non-zero value of
    mantissa [m] and binary exponent [e], [|x| = m * 2^e]. *)

(** [hasUnequalMargins]: [x] is a power of two above the smallest normal
    binade, so the neighbour below is half as far as the one above. *)
Definition unequal_margins (m e : Z) : bool := (m =? 2 ^ 23) && negb (e =? -149).

(** The big integers of [Dragon4]: [x = scaledValue / scale], and the
    margins are half the distances to the neighbours of [x], in the same
    scale. *)
Record dragon : Type := Dragon {
  scaledValue : Z; scale : Z; scaledMarginLow : Z; scaledMarginHigh : Z }.

Definition dragon_init (m e : Z) : dragon :=
  if unequal_margins m e then
    if 0 <? e then Dragon (4 * m * 2 ^ e) 4 (2 ^ e) (2 * 2 ^ e)
    else Dragon (4 * m) (4 * 2 ^ (- e)) 1 2
  else
    if 0 <? e then Dragon (2 * m * 2 ^ e) 2 (2 ^ e) (2 ^ e)
    else Dragon (2 * m) (2 * 2 ^ (- e)) 1 1.

(** The least integer not below [a / b], for [0 < b]. *)
Definition ceil_div (a b : Z) : Z := - ((- a) / b).

(** [ceil(b * log10(2) - 0.69)], the estimate of the decimal exponent of
    a value whose leading bit has weight [2^b]; [log10(2)] is the
    constant 0.30102999566398119521 of the C code. *)
Definition estimate_exponent (b : Z) : Z :=
  ceil_div (b * 30102999566398119521 - 69 * 10 ^ 18) (10 ^ 20).

Definition times10 (k : Z) (d : dragon) : dragon :=
  Dragon (scaledValue d * 10 ^ k) (scale d)
         (scaledMarginLow d * 10 ^ k) (scaledMarginHigh d * 10 ^ k).

(** Scale by the estimated power of ten, then correct an estimate that
    is one too low: afterwards [1 <= scaledValue / scale < 10] and the
    first digit has the decimal exponent [digitExponent - 1]. *)
Definition dragon_scale (est : Z) (d : dragon) : dragon * Z :=
  let d1 :=
    if 0 <? est then
      Dragon (scaledValue d) (scale d * 10 ^ est)
             (scaledMarginLow d) (scaledMarginHigh d)
    else times10 (- est) d in
  if scale d1 <=? scaledValue d1 then (d1, est + 1)
  else (times10 1 d1, est).

(** The digit loop of the unique mode: divide out one digit at a time
    until the digits written so far, with the current one rounded down
    ([low]) or up ([high]), identify the value, or the buffer is full.
    [written] holds the digits most recent first.  With an even
    mantissa the bounds of the rounding interval belong to it. *)
Fixpoint digit_loop (room : nat) (isEven : bool) (scale value low high : Z)
    (written : list Z) : list Z * Z * Z * bool * bool :=
  let outputDigit := value / scale in
  let rest := value mod scale in
  let lo := if isEven then rest <=? low else rest <? low in
  let hi := if isEven then scale <=? rest + high else scale <? rest + high in
  match room with
  | O => (written, outputDigit, rest, lo, hi)
  | S room' =>
      if lo || hi then (written, outputDigit, rest, lo, hi)
      else digit_loop room' isEven scale (10 * rest) (10 * low) (10 * high)
                      (outputDigit :: written)
  end.

(** Rounding the last digit up: trailing nines are dropped and the
    digit before them is incremented; [None] when every digit is a
    nine. *)
Fixpoint round_up (written : list Z) : option (list Z) :=
  match written with
  | [] => None
  | d :: earlier =>
      if d =? 9 then round_up earlier else Some ((d + 1) :: earlier)
  end.

(** The size of the buffer that receives the digits. *)
Definition buffer_size : nat := Z.to_nat 16384.

(** [Dragon4]: the digits of [m * 2^e], most significant first, and the
    decimal exponent of the first one. *)
Definition dragon4 (m e : Z) : list Z * Z :=
  let '(d, digitExponent) :=
    dragon_scale (estimate_exponent (Z.log2 m + e)) (dragon_init m e) in
  let '(written, outputDigit, rest, lo, hi) :=
    digit_loop buffer_size (Z.even m) (scale d) (scaledValue d)
               (scaledMarginLow d) (scaledMarginHigh d) [] in
  let roundDown :=
    if Bool.eqb lo hi then
      match 2 * rest ?= scale d with
      | Lt => true
      | Eq => Z.even outputDigit
      | Gt => false
      end
    else lo in
  if roundDown then (List.rev (outputDigit :: written), digitExponent - 1)
  else
    match round_up (outputDigit :: written) with
    | Some ds => (List.rev ds, digitExponent - 1)
    | None => ([1], digitExponent)
    end.

(** A decimal digit. *)
Definition digit (d : Z) : Prop := 0 <= d <= 9.

Definition digit_char (d : Z) : ascii := ascii_of_nat (48 + Z.to_nat d).

Definition digits_string (ds : list Z) : string :=
  string_of_list_ascii (map digit_char ds).

(** [FormatPositional] with [trim='0']: the digits with the decimal
    point after the digit of exponent 0, zeros filling the gap to the
    point, and one zero after the point when the fraction is empty. *)
Definition format_positional (ds : list Z) (printExponent : Z) : string :=
  if 0 <=? printExponent then
    let whole := (Z.to_nat printExponent + 1)%nat in
    let frac := skipn whole ds in
    (digits_string (firstn whole ds ++ repeat 0 (whole - List.length ds)%nat)
     ++ "." ++ (match frac with [] => "0" | _ => digits_string frac end))%string
  else
    ("0." ++ digits_string (repeat 0 (Z.to_nat (- printExponent - 1)) ++ ds))%string.

Fixpoint trim_zeros (keep : nat) (ds : list Z) : list Z :=
  match ds with
  | d :: rest =>
      if (keep <? List.length ds)%nat && (d =? 0) then trim_zeros keep rest else ds
  | [] => []
  end.

(** The digits of the exponent: five are computed, and leading zeros
    are dropped down to two digits. *)
Definition exponent_digits (n : Z) : list Z :=
  trim_zeros 2 [n / 10000 mod 10; n / 1000 mod 10; n / 100 mod 10;
                n / 10 mod 10; n mod 10].

(** [FormatScientific] with [trim='.']: one digit, the others after a
    point when there are any, then the signed exponent. *)
Definition format_scientific (ds : list Z) (printExponent : Z) : string :=
  match ds with
  | [] => ""
  | d :: rest =>
      (digits_string [d]
       ++ (match rest with [] => "" | _ => "." ++ digits_string rest end)
       ++ "e" ++ (if (printExponent <? 0)%Z then "-" else "+")
       ++ digits_string (exponent_digits (Z.abs printExponent)))%string
  end.

(** [1e-4 <= m * 2^e < 1e16], the values printed in positional
    notation. *)
Definition positional_range (m e : Z) : bool :=
  if 0 <=? e then (m * 2 ^ e <? 10 ^ 16)
  else (2 ^ (- e) <=? m * 10 ^ 4) && (m <? 10 ^ 16 * 2 ^ (- e)).

Definition sign_text (s : bool) : string := if s then "-" else "".

(** [str(x)] for a [numpy.float32] scalar [x]. *)
Definition floattype_str (x : float32) : string :=
  match x with
  | S754_nan => "nan"
  | S754_infinity s => if s then "-inf" else "inf"
  | S754_zero s => (sign_text s ++ format_positional [0] 0)%string
  | S754_finite s m e =>
      let '(ds, ex) := dragon4 (Zpos m) e in
      (sign_text s
       ++ (if positional_range (Zpos m) e then format_positional ds ex
           else format_scientific ds ex))%string
  end.

End Numpy.

(** ** Binary32 values and their neighbours *)

Module Binary32.
Import Num.
Local Open Scope Z_scope.

(** A finite binary32 number of mantissa [m] and exponent [e], scaled by
    [2^150], and half the distance to its neighbours above and below in
    the same scale. *)
Definition scaled_value (m e : Z) : Z := m * 2 ^ (e + 150).

Definition half_gap_above (e : Z) : Z := 2 ^ (e + 150 - 1).

Definition half_gap_below (m e : Z) : Z :=
  if Numpy.unequal_margins m e then 2 ^ (e + 150 - 2) else 2 ^ (e + 150 - 1).

(** What the estimate of the decimal exponent has to satisfy for a value
    whose leading bit has weight [2^b]: the value is below
    [10^(estimate + 1)]. *)
Definition estimate_ok (b : Z) : bool :=
  let t := Numpy.estimate_exponent b in
  (-45 <=? t) && (t <=? 39)
  && (if 0 <? t then 2 ^ (b + 151) <=? 10 ^ (t + 1) * 2 ^ 150
      else 2 ^ (b + 151) * 10 ^ (- t) <=? 10 * 2 ^ 150).

(** The values of the binary32 format among [spec_float]. *)
Definition is_float32 (x : float32) : Prop :=
  valid_binary prec32 emax32 x = true.

End Binary32.

(** ** A Python-like runtime: state, exceptions, processes *)

Module Py.

Inductive exn : Type :=
| SystemExit (code : Z)
| FileNotFoundError
| PermissionError
| CalledProcessError (returncode : Z)
| UnicodeDecodeError
| ZeroDivisionError
| OverflowError.

Inductive outcome (A : Type) : Type :=
| Return (a : A)
| Raise (e : exn).
Arguments Return {A} a.
Arguments Raise {A} e.

(** One launch of a program: its argument vector and, when the caller
    feeds it, the complete text written to its standard input. *)
Record invocation : Type := Invocation {
  argv : list string;
  stdin : option string
}.

(** What a launch comes to: the program file is absent; the file is
    there but may not be executed; or the process runs and exits with a
    status and its two captured streams, which are text, or bytes that
    are not text in the locale's encoding.  (Failures of the
    interpreter's own resources, such as memory, are outside the
    model.) *)
Inductive launch : Type :=
| NoSuchFile
| NotExecutable
| Exited (returncode : Z) (stdout stderr : string)
| ExitedUndecodable (returncode : Z) (stdout stderr : string).

(** What the script does to the outside, in order. *)
Inductive event : Type :=
| Print (line : string)
| Spawn (inv : invocation).

(** The environment of one execution of the script. *)
Record runtime : Type := Runtime {
  clock : nat -> float;                 (* k-th value of time.time() *)
  gauss : nat -> float;                 (* k-th sample of np.random.randn *)
  child : nat -> invocation -> launch   (* behaviour of the k-th launch *)
}.

(** The script's effect state; [log] holds the events so far, oldest
    first. *)
Record state : Type := State {
  log : list event;
  ticks : nat;
  draws : nat;
  spawns : nat
}.

Definition boot : state := State [] 0 0 0.

Definition M (A : Type) : Type := state -> outcome A * state.

Definition ret {A} (a : A) : M A := fun st => (Return a, st).

Definition bind {A B} (m : M A) (k : A -> M B) : M B :=
  fun st =>
    match m st with
    | (Return a, st') => k a st'
    | (Raise e, st') => (Raise e, st')
    end.

Definition raise {A} (e : exn) : M A := fun st => (Raise e, st).

(** [try: body except <the exceptions caught>: handler]. *)
Definition try_except {A} (body : M A) (caught : exn -> bool) (handler : M A)
  : M A :=
  fun st =>
    match body st with
    | (Raise e, st') => if caught e then handler st' else (Raise e, st')
    | r => r
    end.

Definition emit (e : event) (st : state) : state :=
  State (log st ++ [e]) (ticks st) (draws st) (spawns st).

(** [print(line)] *)
Definition print (line : string) : M unit :=
  fun st => (Return tt, emit (Print line) st).

(** [sys.exit(code)] *)
Definition sys_exit {A} (code : Z) : M A := raise (SystemExit code).

Section WithRuntime.
Variable rt : runtime.

(** [time.time()] *)
Definition time_time : M float :=
  fun st =>
    (Return (clock rt (ticks st)),
     State (log st) (S (ticks st)) (draws st) (spawns st)).

(** [np.random.randn(dim)]: the next [dim] samples. *)
Definition randn (dim : nat) : M (list float) :=
  fun st =>
    (Return (map (fun j => gauss rt (draws st + j)) (seq 0 dim)),
     State (log st) (ticks st) (draws st + dim) (spawns st)).

(** Launch a program and wait for it. *)
Definition spawn (inv : invocation) : M launch :=
  fun st =>
    (Return (child rt (spawns st) inv),
     State (log st ++ [Spawn inv]) (ticks st) (draws st) (S (spawns st))).

(** [subprocess.run(args, capture_output=True, check=True)]; the
    streams are captured as bytes and never decoded. *)
Definition subprocess_run_checked (args : list string) : M (string * string) :=
  bind (spawn (Invocation args None)) (fun l =>
    match l with
    | NoSuchFile => raise FileNotFoundError
    | NotExecutable => raise PermissionError
    | Exited rc out err | ExitedUndecodable rc out err =>
        if (rc =? 0)%Z then ret (out, err) else raise (CalledProcessError rc)
    end).

(** [proc = subprocess.Popen(args, stdin=PIPE, stdout=PIPE, stderr=PIPE,
    text=True)] followed by [proc.communicate(input)]; the result is
    [(stdout, stderr, proc.returncode)]. *)
Definition Popen_communicate (args : list string) (input : string)
  : M (string * string * Z) :=
  bind (spawn (Invocation args (Some input))) (fun l =>
    match l with
    | NoSuchFile => raise FileNotFoundError
    | NotExecutable => raise PermissionError
    | Exited rc out err => ret (out, err, rc)
    | ExitedUndecodable _ _ _ => raise UnicodeDecodeError
    end).

End WithRuntime.

(** Conversion of an [int] operand to [float]. *)
Definition float_of_int (n : Z) : M float :=
  let f := Num.Z2float n in
  if is_infinity f then raise OverflowError else ret f.

(** [x / y] on floats: a zero divisor raises. *)
Definition truediv (x y : float) : M float :=
  if is_zero y then raise ZeroDivisionError else ret (x / y)%float.

(** [n / y] for an [int] [n] and a [float] [y]. *)
Definition int_truediv_float (n : Z) (y : float) : M float :=
  bind (float_of_int n) (fun x => truediv x y).

(** [x / n] for a [float] [x] and an [int] [n]. *)
Definition float_truediv_int (x : float) (n : Z) : M float :=
  bind (float_of_int n) (fun y => truediv x y).

(** [l.append(x)] *)
Definition list_append {A} (l : list A) (x : A) : list A := (l ++ [x])%list.

(** [for x in xs: acc = body(x, acc)] *)
Fixpoint for_each {A S} (xs : list A) (body : A -> S -> M S) (acc : S) : M S :=
  match xs with
  | [] => ret acc
  | x :: rest => bind (body x acc) (for_each rest body)
  end.

(** The status the interpreter exits with. *)
Definition exit_status {A} (o : outcome A) : Z :=
  match o with
  | Return _ => 0
  | Raise (SystemExit code) => code
  | Raise _ => 1
  end.

(** The lines written to standard output, oldest first. *)
Fixpoint printed (l : list event) : list string :=
  match l with
  | [] => []
  | Print s :: rest => s :: printed rest
  | Spawn _ :: rest => printed rest
  end.

(** The programs launched, oldest first. *)
Fixpoint spawned (l : list event) : list invocation :=
  match l with
  | [] => []
  | Print _ :: rest => spawned rest
  | Spawn inv :: rest => inv :: spawned rest
  end.

Definition prints (lines : list string) : list event := map Print lines.

(** One execution from the initial state: how it ends and what it did. *)
Definition run {A} (m : M A) : outcome A * list event :=
  let r := m boot in (fst r, log (snd r)).

End Py.

Declare Scope py_scope.
Delimit Scope py_scope with py.
Notation "x <- m ;; k" := (Py.bind m (fun x => k))
  (at level 61, m at next level, right associativity) : py_scope.
Notation "' pat <- m ;; k" := (Py.bind m (fun x => match x with pat => k end))
  (at level 61, pat pattern, m at next level, right associativity) : py_scope.
Notation "m ;; k" := (Py.bind m (fun _ => k))
  (at level 61, right associativity) : py_scope.

(** ** The benchmark script *)

Module Benchmark.
Import Py Text Num.
Local Open Scope py_scope.

(** The line terminator of the command protocol. *)
Definition nl : string := String "010"%char EmptyString.

(** The [# Configuration] block (lines 17-20). *)
Record config : Type := Config {
  NUM_VECTORS : nat;
  DIMENSION : nat;
  BINARY_PATH : string
}.

#[warnings="-abstract-large-number"]
Definition source_config : config :=
  Config 100000 786 "./target/release/kvdb".

Definition vector : Type := list float32.

Section Harness.

(** [str] of a [numpy.float32] scalar, the default string conversion
    that [format_vector] applies to every component.  The script is
    modelled over any such conversion; numpy's own is
    [Numpy.floattype_str]. *)
Variable str_float32 : float32 -> string.
Variable rt : runtime.
Variable cfg : config.

(** [generate_random_vector] (lines 22-24). *)
Definition generate_random_vector (dim : nat) : M vector :=
  xs <- randn rt dim ;;
  ret (map astype_float32 xs).

(** [format_vector] (lines 26-28): [' '.join(map(str, vec))]. *)
Definition format_vector (vec : vector) : string :=
  String.concat " " (map str_float32 vec).

(** Lines 31-36. *)
Definition banner : M unit :=
  print (repeat_string "=" 60) ;;
  print "KVDB Benchmark" ;;
  print (repeat_string "=" 60) ;;
  print ("Number of vectors: " ++ str_nat (NUM_VECTORS cfg)) ;;
  print ("Vector dimension: " ++ str_nat (DIMENSION cfg)) ;;
  print "".

(** The [except] clause of line 41. *)
Definition binary_unavailable (e : exn) : bool :=
  match e with
  | CalledProcessError _ | FileNotFoundError => true
  | _ => false
  end.

(** [# Check if binary exists] (lines 38-44). *)
Definition preflight : M unit :=
  try_except
    (_ <- subprocess_run_checked rt [BINARY_PATH cfg; "count"] ;; ret tt)
    binary_unavailable
    (print ("Error: Could not find binary at " ++ BINARY_PATH cfg) ;;
     print "Please build the project first: cargo build --release" ;;
     sys_exit 1).

(** [# Generate random vectors] (lines 46-53). *)
Definition generate_vectors : M (list (string * vector)) :=
  print "Generating random vectors..." ;;
  vectors <- for_each (seq 0 (NUM_VECTORS cfg))
               (fun i vectors =>
                  vec <- generate_random_vector (DIMENSION cfg) ;;
                  ret (list_append vectors ("vec_" ++ str_nat i, vec)))
               [] ;;
  print ("Generated " ++ str_nat (List.length vectors) ++ " random vectors") ;;
  print "" ;;
  ret vectors.

(** The command list of phase 1 (lines 57-61). *)
Definition insert_commands (vectors : list (string * vector)) : list string :=
  let insert_commands :=
    fold_left
      (fun cmds '(vec_id, vec) =>
         let cmd := "insert " ++ vec_id ++ " " ++ format_vector vec ++ nl in
         list_append cmds cmd)
      vectors [] in
  list_append insert_commands ("exit" ++ nl).

(** [# Phase 1: Benchmark insertions only] (lines 55-81); the result is
    [insert_time]. *)
Definition phase1 (vectors : list (string * vector)) : M float :=
  print "Phase 1: Benchmarking insertions..." ;;
  let insert_commands := insert_commands vectors in
  start_insert <- time_time rt ;;
  '(stdout_insert, stderr_insert, returncode) <-
    Popen_communicate rt [BINARY_PATH cfg] (String.concat "" insert_commands) ;;
  now_ <- time_time rt ;;
  let insert_time := (now_ - start_insert)%float in
  (if negb (returncode =? 0)%Z
   then print "Error during insertion:" ;;
        print stderr_insert ;;
        sys_exit 1
   else ret tt) ;;
  print ("  Inserted " ++ str_nat (NUM_VECTORS cfg) ++ " vectors in "
         ++ format_fixed 3 insert_time ++ " seconds") ;;
  throughput <- int_truediv_float (Z.of_nat (NUM_VECTORS cfg)) insert_time ;;
  print ("  Throughput: " ++ format_fixed 2 throughput ++ " inserts/sec") ;;
  print "" ;;
  ret insert_time.

(** The command list of phase 2 (lines 88-96). *)
Definition all_commands (vectors : list (string * vector))
    (query_vectors : list vector) : list string :=
  let all_commands :=
    fold_left
      (fun cmds '(vec_id, vec) =>
         list_append cmds
           ("insert " ++ vec_id ++ " " ++ format_vector vec ++ nl))
      vectors [] in
  let all_commands :=
    fold_left
      (fun cmds query_vec =>
         list_append cmds
           ("search " ++ format_vector query_vec ++ " --k_top 10" ++ nl))
      query_vectors all_commands in
  list_append all_commands ("exit" ++ nl).

(** [# Phase 2: Benchmark 100 searches] up to the exit-status check
    (lines 83-113); the result is [total_time]. *)
Definition phase2 (vectors : list (string * vector)) : M float :=
  print "Phase 2: Benchmarking 100 random searches..." ;;
  print "  Generating query vectors..." ;;
  query_vectors <- for_each (seq 0 100)
                     (fun _ qs =>
                        q <- generate_random_vector (DIMENSION cfg) ;;
                        ret (list_append qs q))
                     [] ;;
  let all_commands := all_commands vectors query_vectors in
  start_total <- time_time rt ;;
  '(stdout, stderr, returncode) <-
    Popen_communicate rt [BINARY_PATH cfg] (String.concat "" all_commands) ;;
  now_ <- time_time rt ;;
  let total_time := (now_ - start_total)%float in
  (if negb (returncode =? 0)%Z
   then print "Error during search benchmark:" ;;
        print stderr ;;
        sys_exit 1
   else ret tt) ;;
  ret total_time.

(** Lines 115-122: the derived search metrics; the result is
    [(search_time, avg_search_time)]. *)
Definition derive_search (insert_time total_time : float) : M (float * float) :=
  let search_time := (total_time - insert_time)%float in
  let avg_search_time := (search_time / 100)%float in
  print ("  Completed 100 searches in " ++ format_fixed 3 search_time
         ++ " seconds") ;;
  print ("  Average search time: "
         ++ format_fixed 3 (avg_search_time * 1000)%float ++ " ms") ;;
  throughput <- int_truediv_float 100 search_time ;;
  print ("  Search throughput: " ++ format_fixed 2 throughput
         ++ " searches/sec") ;;
  print "" ;;
  ret (search_time, avg_search_time).

(** [# Summary] (lines 124-142). *)
Definition summary (insert_time total_time search_time avg_search_time : float)
  : M unit :=
  print (repeat_string "=" 60) ;;
  print "Benchmark Summary" ;;
  print (repeat_string "=" 60) ;;
  print ("Database size: " ++ format_comma (NUM_VECTORS cfg) ++ " vectors") ;;
  print ("Vector dimension: " ++ str_nat (DIMENSION cfg)) ;;
  print "" ;;
  print "Insertion Performance:" ;;
  print ("  Total time: " ++ format_fixed 3 insert_time ++ " seconds") ;;
  throughput <- int_truediv_float (Z.of_nat (NUM_VECTORS cfg)) insert_time ;;
  print ("  Throughput: " ++ format_fixed 2 throughput ++ " inserts/sec") ;;
  per_insert <- float_truediv_int insert_time (Z.of_nat (NUM_VECTORS cfg)) ;;
  print ("  Average per insert: " ++ format_fixed 3 (per_insert * 1000)%float
         ++ " ms") ;;
  print "" ;;
  print "Search Performance (100 random searches):" ;;
  print ("  Total time: " ++ format_fixed 3 search_time ++ " seconds") ;;
  print ("  Average per search: "
         ++ format_fixed 3 (avg_search_time * 1000)%float ++ " ms") ;;
  throughput <- int_truediv_float 100 search_time ;;
  print ("  Throughput: " ++ format_fixed 2 throughput ++ " searches/sec") ;;
  print "" ;;
  print ("Total benchmark time: " ++ format_fixed 3 total_time ++ " seconds") ;;
  print (repeat_string "=" 60).

(** [main] (lines 30-142). *)
Definition main : M unit :=
  banner ;;
  preflight ;;
  vectors <- generate_vectors ;;
  insert_time <- phase1 vectors ;;
  total_time <- phase2 vectors ;;
  '(search_time, avg_search_time) <- derive_search insert_time total_time ;;
  summary insert_time total_time search_time avg_search_time.

End Harness.

(** *** What one execution computes, read off the runtime

    The vectors and queries a run draws, the two command streams it
    writes and the two elapsed times it measures, as functions of the
    runtime; [run_generate_vectors], [run_query_loop] and the lemmas
    after them show that [main] computes exactly these. *)

Section Expected.
Variable str_float32 : float32 -> string.
Variable rt : runtime.
Variable cfg : config.

(** The vector made of the [DIMENSION] samples from position [d0] on. *)
Definition drawn_vector (d0 : nat) : vector :=
  map astype_float32
    (map (fun j => gauss rt (d0 + j)) (seq 0 (DIMENSION cfg))).

Definition key_of (i : nat) : string := "vec_" ++ str_nat i.

Definition vectors_from (d0 : nat) : list (string * vector) :=
  map (fun i => (key_of i, drawn_vector (d0 + i * DIMENSION cfg)))
    (seq 0 (NUM_VECTORS cfg)).

Definition queries_from (d0 : nat) : list vector :=
  map (fun q => drawn_vector (d0 + q * DIMENSION cfg)) (seq 0 100).

(** The f-string of lines 59 and 91. *)
Definition encode_insert (key : string) (vec : vector) : string :=
  "insert " ++ key ++ " " ++ format_vector str_float32 vec ++ nl.

(** The f-string of line 94. *)
Definition encode_search (vec : vector) : string :=
  "search " ++ format_vector str_float32 vec ++ " --k_top 10" ++ nl.

Definition encode_exit : string := "exit" ++ nl.

Definition preflight_call : invocation :=
  Invocation [BINARY_PATH cfg; "count"] None.

Definition phase1_call : invocation :=
  Invocation [BINARY_PATH cfg]
    (Some (String.concat ""
             (insert_commands str_float32 (vectors_from 0)))).

Definition phase2_call : invocation :=
  Invocation [BINARY_PATH cfg]
    (Some (String.concat ""
             (all_commands str_float32 (vectors_from 0)
                (queries_from (NUM_VECTORS cfg * DIMENSION cfg))))).

(** Elapsed wall time of phase 1 and of phase 2. *)
Definition insert_time_of : float := (clock rt 1 - clock rt 0)%float.
Definition total_time_of : float := (clock rt 3 - clock rt 2)%float.

(** The groups of lines the script prints. *)
Definition rule : string := repeat_string "=" 60.

Definition banner_lines : list string :=
  [rule; "KVDB Benchmark"; rule;
   "Number of vectors: " ++ str_nat (NUM_VECTORS cfg);
   "Vector dimension: " ++ str_nat (DIMENSION cfg); ""].

Definition build_hint_lines : list string :=
  ["Error: Could not find binary at " ++ BINARY_PATH cfg;
   "Please build the project first: cargo build --release"].

Definition generation_lines : list string :=
  ["Generating random vectors...";
   "Generated " ++ str_nat (NUM_VECTORS cfg) ++ " random vectors"; ""].

Definition inserted_line : string :=
  "  Inserted " ++ str_nat (NUM_VECTORS cfg) ++ " vectors in "
  ++ format_fixed 3 insert_time_of ++ " seconds".

Definition insert_throughput_line : string :=
  "  Throughput: "
  ++ format_fixed 2 (Z2float (Z.of_nat (NUM_VECTORS cfg)) / insert_time_of)%float
  ++ " inserts/sec".

Definition search_time_of : float := (total_time_of - insert_time_of)%float.
Definition avg_search_time_of : float := (search_time_of / 100)%float.

Definition search_report_lines : list string :=
  ["  Completed 100 searches in " ++ format_fixed 3 search_time_of ++ " seconds";
   "  Average search time: "
     ++ format_fixed 3 (avg_search_time_of * 1000)%float ++ " ms"].

Definition search_throughput_line : string :=
  "  Search throughput: " ++ format_fixed 2 (100 / search_time_of)%float
  ++ " searches/sec".

Definition summary_head_lines : list string :=
  [rule; "Benchmark Summary"; rule;
   "Database size: " ++ format_comma (NUM_VECTORS cfg) ++ " vectors";
   "Vector dimension: " ++ str_nat (DIMENSION cfg); "";
   "Insertion Performance:";
   "  Total time: " ++ format_fixed 3 insert_time_of ++ " seconds";
   insert_throughput_line].

Definition summary_tail_lines : list string :=
  ["  Average per insert: "
     ++ format_fixed 3
          (insert_time_of / Z2float (Z.of_nat (NUM_VECTORS cfg)) * 1000)%float
     ++ " ms";
   "";
   "Search Performance (100 random searches):";
   "  Total time: " ++ format_fixed 3 search_time_of ++ " seconds";
   "  Average per search: "
     ++ format_fixed 3 (avg_search_time_of * 1000)%float ++ " ms";
   "  Throughput: " ++ format_fixed 2 (100 / search_time_of)%float
     ++ " searches/sec";
   "";
   "Total benchmark time: " ++ format_fixed 3 total_time_of ++ " seconds";
   rule].

(** Events up to and including the launch of each process. *)
Definition events_to_preflight : list event :=
  (prints banner_lines ++ [Spawn preflight_call])%list.

Definition events_to_phase1 : list event :=
  (events_to_preflight ++ prints generation_lines
   ++ prints ["Phase 1: Benchmarking insertions..."] ++ [Spawn phase1_call])%list.

Definition events_to_phase2 : list event :=
  (events_to_phase1
   ++ prints [inserted_line; insert_throughput_line; "";
              "Phase 2: Benchmarking 100 random searches...";
              "  Generating query vectors..."]
   ++ [Spawn phase2_call])%list.

(** The whole behaviour of [main] as a decision list over the runtime:
    each test is one point where the script can stop. *)
Definition expected_run : outcome unit * list event :=
  match child rt 0 preflight_call with
  | NoSuchFile =>
      (Raise (SystemExit 1), events_to_preflight ++ prints build_hint_lines)
  | NotExecutable => (Raise PermissionError, events_to_preflight)
  | Exited rc0 _ _ | ExitedUndecodable rc0 _ _ =>
  if negb (rc0 =? 0)%Z then
    (Raise (SystemExit 1), events_to_preflight ++ prints build_hint_lines)
  else
  match child rt 1 phase1_call with
  | NoSuchFile => (Raise FileNotFoundError, events_to_phase1)
  | NotExecutable => (Raise PermissionError, events_to_phase1)
  | ExitedUndecodable _ _ _ => (Raise UnicodeDecodeError, events_to_phase1)
  | Exited rc1 _ err1 =>
  if negb (rc1 =? 0)%Z then
    (Raise (SystemExit 1),
     events_to_phase1 ++ prints ["Error during insertion:"; err1])
  else if is_infinity (Z2float (Z.of_nat (NUM_VECTORS cfg))) then
    (Raise OverflowError, events_to_phase1 ++ prints [inserted_line])
  else if is_zero insert_time_of then
    (Raise ZeroDivisionError, events_to_phase1 ++ prints [inserted_line])
  else
  match child rt 2 phase2_call with
  | NoSuchFile => (Raise FileNotFoundError, events_to_phase2)
  | NotExecutable => (Raise PermissionError, events_to_phase2)
  | ExitedUndecodable _ _ _ => (Raise UnicodeDecodeError, events_to_phase2)
  | Exited rc2 _ err2 =>
  if negb (rc2 =? 0)%Z then
    (Raise (SystemExit 1),
     events_to_phase2 ++ prints ["Error during search benchmark:"; err2])
  else if is_zero search_time_of then
    (Raise ZeroDivisionError, events_to_phase2 ++ prints search_report_lines)
  else if is_zero (Z2float (Z.of_nat (NUM_VECTORS cfg))) then
    (Raise ZeroDivisionError,
     events_to_phase2 ++ prints search_report_lines
     ++ prints [search_throughput_line; ""] ++ prints summary_head_lines)
  else
    (Return tt,
     events_to_phase2 ++ prints search_report_lines
     ++ prints [search_throughput_line; ""] ++ prints summary_head_lines
     ++ prints summary_tail_lines)
  end end end%list.

End Expected.

(** The pre-flight launch does not succeed: the binary is missing or
    [count] exits with a non-zero status. *)
Definition preflight_fails (rt : runtime) (cfg : config) : Prop :=
  match child rt 0 (preflight_call cfg) with
  | NoSuchFile => True
  | NotExecutable => False
  | Exited rc _ _ | ExitedUndecodable rc _ _ => rc <> 0%Z
  end.

(** The process ran and exited with status 0. *)
Definition exits_0 (l : launch) : Prop :=
  match l with
  | Exited rc _ _ | ExitedUndecodable rc _ _ => rc = 0%Z
  | _ => False
  end.

(** The process ran and exited with status 0, and its output is text. *)
Definition exits_0_with_text (l : launch) : Prop :=
  match l with
  | Exited rc _ _ => rc = 0%Z
  | _ => False
  end.

Definition is_insert_command (c : string) : bool := starts_with "insert " c.
Definition is_search_command (c : string) : bool := starts_with "search " c.

(** Some line of [lines] is [label ++ value ++ unit_]. *)
Definition reports (lines : list string) (label value unit_ : string) : Prop :=
  In (label ++ value ++ unit_) lines.

Definition ends_with (suffix s : string) : Prop :=
  exists front, s = front ++ suffix.

End Benchmark.

(** ** A reference reader for one float *)

Module Reader.
Import Num.
Local Open Scope list_scope.
Local Open Scope Z_scope.

(** Modelled from the spec: the reader of one component in the
    reference parser of the round-trip property of section 8, which the
    source does not contain.  It reads a decimal numeral, with an
    optional sign, fraction and exponent, or [inf], [infinity] or [nan],
    and returns the single-precision value nearest to the number
    written, ties going to the even mantissa, as a correctly rounded
    conversion to the target's floating-point precision does. *)

(** [q] is the integer part of the number scaled by [2^150] and [sticky]
    tells whether a fraction was cut off: keep 24 bits ([k] bits are
    dropped, at least one, which gives the subnormal numbers their fixed
    exponent), round to nearest, ties to even, and renormalise a
    mantissa that reaches [2^24]. *)
Definition round_bits (q : Z) (sticky : bool) : Z * Z :=
  let k := Z.max 1 (Z.log2 q + 1 - 24) in
  let m0 := q / 2 ^ k in
  let rest := q mod 2 ^ k in
  let half := 2 ^ (k - 1) in
  let up := (half <? rest) || ((rest =? half) && (sticky || Z.odd m0)) in
  let m1 := if up then m0 + 1 else m0 in
  if m1 =? 2 ^ 24 then (2 ^ 23, k - 150 + 1) else (m1, k - 150).

(** The binary32 value nearest to the positive rational [n / d]; an
    infinity beyond the largest finite value. *)
Definition round_ratio (s : bool) (n d : Z) : float32 :=
  let '(m, e) :=
    round_bits ((n * 2 ^ 150) / d) (negb ((n * 2 ^ 150) mod d =? 0)) in
  match m with
  | Zpos p => if 104 <? e then S754_infinity s else S754_finite s p e
  | _ => S754_zero s
  end.

(** The binary32 value nearest to [n * 10^p]. *)
Definition decimal_to_float32 (s : bool) (n p : Z) : float32 :=
  if n =? 0 then S754_zero s
  else if 0 <=? p then round_ratio s (n * 10 ^ p) 1
  else round_ratio s n (10 ^ (- p)).

Definition digit_value (c : ascii) : option Z :=
  let n := nat_of_ascii c in
  if ((48 <=? n) && (n <=? 57))%nat then Some (Z.of_nat n - 48) else None.

(** The longest prefix of decimal digits, and what follows it. *)
Fixpoint read_digits (s : string) : list Z * string :=
  match s with
  | String c rest =>
      match digit_value c with
      | Some d => let '(ds, tail) := read_digits rest in (d :: ds, tail)
      | None => ([], s)
      end
  | EmptyString => ([], s)
  end.

(** What may follow a run of digits. *)
Definition stops (rest : string) : Prop :=
  match rest with
  | EmptyString => True
  | String c _ => digit_value c = None
  end.

Definition number (ds : list Z) : Z :=
  fold_left (fun acc d => 10 * acc + d) ds 0.

Definition read_sign (s : string) : bool * string :=
  match s with
  | String "-" rest => (true, rest)
  | String "+" rest => (false, rest)
  | _ => (false, s)
  end.

Definition read_exponent (s : string) : option Z :=
  match s with
  | EmptyString => Some 0
  | String c rest =>
      if Ascii.eqb c "e" || Ascii.eqb c "E" then
        let '(neg, rest) := read_sign rest in
        match read_digits rest with
        | (d :: ds, EmptyString) =>
            Some (if neg then - number (d :: ds) else number (d :: ds))
        | _ => None
        end
      else None
  end.

Definition read_number (s : bool) (body : string) : option float32 :=
  let '(whole, rest) := read_digits body in
  let '(frac, rest) :=
    match rest with
    | String "." rest' => read_digits rest'
    | _ => ([], rest)
    end in
  match whole ++ frac with
  | [] => None
  | ds =>
      match read_exponent rest with
      | Some ex =>
          Some (decimal_to_float32 s (number ds)
                  (ex - Z.of_nat (List.length frac)))
      | None => None
      end
  end.

Definition parse_f32 (text : string) : option float32 :=
  let '(s, body) := read_sign text in
  if String.eqb body "inf" || String.eqb body "infinity" then
    Some (S754_infinity s)
  else if String.eqb body "nan" then Some S754_nan
  else read_number s body.

End Reader.

(** ** A reference parser for [insert] lines *)

Module Reference.
Import Text Num.

(** Drop the final newline of a line; [None] when there is none. *)
Fixpoint chomp (s : string) : option string :=
  match s with
  | EmptyString => None
  | String c rest =>
      match rest with
      | EmptyString => if Ascii.eqb c "010" then Some EmptyString else None
      | _ => option_map (String c) (chomp rest)
      end
  end.

(** Cut a text at its first space: the field before it and the rest. *)
Fixpoint cut (s : string) : option (string * string) :=
  match s with
  | EmptyString => None
  | String c rest =>
      if Ascii.eqb c " " then Some (EmptyString, rest)
      else match cut rest with
           | Some (field, tail) => Some (String c field, tail)
           | None => None
           end
  end.

(** Python [s.split(" ")]. *)
Fixpoint split_spaces (s : string) : list string :=
  match s with
  | EmptyString => [EmptyString]
  | String c rest =>
      if Ascii.eqb c " " then EmptyString :: split_spaces rest
      else match split_spaces rest with
           | [] => [String c EmptyString]
           | field :: fields => String c field :: fields
           end
  end.

Definition nonempty (s : string) : bool :=
  match s with EmptyString => false | _ => true end.

(** The space-separated fields of a text, empty fields dropped. *)
Definition fields (s : string) : list string :=
  filter nonempty (split_spaces s).

Fixpoint all_some {A} (l : list (option A)) : option (list A) :=
  match l with
  | [] => Some []
  | None :: _ => None
  | Some a :: rest => option_map (cons a) (all_some rest)
  end.

Section Parser.
(** The reader of one float32 field. *)
Variable parse_float32 : string -> option float32.

(** Modelled from the spec: the reference parser of the round-trip
    property of section 8, which the source does not contain.  It reads
    a line [insert <key> <f1> ... <fn>] terminated by a newline: the
    command word up to the first space, the key up to the next space,
    then the space-separated components. *)
Definition parse_insert (line : string) : option (string * list float32) :=
  match chomp line with
  | None => None
  | Some body =>
      match cut body with
      | None => None
      | Some (word, rest) =>
          if String.eqb word "insert" then
            match cut rest with
            | None => None
            | Some (key, comps) =>
                option_map (pair key)
                  (all_some (map parse_float32 (fields comps)))
            end
          else None
      end
  end.

End Parser.

End Reference.

(** ** Sample runtimes *)

Module Sample.
Import Py Text Num Benchmark.

Definition cfg : config := Config 2 2 "./target/release/kvdb".

Definition clock (k : nat) : float :=
  match k with
  | 0 => 10
  | 1 => 12
  | 2 => 20
  | _ => 25
  end%float.

Definition gauss (k : nat) : float :=
  match Nat.modulo k 4 with
  | 0 => 0.5
  | 1 => -2
  | 2 => 1
  | _ => 0.25
  end%float.

(** A database that accepts everything. *)
Definition rt_ok : runtime :=
  Runtime clock gauss (fun _ _ => Exited 0 "" "").

(** No binary has been built. *)
Definition rt_missing : runtime :=
  Runtime clock gauss (fun _ _ => NoSuchFile).


(** numpy's text for the four sample values 0.5, -2.0, 1.0 and 0.25;
    the table does not cover other values. *)
Definition str_float32 (x : float32) : string :=
  match x with
  | S754_finite false 8388608 (-24) => "0.5"
  | S754_finite true 8388608 (-22) => "-2.0"
  | S754_finite false 8388608 (-23) => "1.0"
  | S754_finite false 8388608 (-25) => "0.25"
  | _ => "nan"
  end.

(** The matching reader. *)
Definition parse_float32 (s : string) : option float32 :=
  if String.eqb s "0.5" then Some (S754_finite false 8388608 (-24))
  else if String.eqb s "-2.0" then Some (S754_finite true 8388608 (-22))
  else if String.eqb s "1.0" then Some (S754_finite false 8388608 (-23))
  else if String.eqb s "0.25" then Some (S754_finite false 8388608 (-25))
  else None.

End Sample.

(** ** Further runtimes *)

Module Scenario.
Import Py Benchmark.

(** A clock that stands still. *)
Definition frozen_clock_rt : runtime :=
  Runtime (fun _ => 7%float) Sample.gauss (fun _ _ => Exited 0 "" "").

(** Phase 2 takes exactly as long as phase 1. *)
Definition equal_phases_rt : runtime :=
  Runtime (fun k => match k with 0 => 1 | 1 => 3 | 2 => 5 | _ => 7 end%float)
    Sample.gauss (fun _ _ => Exited 0 "" "").

(** No vector to insert. *)
Definition empty_cfg : config := Config 0 2 "./target/release/kvdb".

(** The binary is there for the pre-flight check only. *)
Definition lost_binary_rt : runtime :=
  Runtime Sample.clock Sample.gauss
    (fun n _ => if Nat.eqb n 0 then Exited 0 "" "" else NoSuchFile).

End Scenario.

Declare Scope wiki_scope.

(** ** The Wikipedia fetch script (examples/fetch_wikipedia.py) *)

Module Wiki.
Import Text Num.

Inductive exn : Type :=
| RequestException (msg : string)
| KeyError (key : string)
| OSError.

Inductive outcome (A : Type) : Type :=
| Return (a : A)
| Raise (e : exn).
Arguments Return {A} a.
Arguments Raise {A} e.

(** A value of the [params] dictionary of a request. *)
Inductive param : Type :=
| PStr (s : string)
| PInt (n : Z).

(** The arguments of one [requests.get] call. *)
Record request : Type := Request {
  url : string;
  params : list (string * param);
  headers : list (string * string);
  timeout : Z
}.

(** One object of the [pages] mapping of a reply; either field may be
    absent. *)
Record page : Type := Page {
  page_title : option string;
  page_description : option string
}.

(** The JSON bodies the script distinguishes: [{"query": {"random":
    [entry, ...]}}], each entry an object with its ["title"] or without
    one; [{"query": {"pages": {id: page, ...}}}] (pages in the order of
    the mapping); and a body without ["query"], such as an API error
    object. *)
Inductive body : Type :=
| RandomList (entries : list (option string))
| PageSet (pages : list page)
| NoQuery.

(** What [requests.get], [raise_for_status] and [json] come to: one of
    them raises a [RequestException], or the body is decoded. *)
Inductive reply : Type :=
| Failed (msg : string)
| Json (b : body).

Inductive event : Type :=
| Print (line : string)
| Get (req : request)
| Sleep (seconds : float)
| Write (path content : string).

(** The environment: the reply to the k-th request, and whether the
    output file can be opened for writing. *)
Record world : Type := World {
  web : nat -> request -> reply;
  can_open : bool
}.

Record state : Type := State {
  log : list event;
  requests : nat
}.

Definition boot : state := State [] 0.

Definition M (A : Type) : Type := state -> outcome A * state.

Definition ret {A} (a : A) : M A := fun st => (Return a, st).

Definition bind {A B} (m : M A) (k : A -> M B) : M B :=
  fun st =>
    match m st with
    | (Return a, st') => k a st'
    | (Raise e, st') => (Raise e, st')
    end.

Definition raise {A} (e : exn) : M A := fun st => (Raise e, st).

Definition emit (e : event) : M unit :=
  fun st => (Return tt, State (log st ++ [e]) (requests st)).

(** [print(line)] *)
Definition print (line : string) : M unit := emit (Print line).

(** [time.sleep(seconds)] *)
Definition time_sleep (seconds : float) : M unit := emit (Sleep seconds).

(** [try: body except requests.RequestException as e: handler(e)] *)
Definition try_except_request {A} (body : M A) (handler : string -> M A) : M A :=
  fun st =>
    match body st with
    | (Raise (RequestException msg), st') => handler msg st'
    | r => r
    end.

(** [for x in xs: acc = body(x, acc)] *)
Fixpoint for_each {A S} (xs : list A) (body : A -> S -> M S) (acc : S) : M S :=
  match xs with
  | [] => ret acc
  | x :: rest => bind (body x acc) (for_each rest body)
  end.

(** An insertion-ordered [dict] with string keys. *)
Definition pydict : Type := list (string * string).

(** [d[k] = v]: an existing key keeps its place and takes the new value,
    a new key goes last. *)
Fixpoint dict_set (d : pydict) (k v : string) : pydict :=
  match d with
  | [] => [(k, v)]
  | (k', v') :: rest =>
      if String.eqb k' k then (k', v) :: rest
      else (k', v') :: dict_set rest k v
  end.

(** [d.update(other)] *)
Definition dict_update (d other : pydict) : pydict :=
  fold_left (fun acc kv => dict_set acc (fst kv) (snd kv)) other d.

(** [range(0, stop, step)] for [step > 0]. *)
Definition range_step (stop step : nat) : list nat :=
  map (fun k => k * step) (seq 0 ((stop + step - 1) / step)).

(** [xs[i:j]] for [0 <= i <= j]. *)
Definition slice {A} (xs : list A) (i j : nat) : list A :=
  firstn (j - i) (skipn i xs).

(** Truth value of a [str]. *)
Definition truthy (s : string) : bool :=
  match s with EmptyString => false | _ => true end.

(** [o.get(key, "")] on an object whose field [key] is [o]. *)
Definition get_or_empty (o : option string) : string :=
  match o with Some s => s | None => "" end.

Definition API_URL : string := "https://en.wikipedia.org/w/api.php".
Definition HEADERS : list (string * string) :=
  [("User-Agent", "kvdb-demo/1.0 (vector database demo; educational project)")].

(** The constants of lines 18-20. *)
Record config : Type := Config {
  TARGET : nat;
  BATCH_SIZE : nat;
  OUTPUT_FILE : string
}.

#[warnings="-abstract-large-number"]
Definition source_config : config :=
  Config 100000 500 "examples/wikipedia_100k.json".

Notation "x <- m ;; k" := (bind m (fun x => k))
  (at level 61, m at next level, right associativity) : wiki_scope.
Notation "m ;; k" := (bind m (fun _ => k))
  (at level 61, right associativity) : wiki_scope.
Local Open Scope wiki_scope.

(** [[page["title"] for page in entries]] (line 35): the titles in
    order, or nothing when an entry has no title. *)
Fixpoint titles_of (entries : list (option string)) : option (list string) :=
  match entries with
  | [] => Some []
  | Some t :: rest => option_map (cons t) (titles_of rest)
  | None :: _ => None
  end.

(** The arguments of both [requests.get] calls (lines 32 and 50). *)
Definition api_request (params : list (string * param)) : request :=
  Request API_URL params HEADERS 30.

Section Script.
Variable w : world.

(** [resp = requests.get(API_URL, params=params, headers=HEADERS,
    timeout=30); resp.raise_for_status(); resp.json()] *)
Definition get_json (params : list (string * param)) : M body :=
  fun st =>
    let req := api_request params in
    let st' := State (log st ++ [Get req]) (S (requests st)) in
    match web w (requests st) req with
    | Failed msg => (Raise (RequestException msg), st')
    | Json b => (Return b, st')
    end.

(** The [params] of [fetch_random_titles] (lines 25-31). *)
Definition random_params (count : nat) : list (string * param) :=
  [("action", PStr "query"); ("format", PStr "json"); ("list", PStr "random");
   ("rnnamespace", PInt 0); ("rnlimit", PInt (Z.of_nat count))].

(** [fetch_random_titles] (lines 23-35). *)
Definition fetch_random_titles (count : nat) : M (list string) :=
  data <- get_json (random_params count) ;;
  match data with
  | RandomList entries =>
      match titles_of entries with
      | Some titles => ret titles
      | None => raise (KeyError "title")
      end
  | PageSet _ => raise (KeyError "random")
  | NoQuery => raise (KeyError "query")
  end.

(** The [params] of [fetch_descriptions] (lines 44-49). *)
Definition description_params (batch : list string) : list (string * param) :=
  [("action", PStr "query"); ("format", PStr "json");
   ("titles", PStr (String.concat "|" batch)); ("prop", PStr "description")].

(** Lines 53-57: one page of a reply. *)
Definition add_page (results : pydict) (p : page) : pydict :=
  let title := get_or_empty (page_title p) in
  let desc := get_or_empty (page_description p) in
  if truthy title && truthy desc then dict_set results title desc
  else results.

(** [resp.json().get("query", {}).get("pages", {})] with [.values()]. *)
Definition pages_of (b : body) : list page :=
  match b with
  | PageSet pages => pages
  | _ => []
  end.

(** Lines 44-57: the request for one batch and the pages of its reply. *)
Definition describe_batch (batch : list string) (results : pydict) : M pydict :=
  data <- get_json (description_params batch) ;;
  ret (fold_left add_page (pages_of data) results).

(** [fetch_descriptions] (lines 38-58). *)
Definition fetch_descriptions (titles : list string) : M pydict :=
  for_each (range_step (List.length titles) 50)
    (fun i results => describe_batch (slice titles i (i + 50)) results)
    [].

(** The two serialisations of the result, [json.dump(pages_list, f,
    ensure_ascii=False, indent=2)] and [json.dumps(pages_list,
    ensure_ascii=False)], as functions of the list of (title,
    description) pairs. *)
Variable json_dump_indent2 : list (string * string) -> string.
Variable json_dumps : list (string * string) -> string.

Variable cfg : config.

(** The progress line of lines 82-83.  The quotient of two [int]s is
    correctly rounded; for operands below 2^53 it is the binary64
    quotient of their conversions, as written here. *)
Definition batch_line (batch_num added collected : nat) : string :=
  "  Batch " ++ str_nat batch_num ++ ": +" ++ str_nat added ++ " pages ("
  ++ str_nat collected ++ "/" ++ str_nat (TARGET cfg) ++ ", "
  ++ format_fixed 1
       (Z2float (Z.of_nat (collected * 100)) / Z2float (Z.of_nat (TARGET cfg)))%float
  ++ "%)".

(** The retry line of line 89. *)
Definition error_line (batch_num : nat) (e : string) : string :=
  "  Batch " ++ str_nat batch_num ++ ": Error - " ++ e ++ ", retrying in 5s...".

(** The body of the [try] of lines 73-86. *)
Definition batch_step (all_pages : pydict) (batch_num fetch_count : nat)
  : M pydict :=
  titles <- fetch_random_titles fetch_count ;;
  described <- fetch_descriptions titles ;;
  let all_pages := dict_update all_pages described in
  let collected := List.length all_pages in
  print (batch_line batch_num (List.length described) collected) ;;
  time_sleep 0.5 ;;
  ret all_pages.

(** One pass through the body of the [while] loop (lines 69-91). *)
Definition iteration (all_pages : pydict) (batch_num : nat) : M pydict :=
  let remaining := TARGET cfg - List.length all_pages in
  let fetch_count := Nat.min (BATCH_SIZE cfg) remaining in
  try_except_request
    (batch_step all_pages batch_num fetch_count)
    (fun e =>
       print (error_line batch_num e) ;;
       time_sleep 5 ;;
       ret all_pages).

(** The [while] loop of lines 68-91, run for at most [fuel] iterations;
    [None] when the loop has not ended by then. *)
Fixpoint collect (fuel : nat) (all_pages : pydict) (batch_num : nat)
  : M (option pydict) :=
  if (List.length all_pages <? TARGET cfg)%nat then
    match fuel with
    | O => ret None
    | S fuel' =>
        let batch_num := batch_num + 1 in
        all_pages <- iteration all_pages batch_num ;;
        collect fuel' all_pages batch_num
    end
  else ret (Some all_pages).

(** Lines 93-110: trim, save and report. *)
Definition save (all_pages : pydict) : M unit :=
  let pages_list := firstn (TARGET cfg) all_pages in
  (if can_open w
   then emit (Write (OUTPUT_FILE cfg) (json_dump_indent2 pages_list))
   else raise OSError) ;;
  print (Benchmark.nl ++ "Done! Saved " ++ str_nat (List.length pages_list)
         ++ " pages to " ++ OUTPUT_FILE cfg) ;;
  let file_size_mb :=
    (Z2float (Z.of_nat (String.length (json_dumps pages_list))) / 1048576)%float in
  print ("File size: ~" ++ format_fixed 1 file_size_mb ++ " MB") ;;
  print (Benchmark.nl ++ "Sample entries:") ;;
  for_each (firstn 5 pages_list)
    (fun page _ => print ("  [" ++ fst page ++ "] " ++ snd page))
    tt.

(** [main] (lines 61-110), with the loop bounded by [fuel]. *)
Definition main (fuel : nat) : M (option unit) :=
  print ("Fetching " ++ str_nat (TARGET cfg) ++ " random Wikipedia pages...") ;;
  print ("Output: " ++ OUTPUT_FILE cfg ++ Benchmark.nl) ;;
  r <- collect fuel [] 0 ;;
  match r with
  | None => ret None
  | Some all_pages => save all_pages ;; ret (Some tt)
  end.

End Script.

(** The batches of lines 42-43. *)
Definition batches_of (titles : list string) : list (list string) :=
  map (fun i => slice titles i (i + 50)) (range_step (List.length titles) 50).

Definition random_get (count : nat) : event :=
  Get (api_request (random_params count)).

Definition description_get (batch : list string) : event :=
  Get (api_request (description_params batch)).

(** What one pass through the loop leaves in the log when it does not
    end the script: the request for random titles, the requests for
    descriptions, one printed line and one pause. *)
Record round : Type := Round {
  asked : nat;
  batches : list (list string);
  line : string;
  pause : float
}.

Definition events_of (r : round) : list event :=
  random_get (asked r) :: map description_get (batches r)
  ++ [Print (line r); Sleep (pause r)].

(** A page of a reply to a description request, with both fields. *)
Definition from_reply (w : world) (t d : string) : Prop :=
  exists k batch pages,
    web w k (api_request (description_params batch)) = Json (PageSet pages)
    /\ In (Page (Some t) (Some d)) pages.

(** Distinct keys, with [P] on every entry. *)
Definition entries_ok (P : string -> string -> Prop) (d : pydict) : Prop :=
  NoDup (map fst d) /\ forall t v, In (t, v) d -> P t v.

(** Distinct keys, and every entry a titled, described page of some
    reply. *)
Definition sound (w : world) (d : pydict) : Prop :=
  entries_ok (fun t v => t <> "" /\ v <> "" /\ from_reply w t v) d.

(** A number of random titles within the limits of the configuration. *)
Definition count_ok (cfg : config) (c : nat) : Prop :=
  (c <= BATCH_SIZE cfg)%nat /\ (c <= TARGET cfg)%nat
  /\ (1 <= BATCH_SIZE cfg -> 1 <= c)%nat.

(** A round within the limits of the API and of the configuration. *)
Definition round_ok (cfg : config) (r : round) : Prop :=
  count_ok cfg (asked r)
  /\ Forall (fun b => 1 <= List.length b <= 50)%nat (batches r)
  /\ (pause r = 0.5%float \/ pause r = 5%float).

(** The key that line 35 does not find in a reply to a request for
    random titles. *)
Definition missing_key (b : body) (key : string) : Prop :=
  match b with
  | NoQuery => key = "query"
  | PageSet _ => key = "random"
  | RandomList entries => key = "title" /\ In None entries
  end.

(** Replies no longer than what was asked for. *)
Definition well_behaved (w : world) : Prop :=
  (forall k c entries,
     web w k (api_request (random_params c)) = Json (RandomList entries) ->
     (List.length entries <= c)%nat)
  /\ (forall k batch pages,
        web w k (api_request (description_params batch)) = Json (PageSet pages) ->
        (List.length pages <= List.length batch)%nat).

(** A web that always brings something new: a request for at least one
    random title is answered with at least one title, and the reply to
    the [k]-th request, when it asks for descriptions, holds a titled
    and described page that is born at [k], and no page born later. *)
Definition productive (w : world) (born : string -> nat) : Prop :=
  (forall k c, (1 <= c)%nat ->
     exists titles,
       web w k (api_request (random_params c))
       = Json (RandomList (map Some titles))
       /\ titles <> [])
  /\ (forall k batch,
        exists pages,
          web w k (api_request (description_params batch)) = Json (PageSet pages)
          /\ (forall p t, In p pages -> page_title p = Some t -> (born t <= k)%nat)
          /\ exists t d,
               In (Page (Some t) (Some d)) pages
               /\ t <> "" /\ d <> "" /\ born t = k).

(** [productive], asked only of the requests that the script can send
    when every random title satisfies [ok]: requests for at least one
    random title, and requests for the descriptions of a non-empty batch
    of such titles. *)
Definition productive_on (ok : string -> Prop) (w : world)
    (born : string -> nat) : Prop :=
  (forall k c, (1 <= c)%nat ->
     exists titles,
       web w k (api_request (random_params c))
       = Json (RandomList (map Some titles))
       /\ titles <> [] /\ Forall ok titles)
  /\ (forall k batch,
        batch <> [] -> Forall ok batch ->
        exists pages,
          web w k (api_request (description_params batch)) = Json (PageSet pages)
          /\ (forall p t, In p pages -> page_title p = Some t -> (born t <= k)%nat)
          /\ exists t d,
               In (Page (Some t) (Some d)) pages
               /\ t <> "" /\ d <> "" /\ born t = k).

(** The two lines printed before the loop (lines 65-66). *)
Definition preamble (cfg : config) : list event :=
  [Print ("Fetching " ++ str_nat (TARGET cfg) ++ " random Wikipedia pages...");
   Print ("Output: " ++ OUTPUT_FILE cfg ++ Benchmark.nl)].


(** The log of a sequence of rounds. *)
Definition rounds_events (rs : list round) : list event :=
  List.concat (map events_of rs).

(** What is printed after the file is written (lines 103-110). *)
Definition report (cfg : config) (json_dumps : list (string * string) -> string)
    (pages_list : list (string * string)) : list event :=
  [Print (Benchmark.nl ++ "Done! Saved " ++ str_nat (List.length pages_list)
          ++ " pages to " ++ OUTPUT_FILE cfg);
   Print ("File size: ~"
          ++ format_fixed 1
               (Z2float (Z.of_nat (String.length (json_dumps pages_list)))
                / 1048576)%float
          ++ " MB");
   Print (Benchmark.nl ++ "Sample entries:")]
  ++ map (fun page => Print ("  [" ++ fst page ++ "] " ++ snd page))
       (firstn 5 pages_list).

Definition run {A} (m : M A) : outcome A * list event :=
  let r := m boot in (fst r, log (snd r)).

(** The requests of a log, oldest first. *)
Fixpoint gets (l : list event) : list request :=
  match l with
  | [] => []
  | Get r :: rest => r :: gets rest
  | _ :: rest => gets rest
  end.

(** The files written, oldest first. *)
Fixpoint writes (l : list event) : list (string * string) :=
  match l with
  | [] => []
  | Write p c :: rest => (p, c) :: writes rest
  | _ :: rest => writes rest
  end.

End Wiki.

(** A small scenario for the fetch script: three pages wanted, two
    titles per random request; the web answers a fixed sequence of
    requests and fails any other. *)
Module WikiSample.
Import Wiki.

Definition param_eqb (a b : param) : bool :=
  match a, b with
  | PStr s, PStr t => String.eqb s t
  | PInt n, PInt m => Z.eqb n m
  | _, _ => false
  end.

Fixpoint params_eqb (a b : list (string * param)) : bool :=
  match a, b with
  | [], [] => true
  | (k, v) :: a', (k', v') :: b' =>
      String.eqb k k' && param_eqb v v' && params_eqb a' b'
  | _, _ => false
  end.

Definition cfg : config := Config 3 2 "pages.json".

Definition described (t d : string) : page := Page (Some t) (Some d).

Definition script : list (list (string * param) * reply) :=
  [ (random_params 2, Json (RandomList [Some "Ada"; Some "Bob"]));
    (description_params ["Ada"; "Bob"],
     Json (PageSet [described "Ada" "first"; Page (Some "Bob") None]));
    (random_params 2, Failed "timed out");
    (random_params 2, Json (RandomList [Some "Cy"; Some "Ada"]));
    (description_params ["Cy"; "Ada"],
     Json (PageSet [described "Cy" "third"; described "Ada" "again"]));
    (random_params 1, Json (RandomList [Some "Dee"]));
    (description_params ["Dee"],
     Json (PageSet [described "Dee" "fourth"])) ].

Definition web (k : nat) (req : request) : reply :=
  match nth_error script k with
  | Some (ps, r) =>
      if params_eqb (params req) ps then r else Failed "unexpected request"
  | None => Failed "unexpected request"
  end.

Definition world_ok : world := World web true.

(** Nothing to fetch. *)
Definition cfg_none : config := Config 0 2 "pages.json".


(** A web that answers the [k]-th request with one random title, or
    with the description of a page named after [k]. *)
Definition world_fresh : world :=
  World (fun k req =>
           match params req with
           | _ :: _ :: ("list", _) :: _ => Json (RandomList [Some "anything"])
           | _ => Json (PageSet [described ("p" ++ Text.str_nat k) "a page"])
           end)
        true.

(** The request a title of [world_fresh] comes from. *)
Definition born (t : string) : nat :=
  match t with
  | String _ digits =>
      match NilEmpty.uint_of_string digits with
      | Some u => Nat.of_uint u
      | None => 0
      end
  | EmptyString => 0
  end.



(** A web on which every request fails. *)
Definition world_down : world := World (fun _ _ => Failed "unreachable") true.

(** A web whose first reply is an API error object. *)
Definition world_error_body : world := World (fun _ _ => Json NoQuery) true.

(** Stand-ins for the two [json] serialisers. *)
Definition dumps (l : list (string * string)) : string :=
  String.concat ";" (map (fun p => fst p ++ "=" ++ snd p) l).
Definition dump_indent2 (l : list (string * string)) : string :=
  String.concat Benchmark.nl (map (fun p => fst p ++ " = " ++ snd p) l).

End WikiSample.

(** * Properties *)

(** ** Strings and lists *)

Module TextFacts.
Import Text.

Lemma append_assoc (a b c : string) : (a ++ b) ++ c = a ++ (b ++ c).
Proof. induction a as [|x a IH]; simpl; [reflexivity | now rewrite IH]. Qed.

Lemma append_nil_r (a : string) : a ++ "" = a.
Proof. induction a as [|x a IH]; simpl; [reflexivity | now rewrite IH]. Qed.

Lemma chars_append (a b : string) : chars (a ++ b) = (chars a ++ chars b)%list.
Proof. induction a as [|x a IH]; simpl; [reflexivity | now rewrite IH]. Qed.

Lemma concat_empty_cons (x : string) (l : list string) :
  String.concat "" (x :: l) = x ++ String.concat "" l.
Proof.
  destruct l as [|y l]; simpl; [now rewrite append_nil_r | reflexivity].
Qed.

Lemma concat_empty_app (l1 l2 : list string) :
  String.concat "" (l1 ++ l2) = String.concat "" l1 ++ String.concat "" l2.
Proof.
  induction l1 as [|x l1 IH].
  - reflexivity.
  - change ((x :: l1) ++ l2)%list with (x :: (l1 ++ l2))%list.
    rewrite !concat_empty_cons, IH. now rewrite append_assoc.
Qed.

Lemma whitespace_free_append (a b : string) :
  whitespace_free a -> whitespace_free b -> whitespace_free (a ++ b).
Proof.
  unfold whitespace_free. intros Ha Hb.
  rewrite chars_append. apply Forall_app. now split.
Qed.

Lemma digit_not_whitespace (c : ascii) :
  is_digit c = true -> is_whitespace c = false.
Proof.
  unfold is_digit, is_whitespace. intros H.
  apply andb_true_iff in H. destruct H as [H1 H2].
  apply Nat.leb_le in H1. apply Nat.leb_le in H2.
  apply orb_false_iff. split; apply andb_false_iff.
  - right. apply Nat.leb_gt. lia.
  - right. apply Nat.leb_gt. lia.
Qed.

(** Every character of a decimal rendering is a digit. *)
Lemma string_of_uint_digits (d : Decimal.uint) :
  Forall (fun c => is_digit c = true) (chars (NilEmpty.string_of_uint d)).
Proof.
  induction d; simpl; constructor; auto.
Qed.

Lemma str_nat_digits (n : nat) :
  Forall (fun c => is_digit c = true) (chars (str_nat n)).
Proof. apply string_of_uint_digits. Qed.

Lemma str_nat_whitespace_free (n : nat) : whitespace_free (str_nat n).
Proof.
  unfold whitespace_free.
  eapply Forall_impl; [| apply str_nat_digits].
  intros c. apply digit_not_whitespace.
Qed.

(** The decimal rendering reads back as the number it renders. *)
Lemma str_nat_reads_back (n : nat) :
  option_map Nat.of_uint (NilEmpty.uint_of_string (str_nat n)) = Some n.
Proof.
  unfold str_nat. rewrite NilEmpty.usu. simpl. now rewrite DecimalNat.Unsigned.of_to.
Qed.

Lemma str_nat_injective (n m : nat) : str_nat n = str_nat m -> n = m.
Proof.
  intros H.
  pose proof (str_nat_reads_back n) as Hn.
  rewrite H, str_nat_reads_back in Hn. now inversion Hn.
Qed.

End TextFacts.

(** ** Rounding into a binary format

    [binary_round] always returns a value of the target format: zero, an
    infinity, or a finite number with a canonical mantissa and an
    exponent within range. *)

Module FloatFacts.
Import Num.
Local Open Scope Z_scope.

Section Rounding.
Variables prec emax : Z.
Hypothesis Hprec : 0 < prec.

Lemma digits2_log2 (p : positive) :
  Zpos (digits2_pos p) = Z.log2 (Zpos p) + 1.
Proof.
  induction p as [p IH|p IH|]; cbn [digits2_pos].
  - rewrite Pos2Z.inj_succ, IH.
    change (Z.log2 (Zpos p~1)) with (Zpos (Pos.size p)).
    destruct p; cbn in *; lia.
  - rewrite Pos2Z.inj_succ, IH.
    change (Z.log2 (Zpos p~0)) with (Zpos (Pos.size p)).
    destruct p; cbn in *; lia.
  - reflexivity.
Qed.

Lemma Zdigits2_pos (m : Z) : 0 < m -> Zdigits2 m = Z.log2 m + 1.
Proof. destruct m; try lia. intros _. apply digits2_log2. Qed.

Lemma fexp_ge_emin (e : Z) : SpecFloat.emin prec emax <= fexp prec emax e.
Proof. unfold fexp. lia. Qed.

Lemma fexp_mono (a b : Z) : a <= b -> fexp prec emax a <= fexp prec emax b.
Proof. unfold fexp. lia. Qed.

Lemma shr_1_m (mrs : shr_record) :
  0 <= shr_m mrs -> shr_m (shr_1 mrs) = shr_m mrs / 2.
Proof.
  destruct mrs as [m r s]. cbn [shr_m]. intros Hm.
  destruct m as [|[p|p|]|p]; cbn [shr_1 shr_m]; try lia; try reflexivity.
  - apply Z.div_unique with 1; lia.
  - apply Z.div_unique with 0; lia.
Qed.

Lemma iter_shr_1_m (p : positive) :
  forall mrs, 0 <= shr_m mrs ->
    shr_m (iter_pos shr_1 p mrs) = shr_m mrs / 2 ^ Zpos p.
Proof.
  induction p as [p IH|p IH|]; intros mrs Hm; cbn [iter_pos].
  - assert (H1 : 0 <= shr_m (shr_1 mrs)).
    { rewrite shr_1_m by exact Hm. apply Z.div_pos; lia. }
    assert (H2 : 0 <= shr_m (iter_pos shr_1 p (shr_1 mrs))).
    { rewrite IH by exact H1. apply Z.div_pos; [exact H1 | lia]. }
    rewrite IH by exact H2. rewrite IH by exact H1.
    rewrite shr_1_m by exact Hm.
    rewrite !Z.div_div by lia.
    f_equal. rewrite Pos2Z.inj_xI.
    rewrite <- Z.pow_add_r by lia. rewrite <- (Z.pow_1_r 2) at 1.
    rewrite <- Z.pow_add_r by lia. f_equal. lia.
  - assert (H2 : 0 <= shr_m (iter_pos shr_1 p mrs)).
    { rewrite IH by exact Hm. apply Z.div_pos; [exact Hm | lia]. }
    rewrite IH by exact H2. rewrite IH by exact Hm.
    rewrite Z.div_div by lia.
    f_equal. rewrite Pos2Z.inj_xO.
    rewrite <- Z.pow_add_r by lia. f_equal. lia.
  - rewrite shr_1_m by exact Hm. reflexivity.
Qed.

Lemma log2_quotient (m k : Z) :
  0 < m -> 0 <= k -> 0 < m / 2 ^ k -> Z.log2 (m / 2 ^ k) = Z.log2 m - k.
Proof.
  intros Hm Hk Hq.
  rewrite <- Z.shiftr_div_pow2 by exact Hk.
  rewrite Z.log2_shiftr by exact Hm.
  assert (k <= Z.log2 m).
  { apply Z.log2_le_pow2; [exact Hm |].
    destruct (Z_lt_le_dec m (2 ^ k)) as [Hlt|Hle]; [| exact Hle].
    rewrite Z.div_small in Hq by lia. lia. }
  lia.
Qed.


Lemma digits_quotient (m k : Z) :
  0 < m -> 0 <= k -> 0 < m / 2 ^ k ->
  Zdigits2 (m / 2 ^ k) = Zdigits2 m - k.
Proof.
  intros Hm Hk Hq.
  rewrite !Zdigits2_pos by assumption.
  rewrite log2_quotient by assumption. lia.
Qed.

Lemma digits_mono (a b : Z) : 0 < a -> a <= b -> Zdigits2 a <= Zdigits2 b.
Proof.
  intros Ha Hab. rewrite !Zdigits2_pos by lia.
  pose proof (Z.log2_le_mono a b Hab). lia.
Qed.

Lemma digits_small (m k : Z) :
  0 < m -> 0 <= k -> m / 2 ^ k = 0 -> Zdigits2 m <= k.
Proof.
  intros Hm Hk Hq. rewrite Zdigits2_pos by exact Hm.
  assert (m < 2 ^ k).
  { destruct (Z_lt_le_dec m (2 ^ k)) as [Hlt|Hle]; [exact Hlt |].
    assert (0 < m / 2 ^ k); [| lia].
    apply Z.div_str_pos. lia. }
  assert (Z.log2 m < k); [| lia].
  apply Z.log2_lt_pow2; assumption.
Qed.

(** What one [shr_fexp] step does to a non-negative mantissa. *)
Lemma shr_fexp_spec (m e : Z) (l : location) :
  0 <= m ->
  let n := fexp prec emax (Zdigits2 m + e) - e in
  (n <= 0 /\ shr_fexp prec emax m e l = (shr_record_of_loc m l, e))
  \/ (0 < n
      /\ shr_m (fst (shr_fexp prec emax m e l)) = m / 2 ^ n
      /\ snd (shr_fexp prec emax m e l) = e + n).
Proof.
  intros Hm n. unfold shr_fexp, shr. fold n.
  destruct n as [|p|p] eqn:En.
  - left. split; [lia | reflexivity].
  - right. split; [lia |]. cbn [fst snd]. split; [| reflexivity].
    rewrite iter_shr_1_m.
    + destruct l as [|[| |]]; reflexivity.
    + destruct l as [|[| |]]; exact Hm.
  - left. split; [lia | reflexivity].
Qed.

(** The second shift of [binary_round_aux] yields a canonical mantissa. *)
Lemma second_shift_canonical (m1 e1 : Z) :
  0 < m1 ->
  e1 <= fexp prec emax (Zdigits2 m1 + e1) ->
  match shr_m (fst (shr_fexp prec emax m1 e1 loc_Exact)) with
  | Zpos m =>
      canonical_mantissa prec emax m
        (snd (shr_fexp prec emax m1 e1 loc_Exact)) = true
  | Z0 => True
  | Zneg _ => False
  end.
Proof.
  intros Hm He.
  destruct (shr_fexp_spec m1 e1 loc_Exact) as [[Hn Heq]|(Hn & Hq & Hs)];
    [lia | |].
  - rewrite Heq. cbn [fst snd shr_record_of_loc shr_m].
    destruct m1 as [|p|p]; try lia.
    unfold canonical_mantissa. apply Z.eqb_eq.
    change (Zpos (digits2_pos p)) with (Zdigits2 (Zpos p)). lia.
  - rewrite Hq, Hs.
    set (n := fexp prec emax (Zdigits2 m1 + e1) - e1) in *.
    destruct (m1 / 2 ^ n) as [|q|q] eqn:Eq.
    + exact I.
    + unfold canonical_mantissa. apply Z.eqb_eq.
      change (Zpos (digits2_pos q)) with (Zdigits2 (Zpos q)).
      rewrite <- Eq, digits_quotient by lia.
      replace (Zdigits2 m1 - n + (e1 + n)) with (Zdigits2 m1 + e1) by lia.
      subst n. lia.
    + assert (0 <= m1 / 2 ^ n) by (apply Z.div_pos; lia). lia.
Qed.

Lemma round_nearest_even_cases (m : Z) (l : location) :
  round_nearest_even m l = m \/ round_nearest_even m l = m + 1.
Proof.
  destruct l as [|[| |]]; cbn [round_nearest_even]; auto.
  destruct (Z.even m); auto.
Qed.

(** After the first shift and the rounding, the exponent is at most the
    canonical exponent of the rounded mantissa. *)
Lemma first_shift_rounded (mz : positive) (ez : Z) (l : location) :
  ez <= fexp prec emax (Zdigits2 (Zpos mz) + ez) ->
  (fexp prec emax (Zdigits2 (Zpos mz) + ez) = ez -> l = loc_Exact) ->
  let mrs' := fst (shr_fexp prec emax (Zpos mz) ez l) in
  let e' := snd (shr_fexp prec emax (Zpos mz) ez l) in
  let m1 := round_nearest_even (shr_m mrs') (loc_of_shr_record mrs') in
  0 <= m1 /\ (0 < m1 -> e' <= fexp prec emax (Zdigits2 m1 + e')).
Proof.
  intros He Hl mrs' e' m1.
  destruct (shr_fexp_spec (Zpos mz) ez l) as [[Hn Heq]|(Hn & Hq & Hs)];
    [lia | |].
  - assert (l = loc_Exact) by (apply Hl; lia). subst l.
    subst m1 mrs' e'. rewrite Heq. cbn. split; [lia | intros _].
    change (Zpos (digits2_pos mz)) with (Zdigits2 (Zpos mz)). exact He.
  - subst m1 mrs' e'. rewrite Hs.
    set (n := fexp prec emax (Zdigits2 (Zpos mz) + ez) - ez) in *.
    set (mrs' := fst (shr_fexp prec emax (Zpos mz) ez l)) in *.
    assert (Hq0 : 0 <= shr_m mrs') by (rewrite Hq; apply Z.div_pos; lia).
    destruct (round_nearest_even_cases (shr_m mrs') (loc_of_shr_record mrs'))
      as [Hr|Hr]; rewrite Hr; (split; [lia | intros Hpos]).
    + apply Z.le_trans with (fexp prec emax (Zdigits2 (Zpos mz) + ez));
        [subst n; lia |].
      apply fexp_mono. rewrite Hq, digits_quotient; lia.
    + destruct (Z.eq_dec (shr_m mrs') 0) as [Hz|Hnz].
      * rewrite Hq in Hz.
        pose proof (digits_small (Zpos mz) n ltac:(lia) ltac:(lia) Hz) as Hd.
        assert (ez + n = SpecFloat.emin prec emax).
        { subst n. unfold fexp in *. lia. }
        pose proof (fexp_ge_emin (Zdigits2 (shr_m mrs' + 1) + (ez + n))).
        lia.
      * apply Z.le_trans with (fexp prec emax (Zdigits2 (Zpos mz) + ez));
          [subst n; lia |].
        apply Z.le_trans
          with (fexp prec emax (Zdigits2 (shr_m mrs') + (ez + n))).
        -- apply fexp_mono. rewrite Hq, digits_quotient; lia.
        -- apply fexp_mono.
           pose proof (digits_mono (shr_m mrs') (shr_m mrs' + 1)
                         ltac:(lia) ltac:(lia)).
           lia.
Qed.


Lemma binary_round_aux_valid (s : bool) (mz : positive) (ez : Z) :
  ez <= fexp prec emax (Zdigits2 (Zpos mz) + ez) ->
  valid_binary prec emax (binary_round_aux prec emax s (Zpos mz) ez loc_Exact)
  = true.
Proof.
  intros He. unfold binary_round_aux.
  pose proof (first_shift_rounded mz ez loc_Exact He (fun _ => eq_refl))
    as [Hm1 Hcan].
  destruct (shr_fexp prec emax (Zpos mz) ez loc_Exact) as [mrs' e'] eqn:E1.
  cbn [fst snd] in Hm1, Hcan.
  set (m1 := round_nearest_even (shr_m mrs') (loc_of_shr_record mrs')) in *.
  destruct (Z.eq_dec m1 0) as [Hz|Hnz].
  - rewrite Hz.
    destruct (shr_fexp_spec 0 e' loc_Exact) as [[Hn Heq]|(Hn & Hq & Hs)];
      [lia | |].
    + rewrite Heq. reflexivity.
    + destruct (shr_fexp prec emax 0 e' loc_Exact) as [mrs'' e''].
      cbn [fst snd] in Hq. rewrite Hq, Z.div_0_l by lia. reflexivity.
  - pose proof (second_shift_canonical m1 e' ltac:(lia) (Hcan ltac:(lia)))
      as H2.
    destruct (shr_fexp prec emax m1 e' loc_Exact) as [mrs'' e''].
    cbn [fst snd] in H2.
    destruct (shr_m mrs'') as [|m|m]; [reflexivity | | contradiction].
    destruct (e'' <=? emax - prec) eqn:Eb; [| reflexivity].
    cbn [valid_binary]. unfold bounded. now rewrite H2, Eb.
Qed.

Lemma digits_iter_xO (m d : positive) :
  Zpos (digits2_pos (Pos.iter xO m d)) = Zpos (digits2_pos m) + Zpos d.
Proof.
  induction d as [|d IH] using Pos.peano_ind.
  - cbn. lia.
  - rewrite Pos.iter_succ. cbn [digits2_pos].
    rewrite Pos2Z.inj_succ, IH. lia.
Qed.

Theorem binary_round_valid (s : bool) (m : positive) (e : Z) :
  valid_binary prec emax (binary_round prec emax s m e) = true.
Proof.
  unfold binary_round, shl_align.
  set (e' := fexp prec emax (Zpos (digits2_pos m) + e)).
  destruct (e' - e) as [|d|d] eqn:Ed.
  - apply binary_round_aux_valid. cbn [Zdigits2]. fold e'. lia.
  - apply binary_round_aux_valid. cbn [Zdigits2]. fold e'. lia.
  - apply binary_round_aux_valid. cbn [Zdigits2].
    rewrite digits_iter_xO.
    replace (Zpos (digits2_pos m) + Zpos d + e') with (Zpos (digits2_pos m) + e)
      by lia.
    fold e'. lia.
Qed.

End Rounding.

Lemma astype_float32_valid (x : float) :
  valid_binary prec32 emax32 (astype_float32 x) = true.
Proof.
  unfold astype_float32.
  destruct (Prim2SF x) as [s|s| |s m e]; try reflexivity.
  apply binary_round_valid. reflexivity.
Qed.

End FloatFacts.

(** ** Executing the script *)

Module Runs.
Import Py Text Num Benchmark TextFacts.
Local Open Scope py_scope.

Lemma fold_left_list_append {A B} (f : A -> B) (body : list B -> A -> list B)
    (l : list A) (acc : list B) :
  (forall cmds x, body cmds x = list_append cmds (f x)) ->
  fold_left body l acc = (acc ++ map f l)%list.
Proof.
  intros Hbody. revert acc.
  induction l as [|x l IH]; intros acc; simpl.
  - now rewrite app_nil_r.
  - rewrite IH, Hbody. unfold list_append. now rewrite <- app_assoc.
Qed.

Lemma printed_app (a b : list event) :
  printed (a ++ b) = (printed a ++ printed b)%list.
Proof.
  induction a as [|[s|i] a IH]; simpl; [reflexivity | now rewrite IH | exact IH].
Qed.

Lemma spawned_app (a b : list event) :
  spawned (a ++ b) = (spawned a ++ spawned b)%list.
Proof.
  induction a as [|[s|i] a IH]; simpl; [reflexivity | exact IH | now rewrite IH].
Qed.

Lemma printed_prints (l : list string) : printed (prints l) = l.
Proof. induction l as [|x l IH]; simpl; [reflexivity | now rewrite IH]. Qed.

Lemma spawned_prints (l : list string) : spawned (prints l) = [].
Proof. induction l as [|x l IH]; simpl; [reflexivity | exact IH]. Qed.

(** Unfold the runtime primitives and reduce. *)
Ltac exec :=
  cbv beta iota zeta delta
    [bind ret print emit try_except subprocess_run_checked Popen_communicate
     spawn time_time sys_exit raise boot log ticks draws spawns fst snd
     int_truediv_float float_truediv_int float_of_int truediv
     binary_unavailable].

(** Spell out both event lists. *)
Ltac flatten :=
  cbv beta iota delta
    [events_to_phase2 events_to_phase1 events_to_preflight prints
     banner_lines build_hint_lines generation_lines search_report_lines
     summary_head_lines summary_tail_lines map app].

Section WithHarness.
Variable str_float32 : float32 -> string.
Variable rt : runtime.
Variable cfg : config.

(** The two loops that build command lists are maps. *)
Lemma insert_commands_eq (vectors : list (string * vector)) :
  insert_commands str_float32 vectors
  = (map (fun kv => encode_insert str_float32 (fst kv) (snd kv)) vectors
     ++ [encode_exit])%list.
Proof.
  unfold insert_commands, list_append at 1. f_equal.
  rewrite fold_left_list_append
    with (f := fun kv => encode_insert str_float32 (fst kv) (snd kv)).
  - reflexivity.
  - intros cmds [vec_id vec]. reflexivity.
Qed.

Lemma all_commands_eq (vectors : list (string * vector)) (qs : list vector) :
  all_commands str_float32 vectors qs
  = (map (fun kv => encode_insert str_float32 (fst kv) (snd kv)) vectors
     ++ map (encode_search str_float32) qs ++ [encode_exit])%list.
Proof.
  unfold all_commands, list_append at 1.
  rewrite fold_left_list_append with (f := encode_search str_float32)
    by reflexivity.
  rewrite fold_left_list_append
    with (f := fun kv => encode_insert str_float32 (fst kv) (snd kv)).
  - simpl. now rewrite <- app_assoc.
  - intros cmds [vec_id vec]. reflexivity.
Qed.

(** [generate_random_vector] never raises and consumes [dim] samples. *)
Lemma run_generate_random_vector (dim : nat) (st : state) :
  generate_random_vector rt dim st
  = (Return (map astype_float32
               (map (fun j => gauss rt (draws st + j)) (seq 0 dim))),
     State (log st) (ticks st) (draws st + dim) (spawns st)).
Proof. reflexivity. Qed.

(** The generation loop of lines 49-51, from any index and accumulator. *)
Lemma run_vector_loop (n i0 : nat) (acc : list (string * vector)) (st : state) :
  for_each (seq i0 n)
    (fun i vectors =>
       vec <- generate_random_vector rt (DIMENSION cfg) ;;
       ret (list_append vectors ("vec_" ++ str_nat i, vec)))
    acc st
  = (Return
       (acc ++ map (fun i => (key_of i,
                              drawn_vector rt cfg
                                (draws st + (i - i0) * DIMENSION cfg)))
                 (seq i0 n))%list,
     State (log st) (ticks st) (draws st + n * DIMENSION cfg) (spawns st)).
Proof.
  revert i0 acc st.
  induction n as [|n IH]; intros i0 acc st.
  - destruct st as [l t d s]. simpl.
    now rewrite app_nil_r, Nat.add_0_r.
  - cbn [seq for_each]. unfold bind at 1. unfold bind at 1.
    rewrite run_generate_random_vector. unfold ret at 1.
    rewrite IH. cbn [log ticks draws spawns]. f_equal.
    + f_equal. unfold list_append. rewrite <- app_assoc. f_equal.
      cbn [map]. apply (f_equal2 cons).
      * unfold key_of, drawn_vector.
        now rewrite Nat.sub_diag, Nat.mul_0_l, Nat.add_0_r.
      * apply map_ext_in. intros i Hi. apply in_seq in Hi.
        f_equal. f_equal.
        replace (i - i0) with (S (i - S i0)) by lia.
        rewrite Nat.mul_succ_l. lia.
    + f_equal. rewrite Nat.mul_succ_l. lia.
Qed.

(** The query loop of line 86. *)
Lemma run_query_loop (n i0 : nat) (acc : list vector) (st : state) :
  for_each (seq i0 n)
    (fun _ qs =>
       q <- generate_random_vector rt (DIMENSION cfg) ;;
       ret (list_append qs q))
    acc st
  = (Return
       (acc ++ map (fun i => drawn_vector rt cfg
                               (draws st + (i - i0) * DIMENSION cfg))
                 (seq i0 n))%list,
     State (log st) (ticks st) (draws st + n * DIMENSION cfg) (spawns st)).
Proof.
  revert i0 acc st.
  induction n as [|n IH]; intros i0 acc st.
  - destruct st as [l t d s]. simpl.
    now rewrite app_nil_r, Nat.add_0_r.
  - cbn [seq for_each]. unfold bind at 1. unfold bind at 1.
    rewrite run_generate_random_vector. unfold ret at 1.
    rewrite IH. cbn [log ticks draws spawns]. f_equal.
    + f_equal. unfold list_append. rewrite <- app_assoc. f_equal.
      cbn [map]. apply (f_equal2 cons).
      * unfold drawn_vector.
        now rewrite Nat.sub_diag, Nat.mul_0_l, Nat.add_0_r.
      * apply map_ext_in. intros i Hi. apply in_seq in Hi.
        f_equal.
        replace (i - i0) with (S (i - S i0)) by lia.
        rewrite Nat.mul_succ_l. lia.
    + f_equal. rewrite Nat.mul_succ_l. lia.
Qed.

Lemma vectors_from_shift (d0 : nat) :
  map (fun i => (key_of i,
                 drawn_vector rt cfg (d0 + (i - 0) * DIMENSION cfg)))
    (seq 0 (NUM_VECTORS cfg))
  = vectors_from rt cfg d0.
Proof.
  unfold vectors_from. apply map_ext. intros i. now rewrite Nat.sub_0_r.
Qed.

Lemma queries_from_shift (d0 : nat) :
  map (fun i => drawn_vector rt cfg (d0 + (i - 0) * DIMENSION cfg)) (seq 0 100)
  = queries_from rt cfg d0.
Proof.
  unfold queries_from. apply map_ext. intros i. now rewrite Nat.sub_0_r.
Qed.

Lemma vectors_from_length (d0 : nat) :
  List.length (vectors_from rt cfg d0) = NUM_VECTORS cfg.
Proof. unfold vectors_from. now rewrite length_map, length_seq. Qed.

Lemma queries_from_length (d0 : nat) :
  List.length (queries_from rt cfg d0) = 100.
Proof. unfold queries_from. now rewrite length_map, length_seq. Qed.

Lemma drawn_vector_length (d0 : nat) :
  List.length (drawn_vector rt cfg d0) = DIMENSION cfg.
Proof. unfold drawn_vector. now rewrite !length_map, length_seq. Qed.

Lemma Z2float_100 : Z2float 100 = 100%float.
Proof. reflexivity. Qed.

(** [main] behaves as [expected_run] says, on every runtime. *)
Lemma main_run :
  run (main str_float32 rt cfg) = expected_run str_float32 rt cfg.
Proof.
  unfold run, main, expected_run.
  unfold banner, preflight, generate_vectors, phase1, phase2,
    derive_search, summary.
  unfold phase2_call, phase1_call, preflight_call.
  set (vloop := for_each (seq 0 (NUM_VECTORS cfg)) _ []).
  set (qloop := for_each (seq 0 100) _ []).
  exec.
  destruct (child rt 0 _) as [| |rc0 out0 err0|rc0 out0 err0];
    [flatten; reflexivity | flatten; reflexivity | |].
  all: destruct (rc0 =? 0)%Z; cbv beta iota delta [negb];
    [| flatten; reflexivity].
  all: subst vloop; rewrite run_vector_loop; exec;
    rewrite vectors_from_shift, ?app_nil_l, vectors_from_length.
  all: destruct (child rt 1 _) as [| |rc1 out1 err1|rc1 out1 err1];
    [flatten; reflexivity | flatten; reflexivity | | flatten; reflexivity].
  all: exec.
  all: destruct (rc1 =? 0)%Z; cbv beta iota delta [negb];
    [| flatten; reflexivity].
  all: destruct (is_infinity (Z2float (Z.of_nat (NUM_VECTORS cfg))));
    [flatten; reflexivity |].
  all: exec; unfold insert_time_of.
  all: destruct (is_zero (clock rt 1 - clock rt 0)) eqn:Ezi;
    [flatten; reflexivity |].
  all: exec.
  all: subst qloop; rewrite run_query_loop; exec.
  all: rewrite queries_from_shift, ?app_nil_l, Nat.add_0_l.
  all: destruct (child rt 2 _) as [| |rc2 out2 err2|rc2 out2 err2];
    [flatten; reflexivity | flatten; reflexivity | | flatten; reflexivity].
  all: exec.
  all: destruct (rc2 =? 0)%Z; cbv beta iota delta [negb];
    [| flatten; reflexivity].
  all: rewrite Z2float_100.
  all: change (is_infinity 100) with false; exec.
  all: unfold search_time_of, total_time_of, insert_time_of.
  all: destruct (is_zero (clock rt 3 - clock rt 2 - (clock rt 1 - clock rt 0)))
    eqn:Ezs; [flatten; reflexivity |].
  all: exec; rewrite ?Ezi; exec.
  all: destruct (is_zero (Z2float (Z.of_nat (NUM_VECTORS cfg))));
    [flatten; reflexivity |].
  all: exec; rewrite ?Z2float_100; exec.
  all: rewrite ?Ezs; flatten; reflexivity.
Qed.

(** What has been launched and printed at each launch. *)
Lemma spawned_to_preflight :
  spawned (events_to_preflight cfg) = [preflight_call cfg].
Proof. reflexivity. Qed.

Lemma spawned_to_phase1 :
  spawned (events_to_phase1 str_float32 rt cfg)
  = [preflight_call cfg; phase1_call str_float32 rt cfg].
Proof. reflexivity. Qed.

Lemma spawned_to_phase2 :
  spawned (events_to_phase2 str_float32 rt cfg)
  = [preflight_call cfg; phase1_call str_float32 rt cfg;
     phase2_call str_float32 rt cfg].
Proof. reflexivity. Qed.

Lemma printed_to_preflight :
  printed (events_to_preflight cfg) = banner_lines cfg.
Proof. reflexivity. Qed.

Lemma printed_to_phase1 :
  printed (events_to_phase1 str_float32 rt cfg)
  = (banner_lines cfg ++ generation_lines cfg
     ++ ["Phase 1: Benchmarking insertions..."])%list.
Proof. reflexivity. Qed.

Lemma printed_to_phase2 :
  printed (events_to_phase2 str_float32 rt cfg)
  = (banner_lines cfg ++ generation_lines cfg
     ++ ["Phase 1: Benchmarking insertions...";
         inserted_line rt cfg; insert_throughput_line rt cfg; "";
         "Phase 2: Benchmarking 100 random searches...";
         "  Generating query vectors..."])%list.
Proof. reflexivity. Qed.

End WithHarness.

(** Split a goal about a run along the tests of [expected_run]. *)
Ltac fork_run :=
  repeat match goal with
  | |- context [match child ?r ?k ?c with _ => _ end] =>
      destruct (child r k c) eqn:?
  | H : context [match child ?r ?k ?c with _ => _ end] |- _ =>
      destruct (child r k c) eqn:?
  | |- context [if ?b then _ else _] => destruct b eqn:?
  | H : context [if ?b then _ else _] |- _ => destruct b eqn:?
  end.

End Runs.

(** ** Consequences of [main_run] *)

Module RunFacts.
Import Py Text Num Benchmark TextFacts Runs.
Local Open Scope list_scope.
Local Open Scope float_scope.

(** A run that returns normally has gone through every step. *)
Lemma run_completes_events :
  forall (str_float32 : float32 -> string) (rt : runtime) (cfg : config),
    fst (run (main str_float32 rt cfg)) = Return tt ->
    snd (run (main str_float32 rt cfg))
    = (events_to_phase2 str_float32 rt cfg
       ++ prints (search_report_lines rt)
       ++ prints [search_throughput_line rt; ""%string]
       ++ prints (summary_head_lines rt cfg)
       ++ prints (summary_tail_lines rt cfg))%list.
Proof.
  intros str_float32 rt cfg. rewrite main_run. unfold expected_run.
  fork_run; cbn [fst snd]; intros H; try discriminate H; reflexivity.
Qed.

Lemma run_completes_printed :
  forall (str_float32 : float32 -> string) (rt : runtime) (cfg : config),
    fst (run (main str_float32 rt cfg)) = Return tt ->
    printed (snd (run (main str_float32 rt cfg)))
    = (banner_lines cfg ++ generation_lines cfg
       ++ ["Phase 1: Benchmarking insertions..."%string;
           inserted_line rt cfg; insert_throughput_line rt cfg; ""%string;
           "Phase 2: Benchmarking 100 random searches..."%string;
           "  Generating query vectors..."%string]
       ++ search_report_lines rt
       ++ [search_throughput_line rt; ""%string]
       ++ summary_head_lines rt cfg
       ++ summary_tail_lines rt cfg)%list.
Proof.
  intros str_float32 rt cfg H.
  rewrite (run_completes_events _ _ _ H).
  rewrite !printed_app, !printed_prints, printed_to_phase2.
  now rewrite <- !app_assoc.
Qed.

Local Close Scope float_scope.

(** The launches of a run are an initial part of the three expected ones. *)
Lemma spawned_at :
  forall (str_float32 : float32 -> string) (rt : runtime) (cfg : config)
         (k : nat) (inv : invocation),
    nth_error (spawned (snd (run (main str_float32 rt cfg)))) k = Some inv ->
    nth_error [preflight_call cfg; phase1_call str_float32 rt cfg;
               phase2_call str_float32 rt cfg] k = Some inv.
Proof.
  intros str_float32 rt cfg k inv. rewrite main_run. unfold expected_run.
  fork_run; cbn [snd].
  all: rewrite ?spawned_app, ?spawned_prints, ?spawned_to_preflight,
         ?spawned_to_phase1, ?spawned_to_phase2, ?app_nil_r.
  all: destruct k as [|[|[|k]]]; cbn; intros H; try discriminate H;
         try exact H.
  all: destruct k; discriminate H.
Qed.

(** A pre-flight check that exits with status 0 is followed by the
    launch of phase 1. *)
Lemma phase1_is_launched :
  forall (str_float32 : float32 -> string) (rt : runtime) (cfg : config),
    exits_0 (child rt 0 (preflight_call cfg)) ->
    nth_error (spawned (snd (run (main str_float32 rt cfg)))) 1
    = Some (phase1_call str_float32 rt cfg).
Proof.
  intros str_float32 rt cfg. rewrite main_run. unfold expected_run, exits_0.
  intros H. fork_run; cbn [snd]; try contradiction.
  all: try (subst; discriminate).
  all: rewrite ?spawned_app, ?spawned_prints, ?spawned_to_phase1,
         ?spawned_to_phase2, ?app_nil_r; reflexivity.
Qed.

(** When phase 1 too exits with status 0 and its throughput can be
    computed, phase 2 is launched. *)
Lemma phase2_is_launched :
  forall (str_float32 : float32 -> string) (rt : runtime) (cfg : config),
    exits_0 (child rt 0 (preflight_call cfg)) ->
    exits_0_with_text (child rt 1 (phase1_call str_float32 rt cfg)) ->
    is_infinity (Z2float (Z.of_nat (NUM_VECTORS cfg))) = false ->
    is_zero (clock rt 1 - clock rt 0)%float = false ->
    nth_error (spawned (snd (run (main str_float32 rt cfg)))) 2
    = Some (phase2_call str_float32 rt cfg).
Proof.
  intros str_float32 rt cfg. rewrite main_run.
  unfold expected_run, exits_0, exits_0_with_text, insert_time_of.
  intros H0 H1 Hinf Hz. rewrite Hinf, Hz.
  fork_run; cbn [snd]; try contradiction.
  all: try (subst; discriminate).
  all: rewrite ?spawned_app, ?spawned_prints, ?spawned_to_phase2, ?app_nil_r;
    reflexivity.
Qed.

Lemma run_generate_vectors (rt : runtime) (cfg : config) (st : state) :
  generate_vectors rt cfg st
  = (Return (vectors_from rt cfg (draws st)),
     State (log st
            ++ prints ["Generating random vectors..."%string;
                       ("Generated " ++ str_nat (NUM_VECTORS cfg)
                        ++ " random vectors")%string; ""%string])
       (ticks st) (draws st + NUM_VECTORS cfg * DIMENSION cfg) (spawns st)).
Proof.
  unfold generate_vectors.
  set (vloop := for_each (seq 0 (NUM_VECTORS cfg)) _ []).
  exec. subst vloop. rewrite run_vector_loop. exec.
  rewrite vectors_from_shift, app_nil_l, vectors_from_length.
  cbn [prints map]. now rewrite <- !app_assoc.
Qed.

Lemma nth_drawn_vector (rt : runtime) (cfg : config) (d0 j : nat) :
  j < DIMENSION cfg ->
  nth_error (drawn_vector rt cfg d0) j
  = Some (astype_float32 (gauss rt (d0 + j))).
Proof.
  intros Hj. unfold drawn_vector.
  rewrite !nth_error_map, nth_error_seq.
  apply Nat.ltb_lt in Hj. now rewrite Hj.
Qed.

Lemma nth_vectors_from (rt : runtime) (cfg : config) (d0 i : nat) :
  i < NUM_VECTORS cfg ->
  nth_error (vectors_from rt cfg d0) i
  = Some (key_of i, drawn_vector rt cfg (d0 + i * DIMENSION cfg)).
Proof.
  intros Hi. unfold vectors_from.
  rewrite nth_error_map, nth_error_seq.
  apply Nat.ltb_lt in Hi. now rewrite Hi.
Qed.

End RunFacts.

(** ** Command lists *)

Module CommandFacts.
Import Py Text Num Benchmark TextFacts Runs.
Local Open Scope list_scope.

Lemma search_commands_of_inserts
    (str_float32 : float32 -> string) (vectors : list (string * vector)) :
  filter is_search_command
    (map (fun kv => encode_insert str_float32 (fst kv) (snd kv)) vectors) = [].
Proof. induction vectors as [|kv l IH]; [reflexivity | exact IH]. Qed.

Lemma search_commands_of_searches
    (str_float32 : float32 -> string) (qs : list vector) :
  filter is_search_command (map (encode_search str_float32) qs)
  = map (encode_search str_float32) qs.
Proof.
  induction qs as [|q l IH]; [reflexivity |].
  cbn [map filter].
  change (is_search_command (encode_search str_float32 q)) with true.
  cbv iota. now rewrite IH.
Qed.

Lemma search_commands_of_all
    (str_float32 : float32 -> string) (vectors : list (string * vector))
    (qs : list vector) :
  filter is_search_command (all_commands str_float32 vectors qs)
  = map (encode_search str_float32) qs.
Proof.
  rewrite all_commands_eq, !filter_app, search_commands_of_inserts,
    search_commands_of_searches.
  cbn. now rewrite app_nil_r.
Qed.

Lemma insert_lines_are_inserts
    (str_float32 : float32 -> string) (vectors : list (string * vector)) :
  Forall (fun c => is_insert_command c = true)
    (map (fun kv => encode_insert str_float32 (fst kv) (snd kv)) vectors).
Proof. apply Forall_map, Forall_forall. intros kv _. reflexivity. Qed.

Lemma search_lines_are_searches
    (str_float32 : float32 -> string) (qs : list vector) :
  Forall (fun c => is_search_command c = true)
    (map (encode_search str_float32) qs).
Proof. apply Forall_map, Forall_forall. intros q _. reflexivity. Qed.

Lemma nth_insert_command
    (str_float32 : float32 -> string) (vectors : list (string * vector))
    (tail : list string) (i : nat) (key : string) (vec : vector) :
  nth_error vectors i = Some (key, vec) ->
  nth_error
    (map (fun kv => encode_insert str_float32 (fst kv) (snd kv)) vectors
     ++ tail) i
  = Some (encode_insert str_float32 key vec).
Proof.
  intros H.
  rewrite nth_error_app1.
  - now rewrite nth_error_map, H.
  - rewrite length_map. apply nth_error_Some. now rewrite H.
Qed.

Lemma key_whitespace_free (i : nat) : whitespace_free (key_of i).
Proof.
  unfold key_of. apply whitespace_free_append.
  - repeat constructor.
  - apply str_nat_whitespace_free.
Qed.


(** Every command is one line, when no component text holds a newline. *)
Lemma count_newlines_append (a b : string) :
  count_newlines (a ++ b)%string = count_newlines a + count_newlines b.
Proof. unfold count_newlines. now rewrite chars_append, count_occ_app. Qed.

Lemma count_newlines_concat (l : list string) :
  count_newlines (String.concat "" l) = list_sum (map count_newlines l).
Proof.
  induction l as [|x l IH]; [reflexivity |].
  rewrite concat_empty_cons, count_newlines_append, IH. reflexivity.
Qed.

Lemma whitespace_free_no_newline (s : string) :
  whitespace_free s -> count_newlines s = 0.
Proof.
  unfold whitespace_free, count_newlines.
  induction (chars s) as [|c l IH]; intros H; [reflexivity |].
  inversion H as [|c' l' Hc Hl]; subst.
  cbn [count_occ]. destruct (ascii_dec c "010") as [->|_].
  - discriminate Hc.
  - exact (IH Hl).
Qed.

Lemma count_newlines_format_vector
    (str_float32 : float32 -> string) (vec : vector) :
  (forall x, count_newlines (str_float32 x) = 0) ->
  count_newlines (format_vector str_float32 vec) = 0.
Proof.
  intros H. unfold format_vector.
  induction vec as [|x vec IH]; [reflexivity |].
  destruct vec as [|y vec].
  - apply H.
  - change (String.concat " " (map str_float32 (x :: y :: vec)))
      with (str_float32 x ++ " "
            ++ String.concat " " (map str_float32 (y :: vec)))%string.
    rewrite !count_newlines_append, H, IH. reflexivity.
Qed.

Lemma count_newlines_insert
    (str_float32 : float32 -> string) (key : string) (vec : vector) :
  (forall x, count_newlines (str_float32 x) = 0) ->
  count_newlines key = 0 ->
  count_newlines (encode_insert str_float32 key vec) = 1.
Proof.
  intros H Hk. unfold encode_insert.
  rewrite !count_newlines_append, Hk, count_newlines_format_vector by exact H.
  reflexivity.
Qed.

Lemma count_newlines_search
    (str_float32 : float32 -> string) (vec : vector) :
  (forall x, count_newlines (str_float32 x) = 0) ->
  count_newlines (encode_search str_float32 vec) = 1.
Proof.
  intros H. unfold encode_search.
  rewrite !count_newlines_append, count_newlines_format_vector by exact H.
  reflexivity.
Qed.

Lemma list_sum_ones {A} (f : A -> nat) (l : list A) :
  Forall (fun x => f x = 1) l -> list_sum (map f l) = List.length l.
Proof.
  induction l as [|x l IH]; intros H; [reflexivity |].
  inversion H as [|x' l' Hx Hl]; subst.
  cbn [map]. change (list_sum (f x :: map f l)) with (f x + list_sum (map f l)).
  cbn [List.length]. now rewrite Hx, (IH Hl).
Qed.

Lemma insert_lines_one_newline
    (str_float32 : float32 -> string) (rt : runtime) (cfg : config) (d0 : nat) :
  (forall x, count_newlines (str_float32 x) = 0) ->
  Forall (fun c => count_newlines c = 1)
    (map (fun kv => encode_insert str_float32 (fst kv) (snd kv))
       (vectors_from rt cfg d0)).
Proof.
  intros H. unfold vectors_from. rewrite map_map.
  apply Forall_map, Forall_forall. intros i _. cbn [fst snd].
  apply count_newlines_insert; [exact H |].
  apply whitespace_free_no_newline, key_whitespace_free.
Qed.

Lemma search_lines_one_newline
    (str_float32 : float32 -> string) (qs : list vector) :
  (forall x, count_newlines (str_float32 x) = 0) ->
  Forall (fun c => count_newlines c = 1) (map (encode_search str_float32) qs).
Proof.
  intros H. apply Forall_map, Forall_forall. intros q _.
  now apply count_newlines_search.
Qed.

End CommandFacts.

(** ** The reference parser inverts the encoder's framing *)

Module ParserFacts.
Import Py Text Num Benchmark TextFacts.
Local Open Scope list_scope.

Lemma chomp_line (s : string) : Reference.chomp (s ++ nl)%string = Some s.
Proof.
  induction s as [|c s IH].
  - reflexivity.
  - cbn [String.append Reference.chomp].
    destruct (s ++ nl)%string as [|a rest] eqn:E.
    + destruct s; discriminate E.
    + now rewrite IH.
Qed.

Lemma cut_field (key rest : string) :
  Forall (fun c => is_whitespace c = false) (chars key) ->
  Reference.cut (key ++ " " ++ rest)%string = Some (key, rest).
Proof.
  induction key as [|c key IH]; intros H.
  - reflexivity.
  - inversion H as [|c' l Hc Hl]; subst.
    cbn [String.append Reference.cut]. cbn [String.append] in IH.
    destruct (Ascii.eqb c " ") eqn:E.
    + apply Ascii.eqb_eq in E. subst c. discriminate Hc.
    + now rewrite (IH Hl).
Qed.

Lemma split_spaces_token (t rest : string) :
  Forall (fun c => is_whitespace c = false) (chars t) ->
  Reference.split_spaces (t ++ " " ++ rest)%string
  = t :: Reference.split_spaces rest.
Proof.
  induction t as [|c t IH]; intros H.
  - reflexivity.
  - inversion H as [|c' l Hc Hl]; subst.
    cbn [String.append Reference.split_spaces]. cbn [String.append] in IH.
    destruct (Ascii.eqb c " ") eqn:E.
    + apply Ascii.eqb_eq in E. subst c. discriminate Hc.
    + now rewrite (IH Hl).
Qed.

Lemma split_spaces_last (t : string) :
  Forall (fun c => is_whitespace c = false) (chars t) ->
  Reference.split_spaces t = [t].
Proof.
  induction t as [|c t IH]; intros H.
  - reflexivity.
  - inversion H as [|c' l Hc Hl]; subst.
    cbn [Reference.split_spaces].
    destruct (Ascii.eqb c " ") eqn:E.
    + apply Ascii.eqb_eq in E. subst c. discriminate Hc.
    + now rewrite (IH Hl).
Qed.

Lemma nonempty_true (s : string) : s <> ""%string -> Reference.nonempty s = true.
Proof. destruct s; [congruence | reflexivity]. Qed.

(** The fields of a formatted vector are the texts of its components. *)
Lemma fields_format_vector (str_float32 : float32 -> string) (vec : vector) :
  Forall (fun x => str_float32 x <> ""%string
                   /\ whitespace_free (str_float32 x)) vec ->
  Reference.fields (format_vector str_float32 vec) = map str_float32 vec.
Proof.
  unfold format_vector, Reference.fields.
  induction vec as [|x vec IH]; intros H.
  - reflexivity.
  - inversion H as [|x' l [Hne Hws] Hl]; subst.
    destruct vec as [|y vec].
    + cbn [map String.concat]. rewrite split_spaces_last by exact Hws.
      cbn [filter]. now rewrite nonempty_true.
    + change (String.concat " " (map str_float32 (x :: y :: vec)))
        with (str_float32 x ++ " "
              ++ String.concat " " (map str_float32 (y :: vec)))%string.
      rewrite split_spaces_token by exact Hws.
      cbn [filter]. rewrite nonempty_true by exact Hne.
      now rewrite (IH Hl).
Qed.

Lemma all_some_parsed (str_float32 : float32 -> string)
    (parse_float32 : string -> option float32) (vec : vector) :
  Forall (fun x => parse_float32 (str_float32 x) = Some x) vec ->
  Reference.all_some (map parse_float32 (map str_float32 vec)) = Some vec.
Proof.
  induction vec as [|x vec IH]; intros H.
  - reflexivity.
  - inversion H as [|x' l Hx Hl]; subst.
    cbn [map Reference.all_some]. now rewrite Hx, (IH Hl).
Qed.

(** The framing of an [insert] line: when the text of every component is
    non-empty, free of whitespace and read back by the reader, the
    parser recovers the key and the vector. *)
Lemma framed_line_parses (str_float32 : float32 -> string)
    (parse_float32 : string -> option float32) (key : string) (vec : vector) :
  whitespace_free key ->
  Forall (fun x => str_float32 x <> ""%string
                   /\ whitespace_free (str_float32 x)
                   /\ parse_float32 (str_float32 x) = Some x) vec ->
  Reference.parse_insert parse_float32
    ("insert " ++ key ++ " " ++ format_vector str_float32 vec ++ nl)%string
  = Some (key, vec).
Proof.
  intros Hkey Hvec.
  unfold Reference.parse_insert.
  replace ("insert " ++ key ++ " " ++ format_vector str_float32 vec ++ nl)%string
    with (("insert " ++ key ++ " " ++ format_vector str_float32 vec) ++ nl)%string.
  2:{ now rewrite !append_assoc. }
  rewrite chomp_line.
  change (Reference.cut
            ("insert " ++ key ++ " " ++ format_vector str_float32 vec)%string)
    with (Some ("insert"%string,
                (key ++ " " ++ format_vector str_float32 vec)%string)).
  cbv iota. change ("insert" =? "insert")%string with true. cbv iota.
  rewrite cut_field by exact Hkey.
  rewrite fields_format_vector.
  - rewrite all_some_parsed; [reflexivity |].
    eapply Forall_impl; [| exact Hvec]. intros x H. apply H.
  - eapply Forall_impl; [| exact Hvec]. intros x H. split; apply H.
Qed.

End ParserFacts.

(** ** Rounding a rational to the nearest binary32 value *)

Module RoundingFacts.
Import Num Numpy Binary32 Reader.
Local Open Scope list_scope.
Local Open Scope Z_scope.

Lemma pow2_half (k : Z) : 1 <= k -> 2 ^ k = 2 * 2 ^ (k - 1).
Proof.
  intros H. replace k with (Z.succ (k - 1)) at 1 by lia.
  apply Z.pow_succ_r. lia.
Qed.

Lemma pow2_pos (k : Z) : 0 <= k -> 0 < 2 ^ k.
Proof. intros H. apply Z.pow_pos_nonneg; lia. Qed.

Lemma log2_between (q a : Z) : 0 <= a -> 2 ^ a <= q < 2 ^ (a + 1) -> Z.log2 q = a.
Proof. intros Ha H. apply Z.log2_unique; [exact Ha | ]. replace (Z.succ a) with (a+1) by lia. exact H. Qed.

Lemma div_mod_at (q b m0 r : Z) :
  0 <= r < b -> q = m0 * b + r -> q / b = m0 /\ q mod b = r.
Proof.
  intros Hr Hq. split.
  - symmetry. apply Z.div_unique with (r := r); [left; exact Hr | lia].
  - symmetry. apply Z.mod_unique with (q := m0); [left; exact Hr | lia].
Qed.

Section Nearest.
Variables m e : Z.
Hypothesis He : -149 <= e <= 104.
Hypothesis Hm : 0 < m < 2 ^ 24.
Hypothesis Hnorm : e = -149 \/ 2 ^ 23 <= m.

Let E := e + 150.
Let X := m * 2 ^ E.
Let H := 2 ^ (E - 1).
Let Lw := if unequal_margins m e then 2 ^ (E - 2) else 2 ^ (E - 1).

Lemma round_bits_nearest (q : Z) (sticky : bool) :
  X - Lw <= q <= X + H ->
  (q = X + H -> Z.even m = true /\ sticky = false) ->
  (q = X - Lw -> sticky = true \/ Z.even m = true) ->
  round_bits q sticky = (m, e).
Proof.
  intros Hq Hhi Hlo.
  assert (HE : 1 <= E) by (unfold E; lia).
  assert (HU : 2 ^ E = 2 * H) by (apply pow2_half; exact HE).
  assert (HH : 0 < H) by (apply pow2_pos; lia).
  assert (H24 : 2 ^ 24 = 16777216) by reflexivity.
  assert (H23 : 2 ^ 23 = 8388608) by reflexivity.
  destruct (Z_le_gt_dec X q) as [Hge | Hlt].
  - (* at or above the value *)
    assert (Hk : Z.max 1 (Z.log2 q + 1 - 24) = E).
    { destruct (Z_le_gt_dec (2 ^ 23) m) as [Hn | Hs].
      - rewrite (log2_between q (23 + E)); [lia | lia |].
        rewrite Z.pow_add_r, <- Z.add_assoc, Z.pow_add_r by lia.
        change (2 ^ 23) with 8388608 in *.
        rewrite (Z.pow_add_r 2 E 1) by lia. change (2 ^ 1) with 2.
        unfold X in *. nia.
      - assert (E = 1) by (unfold E; lia).
        assert (Z.log2 q < 24).
        { apply Z.log2_lt_pow2; [unfold X in *; nia |].
          unfold X, H in *. replace E with 1 in * by lia.
          change (2 ^ (1 - 1)) with 1 in *. change (2 ^ 1) with 2 in *. lia. }
        lia. }
    unfold round_bits. rewrite Hk.
    destruct (div_mod_at q (2 ^ E) m (q - X)) as [Hd Hr];
      [unfold X in *; lia | unfold X; lia |].
    rewrite Hd, Hr. fold H.
    assert (Hup : ((H <? q - X) || ((q - X =? H) && (sticky || Z.odd m))) = false).
    { destruct (Z.eq_dec q (X + H)) as [Heq | Hne].
      - destruct (Hhi Heq) as [Hev ->].
        rewrite <- Z.negb_even, Hev. cbn.
        rewrite andb_false_r, orb_false_r. apply Z.ltb_ge. lia.
      - replace (q - X =? H) with false by (symmetry; apply Z.eqb_neq; lia).
        cbn. rewrite orb_false_r. apply Z.ltb_ge. lia. }
    rewrite Hup.
    replace (m =? 2 ^ 24) with false by (symmetry; apply Z.eqb_neq; lia).
    f_equal. unfold E. lia.
  - (* below the value *)
    unfold Lw in *. unfold unequal_margins in *.
    destruct (m =? 2 ^ 23) eqn:Hm23; cbn [andb] in *.
    + apply Z.eqb_eq in Hm23.
      destruct (e =? -149) eqn:He149; cbn [negb] in *.
      * (* smallest normal binade *)
        apply Z.eqb_eq in He149.
        assert (HE1 : E = 1) by (unfold E; lia).
        unfold X, H in *. rewrite HE1 in *.
        change (2 ^ (1 - 1)) with 1 in *. change (2 ^ 1) with 2 in *.
        assert (q = 2 * m - 1) by lia. subst q. rewrite Hm23.
        vm_compute. destruct sticky; f_equal; lia.
      * (* the low margin is half the high one *)
        apply Z.eqb_neq in He149.
        assert (HE2 : 2 <= E) by (unfold E; lia).
        set (g := 2 ^ (E - 2)) in *.
        assert (Hg : H = 2 * g).
        { unfold H, g. rewrite (pow2_half (E - 1)) by lia. f_equal. f_equal. lia. }
        assert (Hg0 : 0 < g) by (apply pow2_pos; lia).
        assert (Hk : Z.max 1 (Z.log2 q + 1 - 24) = E - 1).
        { rewrite (log2_between q (22 + E)); [lia | lia |].
          replace (22 + E + 1) with (23 + E) by lia.
          replace (22 + E) with (22 + 2 + (E - 2)) by lia.
          replace (23 + E) with (23 + 2 + (E - 2)) by lia.
          rewrite !(Z.pow_add_r 2 _ (E - 2)) by lia. fold g.
          change (2 ^ (22 + 2)) with 16777216.
          change (2 ^ (23 + 2)) with 33554432.
          unfold X in *. nia. }
        unfold round_bits. rewrite Hk.
        replace (2 ^ (E - 1)) with H by reflexivity.
        replace (E - 1 - 1) with (E - 2) by lia. fold g.
        destruct (div_mod_at q H (2 ^ 24 - 1) (q - (2 ^ 24 - 1) * H)) as [Hd Hr];
          [unfold X in *; nia | lia |].
        rewrite Hd, Hr.
        assert (Hup : ((g <? q - (2 ^ 24 - 1) * H)
                       || ((q - (2 ^ 24 - 1) * H =? g)
                           && (sticky || Z.odd (2 ^ 24 - 1)))) = true).
        { change (Z.odd (2 ^ 24 - 1)) with true. rewrite orb_true_r, andb_true_r.
          apply orb_true_iff.
          destruct (Z.eq_dec (q - (2 ^ 24 - 1) * H) g) as [Heq | Hne].
          - right. now apply Z.eqb_eq.
          - left. apply Z.ltb_lt. unfold X in *. nia. }
        rewrite Hup.
        change (2 ^ 24 - 1 + 1 =? 2 ^ 24) with true. cbv iota.
        f_equal; [now symmetry | unfold E; lia].
    + apply Z.eqb_neq in Hm23.
      assert (Hk : Z.max 1 (Z.log2 q + 1 - 24) = E).
      { destruct (Z_le_gt_dec (2 ^ 23) m) as [Hn | Hs].
        - rewrite (log2_between q (23 + E)); [lia | lia |].
          rewrite Z.pow_add_r, <- Z.add_assoc, Z.pow_add_r by lia.
          change (2 ^ 23) with 8388608 in *.
          rewrite (Z.pow_add_r 2 E 1) by lia. change (2 ^ 1) with 2.
          unfold X in *. nia.
        - assert (E = 1) by (unfold E; lia).
          assert (Z.log2 q < 24).
          { unfold X, H in *. replace E with 1 in * by lia.
            change (2 ^ (1 - 1)) with 1 in *. change (2 ^ 1) with 2 in *.
            apply Z.log2_lt_pow2; lia. }
          lia. }
      unfold round_bits. rewrite Hk.
      destruct (div_mod_at q (2 ^ E) (m - 1) (q - (m - 1) * 2 ^ E)) as [Hd Hr];
        [unfold X in *; lia | lia |].
      rewrite Hd, Hr. fold H.
      assert (Hup : ((H <? q - (m - 1) * 2 ^ E)
                     || ((q - (m - 1) * 2 ^ E =? H)
                         && (sticky || Z.odd (m - 1)))) = true).
      { apply orb_true_iff.
        destruct (Z.eq_dec (q - (m - 1) * 2 ^ E) H) as [Heq | Hne].
        - right. apply andb_true_iff. split; [now apply Z.eqb_eq |].
          destruct (Hlo ltac:(unfold X; lia)) as [-> | Hev]; [reflexivity |].
          apply orb_true_iff. right.
          replace (m - 1) with (Z.pred m) by lia.
          now rewrite Z.odd_pred.
        - left. apply Z.ltb_lt. unfold X in *. lia. }
      rewrite Hup.
      replace (m - 1 + 1) with m by lia.
      replace (m =? 2 ^ 24) with false by (symmetry; apply Z.eqb_neq; lia).
      f_equal. unfold E. lia.
Qed.

End Nearest.

Section NearestRatio.
Variables m e : Z.
Hypothesis He : -149 <= e <= 104.
Hypothesis Hm : 0 < m < 2 ^ 24.
Hypothesis Hnorm : e = -149 \/ 2 ^ 23 <= m.

Let E := e + 150.
Let X := m * 2 ^ E.
Let H := 2 ^ (E - 1).
Let Lw := if unequal_margins m e then 2 ^ (E - 2) else 2 ^ (E - 1).

Lemma low_margin_below : 0 < Lw /\ Lw <= H /\ H < X.
Proof.
  assert (HE : 1 <= E) by (unfold E; lia).
  assert (HU : 2 ^ E = 2 * H) by (apply pow2_half; exact HE).
  assert (HH : 0 < H) by (apply pow2_pos; lia).
  unfold Lw, unequal_margins.
  destruct (m =? 2 ^ 23) eqn:Hm23; cbn [andb].
  - destruct (e =? -149) eqn:He149; cbn [negb].
    + fold H. unfold X. nia.
    + apply Z.eqb_neq in He149.
      assert (Hg : H = 2 * 2 ^ (E - 2)).
      { unfold H. rewrite (pow2_half (E - 1)) by (unfold E; lia).
        f_equal. f_equal. lia. }
      assert (0 < 2 ^ (E - 2)) by (apply pow2_pos; unfold E; lia).
      unfold X. nia.
  - fold H. unfold X. nia.
Qed.

Lemma round_ratio_nearest (s : bool) (n d : Z) :
  0 < d ->
  (if Z.even m then (X - Lw) * d <= n * 2 ^ 150
   else (X - Lw) * d < n * 2 ^ 150) ->
  (if Z.even m then n * 2 ^ 150 <= (X + H) * d
   else n * 2 ^ 150 < (X + H) * d) ->
  round_ratio s n d = S754_finite s (Z.to_pos m) e.
Proof.
  intros Hd Hlow Hhigh.
  set (W := n * 2 ^ 150) in *.
  pose proof (Z.div_mod W d ltac:(lia)) as HW.
  pose proof (Z.mod_pos_bound W d Hd) as Hr.
  unfold round_ratio. fold W.
  set (q := W / d) in *. set (r := W mod d) in *.
  rewrite (round_bits_nearest m e He Hm Hnorm q (negb (r =? 0))).
  - destruct m as [|p|p]; try lia.
    replace (104 <? e) with false by (symmetry; apply Z.ltb_ge; lia).
    reflexivity.
  - change (X - Lw <= q <= X + H). clearbody q r W.
    assert (X - Lw < q + 1).
    { apply (Z.mul_lt_mono_pos_r d); [exact Hd |]. destruct (Z.even m); lia. }
    assert (q * d <= (X + H) * d) by (destruct (Z.even m); lia).
    apply Z.mul_le_mono_pos_r in H1; [lia | exact Hd].
  - change (q = X + H -> Z.even m = true /\ negb (r =? 0) = false).
    clearbody q r W. intros Hq. subst q.
    destruct (Z.even m).
    + split; [reflexivity |].
      replace r with 0 by lia. reflexivity.
    + exfalso. lia.
  - change (q = X - Lw -> negb (r =? 0) = true \/ Z.even m = true).
    clearbody q r W. intros Hq. subst q.
    destruct (Z.even m); [now right | left].
    assert (Hr0 : r <> 0) by lia.
    apply Z.eqb_neq in Hr0. now rewrite Hr0.
Qed.

End NearestRatio.

(** Moving an interval of the printer's scaled_value integers to the reader's. *)
Lemma interval_transfer (n d S0 A R0 r ml mh X Lw H P : Z) :
  0 < d -> 0 < S0 -> 0 < A -> 0 < P ->
  n * S0 * A = d * (A * R0 - r) ->
  R0 * P = X * S0 -> ml * P = Lw * S0 -> mh * P = H * S0 ->
  ((r < ml * A -> (X - Lw) * d < n * P)
   /\ (r <= ml * A -> (X - Lw) * d <= n * P))
  /\ ((- (mh * A) < r -> n * P < (X + H) * d)
      /\ (- (mh * A) <= r -> n * P <= (X + H) * d)).
Proof.
  intros Hd HS HA HP Hn HR Hml Hmh.
  assert (HSA : 0 < S0 * A) by nia.
  assert (E1 : (X - Lw) * d * (S0 * A) = d * P * (A * R0 - ml * A)).
  { transitivity (d * A * (X * S0 - Lw * S0)); [ring |].
    rewrite <- HR, <- Hml. ring. }
  assert (E2 : n * P * (S0 * A) = d * P * (A * R0 - r)).
  { transitivity (P * (n * S0 * A)); [ring |]. rewrite Hn. ring. }
  assert (E3 : (X + H) * d * (S0 * A) = d * P * (A * R0 + mh * A)).
  { transitivity (d * A * (X * S0 + H * S0)); [ring |].
    rewrite <- HR, <- Hmh. ring. }
  assert (HdP : 0 < d * P) by nia.
  repeat split; intros Hr.
  - apply (Z.mul_lt_mono_pos_r (S0 * A)); [exact HSA |].
    rewrite E1, E2. apply Z.mul_lt_mono_pos_l; [exact HdP | lia].
  - apply (Z.mul_le_mono_pos_r _ _ (S0 * A)); [exact HSA |].
    rewrite E1, E2. apply Z.mul_le_mono_nonneg_l; lia.
  - apply (Z.mul_lt_mono_pos_r (S0 * A)); [exact HSA |].
    rewrite E3, E2. apply Z.mul_lt_mono_pos_l; [exact HdP | lia].
  - apply (Z.mul_le_mono_pos_r _ _ (S0 * A)); [exact HSA |].
    rewrite E3, E2. apply Z.mul_le_mono_nonneg_l; lia.
Qed.

End RoundingFacts.

(** ** The scaled_value integers of the digit generation *)

Module DragonFacts.
Import Num Numpy Binary32 Reader RoundingFacts.
Local Open Scope list_scope.
Local Open Scope Z_scope.

Lemma estimate_table (b : Z) : -149 <= b <= 127 -> estimate_ok b = true.
Proof.
  intros Hb.
  assert (Hall : forallb (fun i => estimate_ok (-149 + Z.of_nat i)) (seq 0 277)
                 = true) by (vm_compute; reflexivity).
  rewrite forallb_forall in Hall.
  replace b with (-149 + Z.of_nat (Z.to_nat (b + 149))) by lia.
  apply Hall, in_seq. lia.
Qed.

Lemma pow2_cancel (e k : Z) :
  0 <= e + k -> e <= 0 -> 2 ^ (e + k) * 2 ^ (- e) = 2 ^ k.
Proof.
  intros H1 H2. rewrite <- Z.pow_add_r by lia. f_equal. lia.
Qed.

Section Setup.
Variables m e : Z.
Hypothesis He : -149 <= e <= 104.
Hypothesis Hm : 0 < m < 2 ^ 24.
Hypothesis Hnorm : e = -149 \/ 2 ^ 23 <= m.

Local Abbreviation d0 := (dragon_init m e).

Lemma dragon_init_spec :
  0 < scale d0 /\ scale d0 <= 2 ^ 151 /\ 0 < scaledMarginLow d0
  /\ scaledValue d0 * 2 ^ 150 = scaled_value m e * scale d0
  /\ scaledMarginLow d0 * 2 ^ 150 = half_gap_below m e * scale d0
  /\ scaledMarginHigh d0 * 2 ^ 150 = half_gap_above e * scale d0.
Proof.
  unfold dragon_init, half_gap_below, half_gap_above, scaled_value.
  destruct (unequal_margins m e) eqn:Hu.
  - assert (-149 < e).
    { unfold unequal_margins in Hu. apply andb_true_iff in Hu.
      destruct Hu as [_ Hu]. apply negb_true_iff, Z.eqb_neq in Hu. lia. }
    replace (e + 150 - 2) with (e + 148) by lia.
    replace (e + 150 - 1) with (e + 149) by lia.
    destruct (0 <? e) eqn:H0e; cbn [scale scaledValue scaledMarginLow scaledMarginHigh].
    + apply Z.ltb_lt in H0e.
      rewrite !(Z.pow_add_r 2 e) by lia.
      assert (0 < 2 ^ e) by (apply pow2_pos; lia).
      change (2 ^ 151) with (2 * 2 ^ 150).
      change (2 ^ 150) with (4 * 2 ^ 148).
      change (2 ^ 149) with (2 * 2 ^ 148).
      repeat split; try lia; ring.
    + apply Z.ltb_ge in H0e.
      assert (0 < 2 ^ (- e)) by (apply pow2_pos; lia).
      assert (2 ^ (- e) <= 2 ^ 148) by (apply Z.pow_le_mono_r; lia).
      pose proof (pow2_cancel e 150 ltac:(lia) H0e) as C0.
      pose proof (pow2_cancel e 149 ltac:(lia) H0e) as C1.
      pose proof (pow2_cancel e 148 ltac:(lia) H0e) as C2.
      split; [lia |]. split.
      { change (2 ^ 151) with (4 * (2 * 2 ^ 148)).
        change (2 ^ 148) with 356811923176489970264571492362373784095686656 in *.
        lia. }
      split; [lia |]. split; [| split].
      * transitivity (4 * m * (2 ^ (e + 150) * 2 ^ (- e))); [| ring].
        rewrite C0. ring.
      * transitivity (4 * (2 ^ (e + 148) * 2 ^ (- e))); [| ring].
        rewrite C2. reflexivity.
      * transitivity (4 * (2 ^ (e + 149) * 2 ^ (- e))); [| ring].
        rewrite C1. reflexivity.
  - replace (e + 150 - 1) with (e + 149) by lia.
    destruct (0 <? e) eqn:H0e; cbn [scale scaledValue scaledMarginLow scaledMarginHigh].
    + apply Z.ltb_lt in H0e.
      rewrite !(Z.pow_add_r 2 e) by lia.
      assert (0 < 2 ^ e) by (apply pow2_pos; lia).
      change (2 ^ 150) with (2 * 2 ^ 149).
      repeat split; try lia; ring.
    + apply Z.ltb_ge in H0e.
      assert (0 < 2 ^ (- e)) by (apply pow2_pos; lia).
      assert (2 ^ (- e) <= 2 ^ 149) by (apply Z.pow_le_mono_r; lia).
      pose proof (pow2_cancel e 150 ltac:(lia) H0e) as C0.
      pose proof (pow2_cancel e 149 ltac:(lia) H0e) as C1.
      split; [lia |]. split.
      { change (2 ^ 151) with (2 * (2 * 2 ^ 149)).
        change (2 ^ 149) with 713623846352979940529142984724747568191373312 in *.
        lia. }
      split; [lia |]. split; [| split].
      * transitivity (2 * m * (2 ^ (e + 150) * 2 ^ (- e))); [| ring].
        rewrite C0. ring.
      * transitivity (2 * (2 ^ (e + 149) * 2 ^ (- e))); [| ring].
        rewrite C1. reflexivity.
      * transitivity (2 * (2 ^ (e + 149) * 2 ^ (- e))); [| ring].
        rewrite C1. reflexivity.
Qed.

Lemma binary_exponent_range : -149 <= Z.log2 m + e <= 127.
Proof.
  assert (0 <= Z.log2 m) by apply Z.log2_nonneg.
  assert (Z.log2 m < 24) by (apply Z.log2_lt_pow2; lia).
  split; [lia |].
  destruct Hnorm as [-> | Hn]; lia.
Qed.

Lemma value_below_binade :
  scaledValue d0 * 2 ^ 150 < 2 ^ (Z.log2 m + e + 151) * scale d0.
Proof.
  destruct dragon_init_spec as (HS & _ & _ & HV & _).
  rewrite HV. apply Z.mul_lt_mono_pos_r; [exact HS |].
  unfold scaled_value.
  replace (Z.log2 m + e + 151) with (Z.succ (Z.log2 m) + (e + 150)) by lia.
  assert (0 <= Z.log2 m) by apply Z.log2_nonneg.
  rewrite (Z.pow_add_r 2 (Z.succ (Z.log2 m)) (e + 150)) by lia.
  apply Z.mul_lt_mono_pos_r; [apply pow2_pos; lia |].
  apply Z.log2_spec. lia.
Qed.

Lemma dragon_scale_spec (d : dragon) (digitExponent : Z) :
  dragon_scale (estimate_exponent (Z.log2 m + e)) d0 = (d, digitExponent) ->
  exists a b : Z,
    0 <= a <= 46 /\ 0 <= b <= 39 /\ digitExponent - 1 = b - a
    /\ scaledValue d = scaledValue d0 * 10 ^ a
    /\ scale d = scale d0 * 10 ^ b
    /\ scaledMarginLow d = scaledMarginLow d0 * 10 ^ a
    /\ scaledMarginHigh d = scaledMarginHigh d0 * 10 ^ a
    /\ scaledValue d < 10 * scale d.
Proof.
  pose proof (estimate_table _ binary_exponent_range) as Ht.
  pose proof value_below_binade as Hv.
  destruct dragon_init_spec as (HS & _ & _ & _).
  unfold estimate_ok in Ht.
  set (est := estimate_exponent (Z.log2 m + e)) in *.
  apply andb_true_iff in Ht. destruct Ht as [Ht Hpow].
  apply andb_true_iff in Ht. destruct Ht as [Hlo Hhi].
  apply Z.leb_le in Hlo, Hhi.
  set (P := 2 ^ 150) in *. assert (HP : 0 < P) by reflexivity.
  set (B := 2 ^ (Z.log2 m + e + 151)) in *.
  unfold dragon_scale.
  destruct (0 <? est) eqn:Hest.
  - apply Z.ltb_lt in Hest. apply Z.leb_le in Hpow.
    cbn [scale scaledValue scaledMarginLow scaledMarginHigh].
    assert (HT : 0 < 10 ^ est) by (apply Z.pow_pos_nonneg; lia).
    assert (Hten : 10 ^ (est + 1) = 10 * 10 ^ est).
    { rewrite Z.pow_add_r by lia. change (10 ^ 1) with 10. ring. }
    destruct (scale d0 * 10 ^ est <=? scaledValue d0) eqn:Hcmp; intros Hd;
      injection Hd as <- <-;
      cbn [times10 scale scaledValue scaledMarginLow scaledMarginHigh].
    + exists 0, est. change (10 ^ 0) with 1.
      repeat split; try lia.
      assert (scaledValue d0 * P < 10 ^ (est + 1) * P * scale d0).
      { eapply Z.lt_le_trans; [exact Hv |].
        apply Z.mul_le_mono_nonneg_r; lia. }
      apply (Z.mul_lt_mono_pos_r P); [exact HP |].
      rewrite Hten in *. lia.
    + apply Z.leb_gt in Hcmp. exists 1, est. change (10 ^ 1) with 10.
      repeat split; lia.
  - apply Z.ltb_ge in Hest. apply Z.leb_le in Hpow.
    assert (HT : 0 < 10 ^ (- est)) by (apply Z.pow_pos_nonneg; lia).
    cbn [times10 scale scaledValue scaledMarginLow scaledMarginHigh].
    destruct (scale d0 <=? scaledValue d0 * 10 ^ (- est)) eqn:Hcmp; intros Hd;
      injection Hd as <- <-;
      cbn [times10 scale scaledValue scaledMarginLow scaledMarginHigh].
    + exists (- est), 0. change (10 ^ 0) with 1.
      repeat split; try lia.
      apply (Z.mul_lt_mono_pos_r P); [exact HP |].
      assert (scaledValue d0 * P * 10 ^ (- est) < B * scale d0 * 10 ^ (- est)).
      { apply Z.mul_lt_mono_pos_r; [exact HT | exact Hv]. }
      assert (B * 10 ^ (- est) * scale d0 <= 10 * P * scale d0).
      { apply Z.mul_le_mono_nonneg_r; lia. }
      lia.
    + apply Z.leb_gt in Hcmp. exists (- est + 1), 0. change (10 ^ 0) with 1.
      assert (Hten : 10 ^ (- est + 1) = 10 ^ (- est) * 10 ^ 1).
      { apply Z.pow_add_r; lia. }
      rewrite Hten.
      repeat split; try lia; try ring.
Qed.

End Setup.

End DragonFacts.

(** ** The digit loop *)

Module DigitFacts.
Import Num Numpy Binary32 Reader RoundingFacts DragonFacts.
Local Open Scope list_scope.
Local Open Scope Z_scope.

Lemma number_snoc (ds : list Z) (d : Z) : number (ds ++ [d]) = 10 * number ds + d.
Proof. unfold number. now rewrite fold_left_app. Qed.

Lemma pow10_succ (n : nat) : 10 ^ Z.of_nat (S n) = 10 * 10 ^ Z.of_nat n.
Proof. rewrite Nat2Z.inj_succ. apply Z.pow_succ_r. lia. Qed.

Lemma pow10_pos (k : Z) : 0 <= k -> 0 < 10 ^ k.
Proof. intros H. apply Z.pow_pos_nonneg; lia. Qed.

Section Loop.
Variables (isEven : bool) (S R l0 h0 : Z).
Hypothesis HS : 0 < S.
Hypothesis Hl0 : 0 < l0.

Lemma digit_loop_spec (room : nat) :
  forall (written : list Z) (value low high : Z),
    0 <= value < 10 * S ->
    Forall digit written ->
    10 * number (List.rev written) * S + value = 10 ^ Z.of_nat (List.length written) * R ->
    low = 10 ^ Z.of_nat (List.length written) * l0 ->
    high = 10 ^ Z.of_nat (List.length written) * h0 ->
    forall (written' : list Z) (d rest : Z) (lo hi : bool),
      digit_loop room isEven S value low high written
      = (written', d, rest, lo, hi) ->
      Forall digit written' /\ digit d /\ 0 <= rest < S
      /\ (10 * number (List.rev written') + d) * S + rest
         = 10 ^ Z.of_nat (List.length written') * R
      /\ (lo = true ->
          if isEven then rest <= 10 ^ Z.of_nat (List.length written') * l0
          else rest < 10 ^ Z.of_nat (List.length written') * l0)
      /\ (hi = true ->
          if isEven then S <= rest + 10 ^ Z.of_nat (List.length written') * h0
          else S < rest + 10 ^ Z.of_nat (List.length written') * h0)
      /\ (S <= low * 10 ^ Z.of_nat room -> lo || hi = true).
Proof.
  assert (Hstop : forall (written : list Z) (value low high : Z),
    0 <= value < 10 * S ->
    Forall digit written ->
    10 * number (List.rev written) * S + value = 10 ^ Z.of_nat (List.length written) * R ->
    low = 10 ^ Z.of_nat (List.length written) * l0 ->
    high = 10 ^ Z.of_nat (List.length written) * h0 ->
    let d := value / S in
    let rest := value mod S in
    let lo := if isEven then rest <=? low else rest <? low in
    let hi := if isEven then S <=? rest + high else S <? rest + high in
    Forall digit written /\ digit d /\ 0 <= rest < S
    /\ (10 * number (List.rev written) + d) * S + rest
       = 10 ^ Z.of_nat (List.length written) * R
    /\ (lo = true ->
        if isEven then rest <= 10 ^ Z.of_nat (List.length written) * l0
        else rest < 10 ^ Z.of_nat (List.length written) * l0)
    /\ (hi = true ->
        if isEven then S <= rest + 10 ^ Z.of_nat (List.length written) * h0
        else S < rest + 10 ^ Z.of_nat (List.length written) * h0)).
  { intros written value low high Hv Hw Hinv Hlow Hhigh d rest lo hi.
    pose proof (Z.div_mod value S ltac:(lia)) as Hdm.
    pose proof (Z.mod_pos_bound value S HS) as Hr.
    fold d rest in Hdm, Hr.
    split; [exact Hw |]. split.
    { unfold digit. clearbody d rest. nia. }
    split; [exact Hr |]. split.
    { clearbody d rest. rewrite <- Hinv. lia. }
    subst low high. subst lo hi. split; intros Ht; destruct isEven; lia. }
  induction room as [| room IH];
    intros written value low high Hv Hw Hinv Hlow Hhigh written' d rest lo hi Hrun.
  - cbn [digit_loop] in Hrun. injection Hrun as <- <- <- <- <-.
    destruct (Hstop written value low high Hv Hw Hinv Hlow Hhigh)
      as (A1 & A2 & A3 & A4 & A5 & A6).
    repeat (split; [assumption |]).
    change (10 ^ Z.of_nat 0) with 1. intros Hroom.
    apply orb_true_iff. left. destruct isEven; lia.
  - cbn [digit_loop] in Hrun.
    destruct (Hstop written value low high Hv Hw Hinv Hlow Hhigh)
      as (A1 & A2 & A3 & A4 & A5 & A6).
    set (d1 := value / S) in *. set (rest1 := value mod S) in *.
    destruct ((if isEven then rest1 <=? low else rest1 <? low)
              || (if isEven then S <=? rest1 + high else S <? rest1 + high))
      eqn:Hstopped.
    + injection Hrun as <- <- <- <- <-.
      repeat (split; [assumption |]).
      intros _. exact Hstopped.
    + apply orb_false_iff in Hstopped. destruct Hstopped as [Hlo Hhi].
      clearbody d1 rest1.
      specialize (IH (d1 :: written) (10 * rest1) (10 * low) (10 * high)).
      cbn [List.rev List.length] in IH. rewrite number_snoc, pow10_succ in IH.
      destruct (IH ltac:(lia) ltac:(now constructor) ltac:(nia)
                   ltac:(lia) ltac:(lia) _ _ _ _ _ Hrun)
        as (B1 & B2 & B3 & B4 & B5 & B6 & B7).
      repeat (split; [assumption |]).
      intros Hroom. apply B7. rewrite pow10_succ in Hroom. lia.
Qed.

End Loop.

Lemma round_up_spec (written : list Z) :
  Forall digit written ->
  match round_up written with
  | Some ds =>
      ds <> [] /\ Forall digit ds /\ (List.length ds <= List.length written)%nat
      /\ number (List.rev ds) * 10 ^ (Z.of_nat (List.length written) - Z.of_nat (List.length ds))
         = number (List.rev written) + 1
  | None => number (List.rev written) + 1 = 10 ^ Z.of_nat (List.length written)
  end.
Proof.
  induction written as [| d w IH]; intros Hw; [reflexivity |].
  inversion Hw as [| ? ? Hd Hw']; subst.
  cbn [round_up]. destruct (d =? 9) eqn:H9.
  - apply Z.eqb_eq in H9. subst d. specialize (IH Hw').
    destruct (round_up w) as [ds |].
    + destruct IH as (I1 & I2 & I3 & I4).
      split; [exact I1 |]. split; [exact I2 |].
      split; [cbn [List.length]; lia |].
      cbn [List.rev List.length]. rewrite number_snoc.
      replace (Z.of_nat (Datatypes.S (List.length w)) - Z.of_nat (List.length ds))
        with (Z.succ (Z.of_nat (List.length w) - Z.of_nat (List.length ds))) by lia.
      rewrite Z.pow_succ_r by lia. lia.
    + cbn [List.rev List.length]. rewrite number_snoc, pow10_succ. lia.
  - apply Z.eqb_neq in H9.
    split; [discriminate |].
    split; [constructor; [unfold digit in *; lia | exact Hw'] |].
    split; [cbn [List.length]; lia |].
    cbn [List.rev List.length]. rewrite !number_snoc, Z.sub_diag. change (10 ^ 0) with 1.
    lia.
Qed.

End DigitFacts.

(** ** The printed decimal lies in the rounding interval *)

Module PrintFacts.
Import Num Numpy Binary32 Reader RoundingFacts DragonFacts DigitFacts.
Local Open Scope list_scope.
Local Open Scope Z_scope.

Lemma buffer_is_large (S low : Z) :
  0 < S <= 2 ^ 151 * 10 ^ 39 -> 1 <= low ->
  S <= low * 10 ^ Z.of_nat buffer_size.
Proof.
  intros HS Hlow.
  assert (Hbig : 2 ^ 151 * 10 ^ 39 <= 10 ^ Z.of_nat buffer_size).
  { transitivity (10 ^ 100); [apply Z.leb_le; vm_compute; reflexivity |].
    apply Z.pow_le_mono_r; [lia |].
    unfold buffer_size. rewrite Z2Nat.id; lia. }
  assert (HB : 0 < 10 ^ Z.of_nat buffer_size) by (apply pow10_pos; lia).
  revert Hbig HB. generalize (10 ^ Z.of_nat buffer_size).
  revert HS. generalize (2 ^ 151 * 10 ^ 39). intros C HS B Hbig HB.
  nia.
Qed.

Lemma pow10_add (a b : Z) : 0 <= a -> 0 <= b -> 10 ^ (a + b) = 10 ^ a * 10 ^ b.
Proof. intros. apply Z.pow_add_r; lia. Qed.

Section Output.
Variables m e : Z.
Hypothesis He : -149 <= e <= 104.
Hypothesis Hm : 0 < m < 2 ^ 24.
Hypothesis Hnorm : e = -149 \/ 2 ^ 23 <= m.

Local Abbreviation d0 := (dragon_init m e).

Lemma dragon4_spec (ds : list Z) (ex : Z) :
  dragon4 m e = (ds, ex) ->
  ds <> [] /\ Forall digit ds /\ -46 <= ex <= 40
  /\ exists t rr : Z,
       0 <= t /\ 0 <= ex + 1 - Z.of_nat (List.length ds) + t
       /\ number ds * 10 ^ (ex + 1 - Z.of_nat (List.length ds) + t) * scale d0
          = 10 ^ t * scaledValue d0 - rr
       /\ (if Z.even m then rr <= scaledMarginLow d0 * 10 ^ t
           else rr < scaledMarginLow d0 * 10 ^ t)
       /\ (if Z.even m then - (scaledMarginHigh d0 * 10 ^ t) <= rr
           else - (scaledMarginHigh d0 * 10 ^ t) < rr).
Proof.
  unfold dragon4.
  destruct (dragon_scale (estimate_exponent (Z.log2 m + e)) d0)
    as [d dE] eqn:Hscale.
  destruct (dragon_scale_spec m e He Hm Hnorm d dE Hscale)
    as (a & b & Ha & Hb & HdE & HV & HSc & HL & HH & Hlt).
  destruct (dragon_init_spec m e He)
    as (HS0 & HS0max & HL0 & HV0 & HLw & HHw).
  assert (HH0 : 0 < scaledMarginHigh d0).
  { assert (0 < half_gap_above e) by (apply pow2_pos; lia).
    assert (0 < scaledMarginHigh d0 * 2 ^ 150) by (rewrite HHw; nia).
    lia. }
  assert (HR0 : 0 < scaledValue d0).
  { assert (0 < scaled_value m e).
    { unfold scaled_value. assert (0 < 2 ^ (e + 150)) by (apply pow2_pos; lia). nia. }
    assert (0 < scaledValue d0 * 2 ^ 150) by (rewrite HV0; nia).
    lia. }
  assert (Pa : 0 < 10 ^ a) by (apply pow10_pos; lia).
  assert (Pb : 0 < 10 ^ b) by (apply pow10_pos; lia).
  destruct (digit_loop buffer_size (Z.even m) (scale d) (scaledValue d)
              (scaledMarginLow d) (scaledMarginHigh d) [])
    as [[[[written od] rest] lo] hi] eqn:Hloop.
  assert (HSd : 0 < scale d) by (rewrite HSc; nia).
  assert (HLd : 0 < scaledMarginLow d) by (rewrite HL; nia).
  assert (Hv0 : 0 <= scaledValue d < 10 * scale d) by (rewrite HV at 1; nia).
  destruct (digit_loop_spec (Z.even m) (scale d) (scaledValue d)
              (scaledMarginLow d) (scaledMarginHigh d) HSd
              buffer_size [] (scaledValue d) (scaledMarginLow d)
              (scaledMarginHigh d) Hv0 (Forall_nil _)
              ltac:(change (10 * 0 * scale d + scaledValue d
                            = 1 * scaledValue d); lia)
              ltac:(change (scaledMarginLow d = 1 * scaledMarginLow d); lia)
              ltac:(change (scaledMarginHigh d = 1 * scaledMarginHigh d); lia)
              _ _ _ _ _ Hloop)
    as (Hw & Hod & Hrest & Hsum & Hlo & Hhi & Hend).
  assert (Hstop : lo || hi = true).
  { apply Hend, buffer_is_large; [| lia]. split; [lia |].
    rewrite HSc.
    assert (10 ^ b <= 10 ^ 39) by (apply Z.pow_le_mono_r; lia).
    nia. }
  clear Hend Hloop.
  set (j := Z.of_nat (List.length written)) in *.
  assert (Hj : 0 <= j) by (unfold j; lia).
  assert (Pj : 0 < 10 ^ j) by (apply pow10_pos; lia).
  set (P := number (List.rev written)) in *.
  assert (Hlo' : lo = true ->
            if Z.even m then rest <= scaledMarginLow d0 * 10 ^ (a + j)
            else rest < scaledMarginLow d0 * 10 ^ (a + j)).
  { intros Ht. specialize (Hlo Ht). rewrite pow10_add by lia.
    rewrite HL in Hlo. destruct (Z.even m); lia. }
  assert (Hhi' : hi = true ->
            if Z.even m
            then - (scaledMarginHigh d0 * 10 ^ (a + j)) <= rest - scale d
            else - (scaledMarginHigh d0 * 10 ^ (a + j)) < rest - scale d).
  { intros Ht. specialize (Hhi Ht). rewrite pow10_add by lia.
    rewrite HH in Hhi. destruct (Z.even m); lia. }
  assert (Hsum' : (10 * P + od) * 10 ^ b * scale d0
                  = 10 ^ (a + j) * scaledValue d0 - rest).
  { rewrite pow10_add by lia. rewrite HV, HSc in Hsum. lia. }
  assert (Hup : forall (ds' : list Z) (ex' : Z),
            number ds' * 10 ^ (ex' + 1 - Z.of_nat (List.length ds') - (b - a - j))
            = 10 * P + od + 1 ->
            0 <= ex' + 1 - Z.of_nat (List.length ds') - (b - a - j) ->
            hi = true ->
            exists t rr : Z,
              0 <= t /\ 0 <= ex' + 1 - Z.of_nat (List.length ds') + t
              /\ number ds' * 10 ^ (ex' + 1 - Z.of_nat (List.length ds') + t)
                 * scale d0
                 = 10 ^ t * scaledValue d0 - rr
              /\ (if Z.even m then rr <= scaledMarginLow d0 * 10 ^ t
                  else rr < scaledMarginLow d0 * 10 ^ t)
              /\ (if Z.even m then - (scaledMarginHigh d0 * 10 ^ t) <= rr
                  else - (scaledMarginHigh d0 * 10 ^ t) < rr)).
  { intros ds' ex' Hnum Hc Hhit.
    exists (a + j), (rest - scale d).
    split; [lia |]. split; [lia |]. split.
    - replace (ex' + 1 - Z.of_nat (List.length ds') + (a + j))
        with (ex' + 1 - Z.of_nat (List.length ds') - (b - a - j) + b) by lia.
      rewrite pow10_add by lia. rewrite Z.mul_assoc, Hnum.
      rewrite HSc. lia.
    - split; [| exact (Hhi' Hhit)].
      assert (0 < scaledMarginLow d0 * 10 ^ (a + j)).
      { assert (0 < 10 ^ (a + j)) by (apply pow10_pos; lia). nia. }
      destruct (Z.even m); lia. }
  set (roundDown :=
         if Bool.eqb lo hi
         then match 2 * rest ?= scale d with
              | Lt => true
              | Eq => Z.even od
              | Gt => false
              end
         else lo).
  assert (Hdir : (roundDown = true -> lo = true)
                 /\ (roundDown = false -> hi = true)).
  { unfold roundDown. destruct lo, hi; cbn in *; try discriminate; auto. }
  destruct Hdir as [Hdown Hupw].
  destruct roundDown eqn:Hrd.
  - intros Hout. injection Hout as <- <-.
    split; [cbn [List.rev]; intros Hnil; now apply app_eq_nil in Hnil |].
    split; [apply (@Forall_rev _ digit (od :: written)); now constructor |].
    split; [lia |].
    exists (a + j), rest.
    change (List.rev written ++ [od]) with (List.rev (od :: written)).
    rewrite length_rev. cbn [List.length]. rewrite Nat2Z.inj_succ. fold j.
    split; [lia |]. split; [lia |]. split.
    + cbn [List.rev]. rewrite number_snoc. fold P.
      replace (dE - 1 + 1 - Z.succ j + (a + j)) with b by lia.
      exact Hsum'.
    + split; [exact (Hlo' (Hdown eq_refl)) |].
      assert (0 < scaledMarginHigh d0 * 10 ^ (a + j)).
      { assert (0 < 10 ^ (a + j)) by (apply pow10_pos; lia). nia. }
      destruct (Z.even m); lia.
  - pose proof (round_up_spec (od :: written) ltac:(now constructor)) as Hru.
    destruct (round_up (od :: written)) as [ds' |].
    + destruct Hru as (R1 & R2 & R3 & R4).
      intros Hout. injection Hout as <- <-.
      split; [intros Hnil; apply R1; destruct ds'; [reflexivity |];
              cbn [List.rev] in Hnil; now apply app_eq_nil in Hnil |].
      split; [now apply Forall_rev |].
      split; [lia |].
      cbn [List.length List.rev] in R3, R4. rewrite number_snoc in R4. fold P in R4.
      rewrite Nat2Z.inj_succ in R4. fold j in R4.
      apply Hup; [| rewrite length_rev; lia | exact (Hupw eq_refl)].
      rewrite length_rev.
      replace (dE - 1 + 1 - Z.of_nat (List.length ds') - (b - a - j))
        with (Z.succ j - Z.of_nat (List.length ds')) by lia.
      exact R4.
    + cbn [List.length List.rev] in Hru. rewrite number_snoc in Hru. fold P in Hru.
      rewrite Nat2Z.inj_succ in Hru. fold j in Hru.
      intros Hout. injection Hout as <- <-.
      split; [discriminate |].
      split; [repeat constructor; unfold digit; lia |].
      split; [lia |].
      apply Hup; [| cbn [List.length]; lia | exact (Hupw eq_refl)].
      cbn [List.length].
      replace (dE + 1 - Z.of_nat 1 - (b - a - j)) with (Z.succ j) by lia.
      change (number [1]) with 1. lia.
Qed.

End Output.

Section ReadBack.
Variables m e : Z.
Hypothesis He : -149 <= e <= 104.
Hypothesis Hm : 0 < m < 2 ^ 24.
Hypothesis Hnorm : e = -149 \/ 2 ^ 23 <= m.

Lemma printed_decimal_reads_back (ds : list Z) (ex : Z) :
  dragon4 m e = (ds, ex) ->
  forall (s : bool) (c : Z),
    0 <= c ->
    decimal_to_float32 s (number ds * 10 ^ c)
      (ex + 1 - Z.of_nat (List.length ds) - c)
    = S754_finite s (Z.to_pos m) e.
Proof.
  intros Hrun s c Hc.
  destruct (dragon4_spec m e He Hm Hnorm ds ex Hrun)
    as (_ & _ & _ & t & rr & Ht & Hpt & Hsum & Hlow & Hhigh).
  destruct (dragon_init_spec m e He)
    as (HS0 & _ & HL0 & HV0 & HLw & HHw).
  destruct (low_margin_below m e He Hm) as (G1 & G2 & G3).
  change (0 < half_gap_below m e) in G1.
  change (half_gap_above e < scaled_value m e) in G3.
  change (half_gap_below m e <= half_gap_above e) in G2.
  set (p := ex + 1 - Z.of_nat (List.length ds)) in *.
  set (N := number ds) in *.
  set (S0 := scale (dragon_init m e)) in *.
  set (R0 := scaledValue (dragon_init m e)) in *.
  set (ml := scaledMarginLow (dragon_init m e)) in *.
  set (mh := scaledMarginHigh (dragon_init m e)) in *.
  assert (PT : 0 < 10 ^ t) by (apply pow10_pos; lia).
  assert (Pc : 0 < 10 ^ c) by (apply pow10_pos; lia).
  assert (Ppt : 0 < 10 ^ (p + t)) by (apply pow10_pos; lia).
  assert (Hml : ml < R0).
  { apply (Z.mul_lt_mono_pos_r (2 ^ 150)); [reflexivity |].
    rewrite HV0, HLw. apply Z.mul_lt_mono_pos_r; lia. }
  assert (HN : 0 < N).
  { assert (0 < 10 ^ t * R0 - rr).
    { assert (rr <= ml * 10 ^ t) by (destruct (Z.even m); lia). nia. }
    rewrite <- Hsum in H. nia. }
  unfold decimal_to_float32.
  replace (N * 10 ^ c =? 0) with false by (symmetry; apply Z.eqb_neq; nia).
  destruct (0 <=? p - c) eqn:Hsign.
  - apply Z.leb_le in Hsign.
    assert (Ppc : 0 < 10 ^ (p - c)) by (apply pow10_pos; lia).
    destruct (interval_transfer (N * 10 ^ c * 10 ^ (p - c)) 1 S0 (10 ^ t) R0 rr
                ml mh (scaled_value m e) (half_gap_below m e) (half_gap_above e)
                (2 ^ 150))
      as [[L1 L2] [U1 U2]]; try lia; try reflexivity.
    { rewrite <- Hsum.
      replace (p + t) with (c + (p - c) + t) by lia.
      rewrite !pow10_add by lia. ring. }
    apply (round_ratio_nearest m e He Hm Hnorm s); [lia | |].
    + change ((if Z.even m
               then (scaled_value m e - half_gap_below m e) * 1
                    <= N * 10 ^ c * 10 ^ (p - c) * 2 ^ 150
               else (scaled_value m e - half_gap_below m e) * 1
                    < N * 10 ^ c * 10 ^ (p - c) * 2 ^ 150)).
      destruct (Z.even m); [apply L2 | apply L1]; lia.
    + change ((if Z.even m
               then N * 10 ^ c * 10 ^ (p - c) * 2 ^ 150
                    <= (scaled_value m e + half_gap_above e) * 1
               else N * 10 ^ c * 10 ^ (p - c) * 2 ^ 150
                    < (scaled_value m e + half_gap_above e) * 1)).
      destruct (Z.even m); [apply U2 | apply U1]; lia.
  - apply Z.leb_gt in Hsign.
    replace (- (p - c)) with (c - p) by lia.
    assert (Pcp : 0 < 10 ^ (c - p)) by (apply pow10_pos; lia).
    destruct (interval_transfer (N * 10 ^ c) (10 ^ (c - p)) S0 (10 ^ t) R0 rr
                ml mh (scaled_value m e) (half_gap_below m e) (half_gap_above e)
                (2 ^ 150))
      as [[L1 L2] [U1 U2]]; try lia; try reflexivity.
    { rewrite <- Hsum.
      transitivity (N * S0 * (10 ^ c * 10 ^ t)); [ring |].
      transitivity (N * S0 * (10 ^ (c - p) * 10 ^ (p + t))); [| ring].
      f_equal. rewrite <- !pow10_add by lia. f_equal. lia. }
    apply (round_ratio_nearest m e He Hm Hnorm s); [lia | |].
    + change ((if Z.even m
               then (scaled_value m e - half_gap_below m e) * 10 ^ (c - p)
                    <= N * 10 ^ c * 2 ^ 150
               else (scaled_value m e - half_gap_below m e) * 10 ^ (c - p)
                    < N * 10 ^ c * 2 ^ 150)).
      destruct (Z.even m); [apply L2 | apply L1]; lia.
    + change ((if Z.even m
               then N * 10 ^ c * 2 ^ 150
                    <= (scaled_value m e + half_gap_above e) * 10 ^ (c - p)
               else N * 10 ^ c * 2 ^ 150
                    < (scaled_value m e + half_gap_above e) * 10 ^ (c - p))).
      destruct (Z.even m); [apply U2 | apply U1]; lia.
Qed.

End ReadBack.

End PrintFacts.

(** ** Reading the printed text *)

Module ReadFacts.
Import Text Num Numpy Binary32 Reader TextFacts FloatFacts.
Import RoundingFacts DragonFacts DigitFacts PrintFacts.
Local Open Scope list_scope.
Local Open Scope Z_scope.

Lemma digit_cases (d : Z) :
  digit d ->
  d = 0 \/ d = 1 \/ d = 2 \/ d = 3 \/ d = 4 \/ d = 5 \/ d = 6 \/ d = 7
  \/ d = 8 \/ d = 9.
Proof. unfold digit. lia. Qed.

Ltac each_digit H :=
  destruct (digit_cases _ H)
    as [-> | [-> | [-> | [-> | [-> | [-> | [-> | [-> | [-> | ->]]]]]]]]].

Lemma digit_value_char (d : Z) : digit d -> digit_value (digit_char d) = Some d.
Proof. intros H. each_digit H; reflexivity. Qed.

Lemma read_sign_digit (d : Z) (r : string) :
  digit d ->
  read_sign (String (digit_char d) r) = (false, String (digit_char d) r).
Proof. intros H. each_digit H; reflexivity. Qed.

Lemma digit_not_special (d : Z) (r : string) :
  digit d ->
  (String.eqb (String (digit_char d) r) "inf"
   || String.eqb (String (digit_char d) r) "infinity") = false
  /\ String.eqb (String (digit_char d) r) "nan" = false.
Proof. intros H. each_digit H; split; reflexivity. Qed.

Lemma digits_string_cons (d : Z) (ds : list Z) (rest : string) :
  (digits_string (d :: ds) ++ rest)%string
  = String (digit_char d) (digits_string ds ++ rest).
Proof. reflexivity. Qed.

Lemma read_digits_app (ds : list Z) (rest : string) :
  Forall digit ds -> stops rest ->
  read_digits (digits_string ds ++ rest) = (ds, rest).
Proof.
  intros Hds Hrest. induction Hds as [| d ds Hd Hds IH].
  - change (digits_string [] ++ rest)%string with rest.
    destruct rest as [| c r]; [reflexivity |].
    cbn [read_digits]. cbn in Hrest. now rewrite Hrest.
  - rewrite digits_string_cons. cbn [read_digits].
    rewrite digit_value_char by exact Hd. now rewrite IH.
Qed.

Lemma append_empty (s : string) : (s ++ "")%string = s.
Proof. induction s as [| c s IH]; [reflexivity |]. cbn. now rewrite IH. Qed.

Lemma read_digits_all (ds : list Z) :
  Forall digit ds -> read_digits (digits_string ds) = (ds, ""%string).
Proof.
  intros H. rewrite <- (append_empty (digits_string ds)).
  now apply read_digits_app.
Qed.

Lemma number_app (a b : list Z) :
  number (a ++ b) = number a * 10 ^ Z.of_nat (List.length b) + number b.
Proof.
  revert a. induction b as [| d b IH] using rev_ind; intros a.
  - rewrite app_nil_r. cbn. lia.
  - rewrite app_assoc, !number_snoc, IH, length_app.
    cbn [List.length]. rewrite Nat.add_1_r, pow10_succ. ring.
Qed.

Lemma number_zeros (k : nat) : number (repeat 0 k) = 0.
Proof.
  induction k as [| k IH]; [reflexivity |].
  change (repeat 0 (S k)) with ([0] ++ repeat 0 k).
  rewrite number_app, IH. reflexivity.
Qed.

Lemma digit_zeros (k : nat) : Forall digit (repeat 0 k).
Proof.
  induction k; constructor; [unfold digit; lia | assumption].
Qed.

(** Reading a number that has a decimal point. *)
Lemma read_number_point (s : bool) (whole frac : list Z) (tail : string) :
  Forall digit whole -> Forall digit frac -> whole <> [] -> stops tail ->
  read_number s (digits_string whole ++ "." ++ digits_string frac ++ tail)
  = option_map
      (fun ex => decimal_to_float32 s (number (whole ++ frac))
                   (ex - Z.of_nat (List.length frac)))
      (read_exponent tail).
Proof.
  intros Hw Hf Hne Htail. unfold read_number.
  rewrite read_digits_app; [| exact Hw | reflexivity].
  change ("." ++ digits_string frac ++ tail)%string
    with (String "." (digits_string frac ++ tail)).
  cbv iota beta.
  rewrite read_digits_app by assumption.
  destruct whole as [| d w]; [contradiction |].
  cbn [app]. destruct (read_exponent tail); reflexivity.
Qed.

(** Reading a number without one. *)
Lemma read_number_plain (s : bool) (whole : list Z) (tail : string) :
  Forall digit whole -> whole <> [] -> stops tail ->
  (forall r, tail <> String "." r) ->
  read_number s (digits_string whole ++ tail)
  = option_map (fun ex => decimal_to_float32 s (number whole) ex)
      (read_exponent tail).
Proof.
  intros Hw Hne Htail Hdot. unfold read_number.
  rewrite read_digits_app by assumption.
  assert (Hrest : match tail with
                  | String "." rest' => read_digits rest'
                  | _ => ([], tail)
                  end = ([], tail)).
  { destruct tail as [| c r]; [reflexivity |].
    destruct c as [[] [] [] [] [] [] [] []]; try reflexivity.
    exfalso. now apply (Hdot r). }
  rewrite Hrest. rewrite app_nil_r.
  destruct whole as [| d w]; [contradiction |].
  destruct (read_exponent tail); [| reflexivity].
  cbn [option_map List.length Z.of_nat]. now rewrite Z.sub_0_r.
Qed.

Lemma parse_signed (s : bool) (d : Z) (r : string) :
  digit d ->
  parse_f32 (sign_text s ++ String (digit_char d) r)
  = read_number s (String (digit_char d) r).
Proof.
  intros Hd. destruct (digit_not_special d r Hd) as [H1 H2].
  unfold parse_f32. destruct s.
  - change (read_sign (sign_text true ++ String (digit_char d) r))
      with (true, String (digit_char d) r).
    cbv iota beta. now rewrite H1, H2.
  - change (sign_text false ++ String (digit_char d) r)%string
      with (String (digit_char d) r).
    rewrite read_sign_digit by exact Hd. cbv iota beta. now rewrite H1, H2.
Qed.

Lemma parse_positional (s : bool) (ds : list Z) (ex : Z) :
  Forall digit ds -> ds <> [] ->
  exists c : Z,
    0 <= c
    /\ parse_f32 (sign_text s ++ format_positional ds ex)
       = Some (decimal_to_float32 s (number ds * 10 ^ c)
                 (ex + 1 - Z.of_nat (List.length ds) - c)).
Proof.
  intros Hds Hne. unfold format_positional.
  destruct (0 <=? ex) eqn:Hex.
  - apply Z.leb_le in Hex.
    set (w := (Z.to_nat ex + 1)%nat).
    assert (Hw : Z.of_nat w = ex + 1) by (unfold w; lia).
    set (W := (firstn w ds ++ repeat 0 (w - List.length ds))%list).
    set (F := match skipn w ds with [] => [0] | f => f end).
    assert (HF : match skipn w ds with
                 | [] => "0"%string
                 | _ => digits_string (skipn w ds)
                 end = digits_string F).
    { unfold F. destruct (skipn w ds); reflexivity. }
    rewrite HF.
    assert (HWd : Forall digit W).
    { unfold W. apply Forall_app. split.
      - rewrite <- (firstn_skipn w ds) in Hds.
        apply Forall_app in Hds. apply Hds.
      - apply digit_zeros. }
    assert (HFd : Forall digit F).
    { unfold F. destruct (skipn w ds) eqn:Hsk.
      - constructor; [unfold digit; lia | constructor].
      - rewrite <- Hsk. rewrite <- (firstn_skipn w ds) in Hds.
        apply Forall_app in Hds. apply Hds. }
    assert (HWne : W <> []).
    { unfold W, w. destruct ds as [| d ds']; [contradiction |].
      rewrite Nat.add_1_r. discriminate. }
    rewrite <- (append_empty (digits_string F)).
    destruct W as [| d W'] eqn:HW; [contradiction |].
    rewrite digits_string_cons, parse_signed by (now inversion HWd).
    rewrite <- digits_string_cons, <- HW.
    rewrite read_number_point;
      [| now rewrite HW | exact HFd | now rewrite HW | exact I].
    cbn [read_exponent option_map].
    destruct (Nat.le_gt_cases (List.length ds) w) as [Hshort | Hlong].
    + exists (Z.of_nat (w - List.length ds) + 1). split; [lia |].
      f_equal. f_equal.
      * unfold W, F. rewrite firstn_all2, skipn_all2 by exact Hshort.
        rewrite !number_app, number_zeros. cbn [List.length].
        rewrite repeat_length.
        rewrite (pow10_add (Z.of_nat (w - List.length ds)) 1) by lia.
        change (number [0]) with 0. change (10 ^ Z.of_nat 1) with 10.
        change (10 ^ 1) with 10. ring.
      * unfold F. rewrite skipn_all2 by exact Hshort. cbn [List.length]. lia.
    + exists 0. split; [lia |].
      f_equal. f_equal.
      * unfold W, F.
        replace (w - List.length ds)%nat with 0%nat by lia.
        cbn [repeat]. rewrite app_nil_r.
        destruct (skipn w ds) eqn:Hsk.
        -- apply (f_equal (@List.length Z)) in Hsk.
           rewrite length_skipn in Hsk. cbn in Hsk. lia.
        -- rewrite <- Hsk, firstn_skipn. change (10 ^ 0) with 1. lia.
      * unfold F. destruct (skipn w ds) eqn:Hsk.
        -- apply (f_equal (@List.length Z)) in Hsk.
           rewrite length_skipn in Hsk. cbn in Hsk. lia.
        -- rewrite <- Hsk, length_skipn. lia.
  - apply Z.leb_gt in Hex.
    set (k := Z.to_nat (- ex - 1)).
    change ("0." ++ digits_string (repeat 0 k ++ ds))%string
      with (String (digit_char 0)
              ("." ++ digits_string (repeat 0 k ++ ds))).
    rewrite parse_signed by (unfold digit; lia).
    change (String (digit_char 0) ("." ++ digits_string (repeat 0 k ++ ds)))
      with (digits_string [0] ++ "." ++ digits_string (repeat 0 k ++ ds))%string.
    rewrite <- (append_empty (digits_string (repeat 0 k ++ ds))).
    rewrite read_number_point;
      [| constructor; [unfold digit; lia | constructor]
       | apply Forall_app; split; [apply digit_zeros | exact Hds]
       | discriminate | exact I].
    cbn [read_exponent option_map].
    exists 0. split; [lia |].
    f_equal. f_equal.
    + rewrite !number_app, number_zeros. change (number [0]) with 0.
      change (10 ^ 0) with 1. ring.
    + rewrite length_app, repeat_length. unfold k. lia.
Qed.

Lemma exponent_digits_small (n : Z) :
  0 <= n <= 99 -> exponent_digits n = [n / 10; n mod 10].
Proof.
  intros Hn. unfold exponent_digits.
  assert (H1 : n / 10000 = 0) by (apply Z.div_small; lia).
  assert (H2 : n / 1000 = 0) by (apply Z.div_small; lia).
  assert (H3 : n / 100 = 0) by (apply Z.div_small; lia).
  rewrite H1, H2, H3, (Z.mod_small (n / 10) 10).
  - reflexivity.
  - split; [apply Z.div_pos; lia | apply Z.div_lt_upper_bound; lia].
Qed.

Lemma read_exponent_text (ex : Z) :
  -99 <= ex <= 99 ->
  read_exponent ("e" ++ (if ex <? 0 then "-" else "+")
                 ++ digits_string (exponent_digits (Z.abs ex)))
  = Some ex.
Proof.
  intros Hex. rewrite exponent_digits_small by lia.
  set (a := Z.abs ex / 10). set (b := Z.abs ex mod 10).
  assert (Hab : Z.abs ex = 10 * a + b).
  { unfold a, b. apply Z.div_mod. lia. }
  assert (Hb : 0 <= b < 10) by (apply Z.mod_pos_bound; lia).
  clearbody a b.
  assert (Hd : Forall digit [a; b]).
  { constructor; [unfold digit; lia |].
    constructor; [unfold digit; lia | constructor]. }
  assert (Hnum : number [a; b] = Z.abs ex).
  { unfold number. cbn [fold_left]. lia. }
  destruct (ex <? 0) eqn:Hneg.
  - apply Z.ltb_lt in Hneg.
    change (read_exponent ("e" ++ "-" ++ digits_string [a; b]))
      with (match read_digits (digits_string [a; b]) with
            | (d :: ds, EmptyString) => Some (- number (d :: ds))
            | _ => None
            end).
    rewrite read_digits_all by exact Hd.
    rewrite Hnum. f_equal. lia.
  - apply Z.ltb_ge in Hneg.
    change (read_exponent ("e" ++ "+" ++ digits_string [a; b]))
      with (match read_digits (digits_string [a; b]) with
            | (d :: ds, EmptyString) => Some (number (d :: ds))
            | _ => None
            end).
    rewrite read_digits_all by exact Hd.
    rewrite Hnum. f_equal. lia.
Qed.

Lemma parse_scientific (s : bool) (ds : list Z) (ex : Z) :
  Forall digit ds -> ds <> [] -> -99 <= ex <= 99 ->
  parse_f32 (sign_text s ++ format_scientific ds ex)
  = Some (decimal_to_float32 s (number ds)
            (ex + 1 - Z.of_nat (List.length ds))).
Proof.
  intros Hds Hne Hex. destruct ds as [| d rest]; [contradiction |].
  inversion Hds as [| ? ? Hd Hrest]; subst.
  unfold format_scientific.
  set (tail := ("e" ++ (if (ex <? 0)%Z then "-" else "+")
                ++ digits_string (exponent_digits (Z.abs ex)))%string).
  assert (Htail : read_exponent tail = Some ex) by now apply read_exponent_text.
  assert (Hstops : stops tail) by reflexivity.
  destruct rest as [| r0 rs].
  - change (digits_string [d] ++ "" ++ tail)%string
      with (String (digit_char d) tail).
    rewrite parse_signed by exact Hd.
    change (String (digit_char d) tail) with (digits_string [d] ++ tail)%string.
    rewrite read_number_plain;
      [| exact Hds | discriminate | exact Hstops | intros r; discriminate].
    rewrite Htail. cbn [option_map List.length]. f_equal. f_equal. lia.
  - change (digits_string [d] ++ ("." ++ digits_string (r0 :: rs)) ++ tail)%string
      with (String (digit_char d)
              ("." ++ digits_string (r0 :: rs) ++ tail)).
    rewrite parse_signed by exact Hd.
    change (String (digit_char d) ("." ++ digits_string (r0 :: rs) ++ tail))
      with (digits_string [d] ++ "." ++ digits_string (r0 :: rs) ++ tail)%string.
    rewrite read_number_point;
      [| constructor; [exact Hd | constructor] | exact Hrest | discriminate
       | exact Hstops].
    rewrite Htail. cbn [option_map app]. f_equal. f_equal.
    cbn [List.length]. lia.
Qed.

Lemma valid_binary32_finite (s : bool) (m : positive) (e : Z) :
  is_float32 (S754_finite s m e) ->
  -149 <= e <= 104 /\ 0 < Zpos m < 2 ^ 24
  /\ (e = -149 \/ 2 ^ 23 <= Zpos m).
Proof.
  unfold is_float32, prec32, emax32. cbn [valid_binary].
  unfold bounded, canonical_mantissa. intros H.
  apply andb_true_iff in H. destruct H as [Hc He].
  apply Z.leb_le in He. apply Z.eqb_eq in Hc.
  unfold fexp, emin in Hc. rewrite digits2_log2 in Hc.
  assert (Hlog : Z.log2 (Zpos m) <= 23) by lia.
  assert (Zpos m < 2 ^ 24) by (apply Z.log2_lt_pow2; lia).
  split; [lia |]. split; [lia |].
  destruct (Z.eq_dec e (-149)) as [| Hn]; [now left | right].
  apply Z.log2_le_pow2; lia.
Qed.

Lemma floattype_str_reads_back (x : float32) :
  is_float32 x ->
  parse_f32 (floattype_str x) = Some x.
Proof.
  intros Hx. destruct x as [s | s | | s m e].
  - destruct s; reflexivity.
  - destruct s; reflexivity.
  - reflexivity.
  - destruct (valid_binary32_finite s m e Hx) as (He & Hm & Hnorm).
    unfold floattype_str.
    destruct (dragon4 (Zpos m) e) as [ds ex] eqn:Hrun.
    destruct (dragon4_spec (Zpos m) e He Hm Hnorm ds ex Hrun)
      as (Hne & Hds & Hex & _).
    pose proof (printed_decimal_reads_back (Zpos m) e He Hm Hnorm ds ex Hrun s)
      as Hback.
    destruct (positional_range (Zpos m) e).
    + destruct (parse_positional s ds ex Hds Hne) as (c & Hc & Hparse).
      rewrite Hparse. f_equal. now apply Hback.
    + rewrite parse_scientific by (try assumption; lia).
      f_equal. specialize (Hback 0 ltac:(lia)).
      change (10 ^ 0) with 1 in Hback.
      rewrite Z.mul_1_r, Z.sub_0_r in Hback. exact Hback.
Qed.

Lemma digit_char_plain (d : Z) : digit d -> is_whitespace (digit_char d) = false.
Proof. intros H. each_digit H; reflexivity. Qed.

Lemma digits_string_plain (ds : list Z) :
  Forall digit ds -> whitespace_free (digits_string ds).
Proof.
  intros H. unfold whitespace_free, digits_string, chars.
  rewrite list_ascii_of_string_of_list_ascii.
  apply Forall_map. eapply Forall_impl; [| exact H].
  intros d. apply digit_char_plain.
Qed.

Lemma format_positional_plain (ds : list Z) (ex : Z) :
  Forall digit ds -> whitespace_free (format_positional ds ex).
Proof.
  intros Hds. unfold format_positional.
  destruct (0 <=? ex).
  - set (w := (Z.to_nat ex + 1)%nat).
    rewrite <- (firstn_skipn w ds) in Hds. apply Forall_app in Hds.
    destruct Hds as [Hfirst Hskip].
    apply whitespace_free_append.
    + apply digits_string_plain, Forall_app. split; [exact Hfirst |].
      apply digit_zeros.
    + apply whitespace_free_append; [repeat constructor |].
      destruct (skipn w ds) eqn:Hsk; [repeat constructor |].
      now apply digits_string_plain.
  - apply (whitespace_free_append "0."); [repeat constructor |].
    apply digits_string_plain, Forall_app. split; [apply digit_zeros | exact Hds].
Qed.

Lemma format_scientific_plain (ds : list Z) (ex : Z) :
  Forall digit ds -> -99 <= ex <= 99 ->
  whitespace_free (format_scientific ds ex).
Proof.
  intros Hds Hex. unfold format_scientific.
  destruct ds as [| d rest]; [constructor |].
  inversion Hds as [| ? ? Hd Hrest]; subst.
  apply whitespace_free_append.
  { apply digits_string_plain. constructor; [exact Hd | constructor]. }
  apply whitespace_free_append.
  { destruct rest; [constructor |].
    apply (whitespace_free_append "."); [repeat constructor |].
    now apply digits_string_plain. }
  apply (whitespace_free_append "e"); [repeat constructor |].
  apply whitespace_free_append; [destruct (ex <? 0); repeat constructor |].
  apply digits_string_plain.
  rewrite exponent_digits_small by lia.
  assert (0 <= Z.abs ex mod 10 < 10) by (apply Z.mod_pos_bound; lia).
  assert (0 <= Z.abs ex / 10) by (apply Z.div_pos; lia).
  assert (Z.abs ex / 10 < 10) by (apply Z.div_lt_upper_bound; lia).
  constructor; [unfold digit; lia |].
  constructor; [unfold digit; lia | constructor].
Qed.

(** The text of a component holds no whitespace and is not empty. *)
Lemma floattype_str_plain (x : float32) :
  is_float32 x ->
  floattype_str x <> ""%string /\ whitespace_free (floattype_str x).
Proof.
  intros Hx. split.
  - intros Hempty. pose proof (floattype_str_reads_back x Hx) as Hback.
    rewrite Hempty in Hback. discriminate Hback.
  - destruct x as [s | s | | s m e].
    + destruct s; repeat constructor.
    + destruct s; repeat constructor.
    + repeat constructor.
    + destruct (valid_binary32_finite s m e Hx) as (He & Hm & Hnorm).
      unfold floattype_str.
      destruct (dragon4 (Zpos m) e) as [ds ex] eqn:Hrun.
      destruct (dragon4_spec (Zpos m) e He Hm Hnorm ds ex Hrun)
        as (Hne & Hds & Hex & _).
      apply whitespace_free_append; [destruct s; repeat constructor |].
      destruct (positional_range (Zpos m) e).
      * now apply format_positional_plain.
      * apply format_scientific_plain; [exact Hds | lia].
Qed.

End ReadFacts.

(** ** The sample run *)

Module SampleFacts.
Import Py Text Num Benchmark.
Local Open Scope list_scope.

Lemma sample_run_completes :
  fst (run (main Sample.str_float32 Sample.rt_ok Sample.cfg)) = Return tt.
Proof. vm_compute. reflexivity. Qed.

Lemma sample_printed :
  printed (snd (run (main Sample.str_float32 Sample.rt_ok Sample.cfg)))
  = ["============================================================";
     "KVDB Benchmark";
     "============================================================";
     "Number of vectors: 2"; "Vector dimension: 2"; "";
     "Generating random vectors..."; "Generated 2 random vectors"; "";
     "Phase 1: Benchmarking insertions...";
     "  Inserted 2 vectors in 2.000 seconds";
     "  Throughput: 1.00 inserts/sec"; "";
     "Phase 2: Benchmarking 100 random searches...";
     "  Generating query vectors...";
     "  Completed 100 searches in 3.000 seconds";
     "  Average search time: 30.000 ms";
     "  Search throughput: 33.33 searches/sec"; "";
     "============================================================";
     "Benchmark Summary";
     "============================================================";
     "Database size: 2 vectors"; "Vector dimension: 2"; "";
     "Insertion Performance:"; "  Total time: 2.000 seconds";
     "  Throughput: 1.00 inserts/sec";
     "  Average per insert: 1000.000 ms"; "";
     "Search Performance (100 random searches):";
     "  Total time: 3.000 seconds"; "  Average per search: 30.000 ms";
     "  Throughput: 33.33 searches/sec"; "";
     "Total benchmark time: 5.000 seconds";
     "============================================================"]%string.
Proof. vm_compute. reflexivity. Qed.

Lemma sample_spawned :
  spawned (snd (run (main Sample.str_float32 Sample.rt_ok Sample.cfg)))
  = [preflight_call Sample.cfg;
     phase1_call Sample.str_float32 Sample.rt_ok Sample.cfg;
     phase2_call Sample.str_float32 Sample.rt_ok Sample.cfg].
Proof. vm_compute. reflexivity. Qed.

Lemma sample_str_no_newline (x : float32) :
  count_newlines (Sample.str_float32 x) = 0.
Proof.
  unfold Sample.str_float32.
  repeat match goal with
         | |- context [match ?v with _ => _ end] => destruct v
         end; reflexivity.
Qed.

End SampleFacts.

(** ** The specification's claims *)

Module Properties.
Import Py Text Num Benchmark TextFacts FloatFacts Runs RunFacts CommandFacts
  ParserFacts SampleFacts.
Local Open Scope list_scope.

Local Open Scope float_scope.

(** C1.  Derived metrics.  With [insert_time] and [total_time] the
    elapsed times of the two phases, [main] computes
    [search_time = total_time - insert_time] and
    [avg_search_time = search_time / 100]: a run that returns normally
    has printed exactly these two values (the average in milliseconds),
    and lines 115-122 return this pair for every pair of phase results
    whose difference is not zero.  For [insert_time = 2.0] and
    [total_time = 5.0] the values are [3.0] and [0.03], printed as
    "3.000 seconds" and "30.000 ms". *)
Theorem derived_search_metrics :
  forall (str_float32 : float32 -> string) (rt : runtime) (cfg : config),
    let r := run (main str_float32 rt cfg) in
    let insert_time := clock rt 1 - clock rt 0 in
    let total_time := clock rt 3 - clock rt 2 in
    let search_time := total_time - insert_time in
    let avg_search_time := search_time / 100 in
    fst r = Return tt ->
    reports (printed (snd r)) "  Completed 100 searches in "
      (format_fixed 3 search_time) " seconds"
    /\ reports (printed (snd r)) "  Average search time: "
         (format_fixed 3 (avg_search_time * 1000)) " ms"
    /\ (forall (t_insert t_total : float) (st : state),
          fst (derive_search t_insert t_total st)
          = if is_zero (t_total - t_insert)
            then Raise ZeroDivisionError
            else Return (t_total - t_insert, (t_total - t_insert) / 100))
    /\ (forall st : state,
          fst (derive_search 2 5 st) = Return (3, 0x1.eb851eb851eb8p-6))
    /\ (insert_time = 2 -> total_time = 5 ->
        search_time = 3
        /\ avg_search_time = 0x1.eb851eb851eb8p-6
        /\ avg_search_time * 1000 = 30
        /\ In "  Completed 100 searches in 3.000 seconds"%string (printed (snd r))
        /\ In "  Average search time: 30.000 ms"%string (printed (snd r))).
Proof.
  intros str_float32 rt cfg r insert_time total_time search_time
    avg_search_time Hdone.
  subst r.
  pose proof (run_completes_printed _ _ _ Hdone) as Hp.
  assert (H1 : reports (printed (snd (run (main str_float32 rt cfg))))
                 "  Completed 100 searches in "
                 (format_fixed 3 search_time) " seconds").
  { unfold reports. rewrite Hp. rewrite !in_app_iff.
    do 3 right. left. left. reflexivity. }
  assert (H2 : reports (printed (snd (run (main str_float32 rt cfg))))
                 "  Average search time: "
                 (format_fixed 3 (avg_search_time * 1000)) " ms").
  { unfold reports. rewrite Hp. rewrite !in_app_iff.
    do 3 right. left. right. left. reflexivity. }
  split; [exact H1 | split; [exact H2 | split; [| split]]].
  - intros t_insert t_total st. unfold derive_search. exec.
    rewrite Z2float_100. change (is_infinity 100) with false. exec.
    now destruct (is_zero (t_total - t_insert)).
  - intros st. unfold derive_search. exec.
    rewrite Z2float_100. change (is_infinity 100) with false. exec.
    reflexivity.
  - intros Hi Ht. unfold reports in H1, H2.
    subst avg_search_time search_time. rewrite Hi, Ht in *.
    repeat split; try reflexivity; assumption.
Qed.

(** The sample run measures 2.0 s and 5.0 s. *)
Lemma derived_search_metrics_witness :
  let r := run (main Sample.str_float32 Sample.rt_ok Sample.cfg) in
  In "  Completed 100 searches in 3.000 seconds"%string (printed (snd r))
  /\ In "  Average search time: 30.000 ms"%string (printed (snd r)).
Proof.
  destruct (derived_search_metrics Sample.str_float32 Sample.rt_ok Sample.cfg
              sample_run_completes) as (_ & _ & _ & _ & H).
  destruct H as (_ & _ & _ & H1 & H2); [reflexivity | reflexivity |].
  split; assumption.
Defined.

Local Close Scope float_scope.

(** C2.  Workload ordering.  Whenever both phases are launched, there
    are [NUM_VECTORS] insert lines [ins] and 100 search lines [srch]
    such that the text fed to the phase-1 process is [ins] followed by
    [exit], and the text fed to the phase-2 process is the same [ins],
    then [srch], then one [exit]: same keys, same vectors, same order,
    nothing else.  When no component text holds a newline, every
    command is exactly one line, so the streams have [NUM_VECTORS + 1]
    and [NUM_VECTORS + 100 + 1] lines. *)
Theorem phase2_stream_extends_phase1 :
  forall (str_float32 : float32 -> string) (rt : runtime) (cfg : config)
         (inv1 inv2 : invocation),
    let r := run (main str_float32 rt cfg) in
    nth_error (spawned (snd r)) 1 = Some inv1 ->
    nth_error (spawned (snd r)) 2 = Some inv2 ->
    exists (vectors : list (string * vector)) (queries : list vector)
           (ins srch : list string),
      List.length ins = NUM_VECTORS cfg
      /\ List.length srch = 100
      /\ ins = map (fun kv =>
                      ("insert " ++ fst kv ++ " "
                       ++ format_vector str_float32 (snd kv) ++ nl)%string)
                 vectors
      /\ srch = map (fun q =>
                       ("search " ++ format_vector str_float32 q
                        ++ " --k_top 10" ++ nl)%string)
                  queries
      /\ Forall (fun c => is_insert_command c = true) ins
      /\ Forall (fun c => is_search_command c = true) srch
      /\ insert_commands str_float32 vectors = ins ++ [("exit" ++ nl)%string]
      /\ all_commands str_float32 vectors queries
         = ins ++ srch ++ [("exit" ++ nl)%string]
      /\ stdin inv1
         = Some (String.concat "" (ins ++ [("exit" ++ nl)%string]))
      /\ stdin inv2
         = Some (String.concat "" (ins ++ srch ++ [("exit" ++ nl)%string]))
      /\ stdin inv1
         = Some (String.concat "" ins ++ "exit" ++ nl)%string
      /\ stdin inv2
         = Some (String.concat "" ins ++ String.concat "" srch
                 ++ "exit" ++ nl)%string
      /\ ((forall x, count_newlines (str_float32 x) = 0) ->
          Forall (fun c => count_newlines c = 1) (ins ++ srch)
          /\ count_newlines (String.concat "" ins ++ "exit" ++ nl)%string
             = NUM_VECTORS cfg + 1
          /\ count_newlines
               (String.concat "" ins ++ String.concat "" srch
                ++ "exit" ++ nl)%string
             = NUM_VECTORS cfg + 100 + 1).
Proof.
  intros str_float32 rt cfg inv1 inv2 r H1 H2. subst r.
  apply spawned_at in H1. apply spawned_at in H2.
  injection H1 as <-. injection H2 as <-.
  exists (vectors_from rt cfg 0),
    (queries_from rt cfg (NUM_VECTORS cfg * DIMENSION cfg)),
    (map (fun kv => encode_insert str_float32 (fst kv) (snd kv))
       (vectors_from rt cfg 0)),
    (map (encode_search str_float32)
       (queries_from rt cfg (NUM_VECTORS cfg * DIMENSION cfg))).
  split; [now rewrite length_map, vectors_from_length |].
  split; [now rewrite length_map, queries_from_length |].
  split; [reflexivity |].
  split; [reflexivity |].
  split; [apply insert_lines_are_inserts |].
  split; [apply search_lines_are_searches |].
  split; [apply insert_commands_eq |].
  split; [apply all_commands_eq |].
  unfold phase1_call, phase2_call. cbn [stdin].
  rewrite insert_commands_eq, all_commands_eq.
  split; [reflexivity |]. split; [reflexivity |].
  rewrite !concat_empty_app.
  change (String.concat "" [encode_exit]) with ("exit" ++ nl)%string.
  split; [reflexivity |]. split; [reflexivity |].
  intros Hstr.
  pose proof (insert_lines_one_newline str_float32 rt cfg 0 Hstr) as Hi.
  pose proof (search_lines_one_newline str_float32
                (queries_from rt cfg (NUM_VECTORS cfg * DIMENSION cfg)) Hstr)
    as Hs.
  split; [apply Forall_app; now split |].
  rewrite !count_newlines_append, !count_newlines_concat.
  rewrite (list_sum_ones _ _ Hi), (list_sum_ones _ _ Hs).
  rewrite !length_map, vectors_from_length, queries_from_length.
  change (count_newlines "exit") with 0.
  change (count_newlines nl) with 1.
  split; lia.
Qed.

(** The sample run launches both phases. *)
Lemma phase2_stream_extends_phase1_witness :
  exists (ins srch : list string),
    List.length ins = 2 /\ List.length srch = 100
    /\ stdin (phase1_call Sample.str_float32 Sample.rt_ok Sample.cfg)
       = Some (String.concat "" ins ++ "exit" ++ nl)%string
    /\ stdin (phase2_call Sample.str_float32 Sample.rt_ok Sample.cfg)
       = Some (String.concat "" ins ++ String.concat "" srch
               ++ "exit" ++ nl)%string
    /\ count_newlines
         (String.concat "" ins ++ String.concat "" srch ++ "exit" ++ nl)%string
       = 103.
Proof.
  destruct (phase2_stream_extends_phase1 Sample.str_float32 Sample.rt_ok
              Sample.cfg
              (phase1_call Sample.str_float32 Sample.rt_ok Sample.cfg)
              (phase2_call Sample.str_float32 Sample.rt_ok Sample.cfg))
    as (vectors & queries & ins & srch & Hn & Hq & _ & _ & _ & _ & _ & _ & _
        & _ & H1 & H2 & H3).
  - rewrite sample_spawned. reflexivity.
  - rewrite sample_spawned. reflexivity.
  - exists ins, srch.
    destruct (H3 sample_str_no_newline) as (_ & _ & Hc).
    repeat split; assumption.
Defined.

(** C3.  Pre-flight failure.  If the launch of [BINARY_PATH count] finds
    no binary or exits with a non-zero status, [main] prints the banner,
    then the two lines that tell the user to build the project, and
    exits with status 1; the pre-flight launch is the only launch. *)
Theorem preflight_failure_halts :
  forall (str_float32 : float32 -> string) (rt : runtime) (cfg : config),
    preflight_fails rt cfg ->
    let r := run (main str_float32 rt cfg) in
    fst r = Raise (SystemExit 1)
    /\ exit_status (fst r) <> 0%Z
    /\ snd r = (prints (banner_lines cfg) ++ [Spawn (preflight_call cfg)]
                ++ prints
                     [("Error: Could not find binary at " ++ BINARY_PATH cfg)%string;
                      "Please build the project first: cargo build --release"])%list
    /\ spawned (snd r) = [Invocation [BINARY_PATH cfg; "count"] None].
Proof.
  intros str_float32 rt cfg Hfail r. subst r.
  rewrite main_run. unfold expected_run.
  unfold preflight_fails in Hfail.
  destruct (child rt 0 (preflight_call cfg)) as [| |rc out err|rc out err].
  - cbn [fst snd]. repeat split; discriminate.
  - contradiction.
  - apply Z.eqb_neq in Hfail. rewrite Hfail. cbn [negb fst snd].
    repeat split; discriminate.
  - apply Z.eqb_neq in Hfail. rewrite Hfail. cbn [negb fst snd].
    repeat split; discriminate.
Qed.

(** A runtime without the binary. *)
Lemma preflight_failure_halts_witness :
  preflight_fails Sample.rt_missing Sample.cfg
  /\ fst (run (main Sample.str_float32 Sample.rt_missing Sample.cfg))
     = Raise (SystemExit 1).
Proof.
  split.
  - exact I.
  - apply (preflight_failure_halts Sample.str_float32 Sample.rt_missing
             Sample.cfg).
    exact I.
Defined.



Local Open Scope float_scope.

(** C5, as stated, fails: in the sample run [insert_time] is 2.0 s and
    [total_time] is 5.0 s, their sum prints as "7.000", and no line
    "Total benchmark time: 7.000 seconds" is printed. *)
Lemma total_benchmark_time_is_not_the_sum :
  let rt := Sample.rt_ok in
  let r := run (main Sample.str_float32 rt Sample.cfg) in
  let insert_time := clock rt 1 - clock rt 0 in
  let total_time := clock rt 3 - clock rt 2 in
  fst r = Return tt
  /\ insert_time = 2 /\ total_time = 5
  /\ format_fixed 3 (insert_time + total_time) = "7.000"%string
  /\ ~ reports (printed (snd r)) "Total benchmark time: "
         (format_fixed 3 (insert_time + total_time)) " seconds".
Proof.
  cbv zeta. split; [exact sample_run_completes |].
  split; [reflexivity |]. split; [reflexivity |]. split; [reflexivity |].
  unfold reports. rewrite sample_printed.
  change (format_fixed 3 (clock Sample.rt_ok 1 - clock Sample.rt_ok 0
                          + (clock Sample.rt_ok 3 - clock Sample.rt_ok 2)))
    with "7.000"%string.
  cbn [String.append]. intros H.
  repeat (destruct H as [H|H]; [discriminate H |]). exact H.
Qed.

(** C5, amended.  The total benchmark time that the summary reports is
    the elapsed wall time of phase 2 alone ([total_time]); the elapsed
    time of phase 1 is not added to it.  It is the last figure of the
    summary, followed only by the closing rule. *)
Theorem total_benchmark_time_is_phase2_time :
  forall (str_float32 : float32 -> string) (rt : runtime) (cfg : config),
    let r := run (main str_float32 rt cfg) in
    let total_time := clock rt 3 - clock rt 2 in
    fst r = Return tt ->
    exists before,
      printed (snd r)
      = (before
         ++ [("Total benchmark time: " ++ format_fixed 3 total_time
              ++ " seconds")%string;
             repeat_string "=" 60])%list.
Proof.
  intros str_float32 rt cfg r total_time Hdone. subst r.
  rewrite (run_completes_printed _ _ _ Hdone).
  unfold summary_tail_lines.
  eexists. rewrite !app_assoc.
  match goal with
  | |- (?pre ++ [?a; ?b; ?c; ?d; ?e; ?f; ?g; ?h; ?i])%list = _ =>
      change (pre ++ [a; b; c; d; e; f; g; h; i])%list
        with (pre ++ ([a; b; c; d; e; f; g] ++ [h; i]))%list
  end.
  rewrite app_assoc. reflexivity.
Qed.

(** The sample run reports 5.000 seconds. *)
Lemma total_benchmark_time_is_phase2_time_witness :
  exists before,
    printed (snd (run (main Sample.str_float32 Sample.rt_ok Sample.cfg)))
    = (before ++ ["Total benchmark time: 5.000 seconds"%string;
                  repeat_string "=" 60])%list.
Proof.
  exact (total_benchmark_time_is_phase2_time Sample.str_float32 Sample.rt_ok
           Sample.cfg sample_run_completes).
Defined.

Local Close Scope float_scope.

(** C6.  Vector generator.  From any state the generation loop returns
    [NUM_VECTORS] vectors, each of length [DIMENSION]; the [j]-th
    component of the [i]-th vector is the next sample of the standard
    normal source, in drawing order, cast to single precision, and is
    a value of the binary32 format.  A call of
    [generate_random_vector dim] always returns [dim] such components.
    (The statement needs neither [DIMENSION > 0] nor
    [NUM_VECTORS > 0].) *)
Theorem generator_yields_vectors :
  forall (rt : runtime) (cfg : config) (st : state),
    (exists vectors : list (string * vector),
        fst (generate_vectors rt cfg st) = Return vectors
        /\ List.length vectors = NUM_VECTORS cfg
        /\ Forall (fun kv => List.length (snd kv) = DIMENSION cfg) vectors
        /\ Forall (fun kv =>
                     Forall (fun x => valid_binary prec32 emax32 x = true)
                       (snd kv)) vectors
        /\ (forall i j,
              i < NUM_VECTORS cfg -> j < DIMENSION cfg ->
              exists vec,
                nth_error vectors i = Some (("vec_" ++ str_nat i)%string, vec)
                /\ nth_error vec j
                   = Some (astype_float32
                             (gauss rt (draws st + i * DIMENSION cfg + j)))))
    /\ (forall dim : nat,
          exists vec : vector,
            fst (generate_random_vector rt dim st) = Return vec
            /\ List.length vec = dim
            /\ vec = map astype_float32
                       (map (fun j => gauss rt (draws st + j)) (seq 0 dim))).
Proof.
  intros rt cfg st. split.
  - exists (vectors_from rt cfg (draws st)).
    rewrite run_generate_vectors. cbn [fst].
    split; [reflexivity |].
    split; [apply vectors_from_length |].
    split; [| split].
    + unfold vectors_from. apply Forall_map, Forall_forall.
      intros i _. apply drawn_vector_length.
    + unfold vectors_from. apply Forall_map, Forall_forall.
      intros i _. cbn [snd]. unfold drawn_vector.
      apply Forall_map, Forall_forall. intros x _.
      apply astype_float32_valid.
    + intros i j Hi Hj.
      exists (drawn_vector rt cfg (draws st + i * DIMENSION cfg)).
      split; [now apply nth_vectors_from | now apply nth_drawn_vector].
  - intros dim. rewrite run_generate_random_vector. cbn [fst].
    eexists. split; [reflexivity |].
    split; [now rewrite !length_map, length_seq | reflexivity].
Qed.

(** Second vector, first component of the sample run: the sample 1.0. *)
Lemma generator_yields_vectors_witness :
  exists vectors : list (string * vector),
    fst (generate_vectors Sample.rt_ok Sample.cfg boot) = Return vectors
    /\ List.length vectors = 2
    /\ exists vec,
         nth_error vectors 1 = Some ("vec_1"%string, vec)
         /\ nth_error vec 0 = Some (S754_finite false 8388608 (-23)).
Proof.
  destruct (generator_yields_vectors Sample.rt_ok Sample.cfg boot)
    as [(vectors & H1 & H2 & _ & _ & H4) _].
  exists vectors. split; [exact H1 | split; [exact H2 |]].
  destruct (H4 1 0) as (vec & Hv & Hc).
  - unfold Sample.cfg, NUM_VECTORS. lia.
  - unfold Sample.cfg, DIMENSION. lia.
  - exists vec. split; [exact Hv | exact Hc].
Defined.

(** C7.  Round trip.  For a key without whitespace and a vector of
    binary32 values, the reference parser recovers the key and the
    vector from the [insert] line encoded with numpy's [str]: the text
    of every component reads back as the binary32 value it was printed
    from. *)
Theorem insert_line_round_trips :
  forall (key : string) (vec : vector),
    whitespace_free key ->
    Forall Binary32.is_float32 vec ->
    Reference.parse_insert Reader.parse_f32
      ("insert " ++ key ++ " "
       ++ format_vector Numpy.floattype_str vec ++ nl)%string
    = Some (key, vec)
    /\ Forall (fun x => Reader.parse_f32 (Numpy.floattype_str x) = Some x) vec.
Proof.
  intros key vec Hkey Hvec. split.
  - apply framed_line_parses; [exact Hkey |].
    eapply Forall_impl; [| exact Hvec]. intros x Hx.
    destruct (ReadFacts.floattype_str_plain x Hx) as [Hne Hplain].
    split; [exact Hne | split; [exact Hplain |]].
    now apply ReadFacts.floattype_str_reads_back.
  - eapply Forall_impl; [| exact Hvec]. intros x Hx.
    now apply ReadFacts.floattype_str_reads_back.
Qed.

(** A line of four components: 0.1, -2.5, the smallest positive
    subnormal number and the largest finite number. *)
Lemma insert_line_round_trips_witness :
  Reference.parse_insert Reader.parse_f32
    ("insert vec_7 0.1 -2.5 1e-45 3.4028235e+38" ++ nl)%string
  = Some ("vec_7"%string,
          [S754_finite false 13421773 (-27); S754_finite true 10485760 (-22);
           S754_finite false 1 (-149); S754_finite false 16777215 104]).
Proof.
  destruct (insert_line_round_trips "vec_7"
              [S754_finite false 13421773 (-27);
               S754_finite true 10485760 (-22);
               S754_finite false 1 (-149); S754_finite false 16777215 104])
    as [H _].
  - repeat constructor.
  - repeat constructor.
  - assert (E : format_vector Numpy.floattype_str
                  [S754_finite false 13421773 (-27);
                   S754_finite true 10485760 (-22);
                   S754_finite false 1 (-149); S754_finite false 16777215 104]
                = "0.1 -2.5 1e-45 3.4028235e+38"%string)
      by (vm_compute; reflexivity).
    rewrite E in H. exact H.
Defined.

(** C8.  Determinism of the encoding.  The script encodes every (key,
    vector) pair twice, once per phase; both encodings of the pair at
    any position are the same line, a function of the key and the
    vector alone. *)
Theorem encoding_is_deterministic :
  forall (str_float32 : float32 -> string)
         (vectors : list (string * vector)) (queries : list vector)
         (i : nat) (key : string) (vec : vector),
    nth_error vectors i = Some (key, vec) ->
    let line :=
      ("insert " ++ key ++ " " ++ format_vector str_float32 vec ++ nl)%string in
    nth_error (insert_commands str_float32 vectors) i = Some line
    /\ nth_error (all_commands str_float32 vectors queries) i = Some line
    /\ encode_insert str_float32 key vec = line.
Proof.
  intros str_float32 vectors queries i key vec H line.
  rewrite insert_commands_eq, all_commands_eq.
  repeat split; now apply nth_insert_command.
Qed.

(** One pair, encoded for both phases. *)
Lemma encoding_is_deterministic_witness :
  let v := [S754_finite false 8388608 (-24); S754_finite true 8388608 (-22)] in
  let line := ("insert vec_0 0.5 -2.0" ++ nl)%string in
  nth_error (insert_commands Sample.str_float32 [("vec_0"%string, v)]) 0
  = Some line
  /\ nth_error (all_commands Sample.str_float32 [("vec_0"%string, v)] [v]) 0
     = Some line.
Proof.
  destruct (encoding_is_deterministic Sample.str_float32
              [("vec_0"%string,
                [S754_finite false 8388608 (-24);
                 S754_finite true 8388608 (-22)])]
              [[S754_finite false 8388608 (-24);
                S754_finite true 8388608 (-22)]]
              0 "vec_0"%string
              [S754_finite false 8388608 (-24);
               S754_finite true 8388608 (-22)] eq_refl)
    as (H1 & H2 & _).
  split; assumption.
Defined.

(** C9.  Keys.  For [i < NUM_VECTORS], the [i]-th vector that the
    generation loop returns has the key [vec_] followed by the decimal
    digits of [i] (they read back as [i]), and the [i]-th command of the
    phase-1 list and of the phase-2 list built from these vectors is the
    insert line with that key.  The key contains no whitespace, so
    cutting the line at its spaces yields the command word, then exactly
    this key, then the components.  In a run whose pre-flight check
    exits with status 0, phase 1 is launched and fed the phase-1 list;
    when it exits with status 0 and its throughput can be computed,
    phase 2 is launched and fed the phase-2 list of the same vectors. *)
Theorem insert_keys_are_indexed :
  forall (str_float32 : float32 -> string) (rt : runtime) (cfg : config)
         (i : nat),
    i < NUM_VECTORS cfg ->
    let r := run (main str_float32 rt cfg) in
    let key := ("vec_" ++ str_nat i)%string in
    exists (vectors : list (string * vector)) (vec : vector),
      let payload := (format_vector str_float32 vec ++ nl)%string in
      (forall st, draws st = 0 ->
         fst (generate_vectors rt cfg st) = Return vectors)
      /\ nth_error vectors i = Some (key, vec)
      /\ nth_error (insert_commands str_float32 vectors) i
         = Some ("insert " ++ key ++ " " ++ payload)%string
      /\ (forall queries,
            nth_error (all_commands str_float32 vectors queries) i
            = Some ("insert " ++ key ++ " " ++ payload)%string)
      /\ whitespace_free key
      /\ option_map Nat.of_uint (NilEmpty.uint_of_string (str_nat i)) = Some i
      /\ Reference.cut ("insert " ++ key ++ " " ++ payload)%string
         = Some ("insert"%string, (key ++ " " ++ payload)%string)
      /\ Reference.cut (key ++ " " ++ payload)%string = Some (key, payload)
      /\ (exits_0 (child rt 0 (preflight_call cfg)) ->
          exists inv1,
            nth_error (spawned (snd r)) 1 = Some inv1
            /\ stdin inv1
               = Some (String.concat "" (insert_commands str_float32 vectors))
            /\ (exits_0_with_text (child rt 1 inv1) ->
                is_infinity (Z2float (Z.of_nat (NUM_VECTORS cfg))) = false ->
                is_zero (clock rt 1 - clock rt 0)%float = false ->
                exists inv2 queries,
                  nth_error (spawned (snd r)) 2 = Some inv2
                  /\ List.length queries = 100
                  /\ stdin inv2
                     = Some (String.concat ""
                               (all_commands str_float32 vectors queries)))).
Proof.
  intros str_float32 rt cfg i Hi r key. subst r.
  pose proof (nth_vectors_from rt cfg 0 i Hi) as Hnth.
  exists (vectors_from rt cfg 0), (drawn_vector rt cfg (i * DIMENSION cfg)).
  cbv zeta.
  split; [| split; [| split; [| split; [| split; [| split; [| split;
    [| split]]]]]]].
  - intros st Hst. rewrite run_generate_vectors, Hst. reflexivity.
  - exact Hnth.
  - rewrite insert_commands_eq.
    now rewrite (nth_insert_command _ _ _ _ _ _ Hnth).
  - intros queries. rewrite all_commands_eq.
    now rewrite (nth_insert_command _ _ _ _ _ _ Hnth).
  - apply key_whitespace_free.
  - apply str_nat_reads_back.
  - reflexivity.
  - apply cut_field, key_whitespace_free.
  - intros H0. exists (phase1_call str_float32 rt cfg).
    split; [now apply phase1_is_launched |]. split; [reflexivity |].
    intros H1 Hinf Hz.
    exists (phase2_call str_float32 rt cfg),
      (queries_from rt cfg (NUM_VECTORS cfg * DIMENSION cfg)).
    split; [now apply phase2_is_launched |].
    split; [apply queries_from_length | reflexivity].
Qed.

(** The second insert line of the sample run, as phase 2 is fed it. *)
Lemma insert_keys_are_indexed_witness :
  let r := run (main Sample.str_float32 Sample.rt_ok Sample.cfg) in
  exists inv2 cmds,
    nth_error (spawned (snd r)) 2 = Some inv2
    /\ stdin inv2 = Some (String.concat "" cmds)
    /\ nth_error cmds 1 = Some ("insert vec_1 1.0 0.25" ++ nl)%string
    /\ whitespace_free "vec_1".
Proof.
  destruct (insert_keys_are_indexed Sample.str_float32 Sample.rt_ok
              Sample.cfg 1) as (vectors & vec & Hgen & Hv & _ & Hall & Hw & _
                                 & _ & _ & Hrun).
  - unfold Sample.cfg, NUM_VECTORS. lia.
  - specialize (Hgen boot eq_refl).
    rewrite run_generate_vectors in Hgen. cbn [fst] in Hgen.
    injection Hgen as <-.
    destruct Hrun as (inv1 & _ & _ & Hrun); [reflexivity |].
    destruct Hrun as (inv2 & queries & H2 & _ & Hin);
      [reflexivity | reflexivity | reflexivity |].
    exists inv2,
      (all_commands Sample.str_float32
         (vectors_from Sample.rt_ok Sample.cfg (draws boot)) queries).
    split; [exact H2 |]. split; [exact Hin |]. split; [| exact Hw].
    rewrite Hall. vm_compute in Hv. injection Hv as <-.
    vm_compute. reflexivity.
Defined.

(** C10.  Fixed query count and [k_top].  Whatever the configuration,
    a run that gets as far as phase 2 (the pre-flight check and phase 1
    exit with status 0 and the insert throughput can be computed)
    launches it on a command list that holds exactly 100 search
    commands, one per query vector of [DIMENSION] components, each
    ending in [--k_top 10] and the newline; and a run that returns
    normally reports the average search time as [search_time / 100] and
    the search throughput as [100 / search_time], in the phase-2 report
    and again in the summary. *)
Theorem fixed_query_count_and_k_top :
  forall (str_float32 : float32 -> string) (rt : runtime) (cfg : config),
    let r := run (main str_float32 rt cfg) in
    let search_time :=
      ((clock rt 3 - clock rt 2) - (clock rt 1 - clock rt 0))%float in
    (exits_0 (child rt 0 (preflight_call cfg)) ->
     (forall inv1, nth_error (spawned (snd r)) 1 = Some inv1 ->
                   exits_0_with_text (child rt 1 inv1)) ->
     is_infinity (Z2float (Z.of_nat (NUM_VECTORS cfg))) = false ->
     is_zero (clock rt 1 - clock rt 0)%float = false ->
     exists inv vectors queries,
       let cmds := all_commands str_float32 vectors queries in
       nth_error (spawned (snd r)) 2 = Some inv
       /\ stdin inv = Some (String.concat "" cmds)
       /\ List.length queries = 100
       /\ Forall (fun q => List.length q = DIMENSION cfg) queries
       /\ filter is_search_command cmds
          = map (fun q => ("search " ++ format_vector str_float32 q
                           ++ " --k_top 10" ++ nl)%string) queries
       /\ List.length (filter is_search_command cmds) = 100
       /\ Forall (ends_with (" --k_top 10" ++ nl)%string)
            (filter is_search_command cmds))
    /\ (fst r = Return tt ->
        (exists inv, nth_error (spawned (snd r)) 2 = Some inv)
        /\ reports (printed (snd r)) "  Average search time: "
             (format_fixed 3 (search_time / 100 * 1000)%float) " ms"
        /\ reports (printed (snd r)) "  Search throughput: "
             (format_fixed 2 (100 / search_time)%float) " searches/sec"
        /\ reports (printed (snd r)) "  Average per search: "
             (format_fixed 3 (search_time / 100 * 1000)%float) " ms"
        /\ reports (printed (snd r)) "  Throughput: "
             (format_fixed 2 (100 / search_time)%float) " searches/sec").
Proof.
  intros str_float32 rt cfg r search_time. subst r. split.
  - intros H0 H1 Hinf Hz.
    specialize (H1 _ (phase1_is_launched str_float32 rt cfg H0)).
    exists (phase2_call str_float32 rt cfg), (vectors_from rt cfg 0),
      (queries_from rt cfg (NUM_VECTORS cfg * DIMENSION cfg)).
    cbv zeta. rewrite search_commands_of_all.
    split; [now apply phase2_is_launched |].
    split; [reflexivity |].
    split; [apply queries_from_length |].
    split.
    { unfold queries_from. apply Forall_map, Forall_forall. intros q _.
      apply drawn_vector_length. }
    split; [reflexivity |].
    split; [now rewrite length_map, queries_from_length |].
    apply Forall_map, Forall_forall. intros q _.
    exists ("search " ++ format_vector str_float32 q)%string.
    unfold encode_search. now rewrite append_assoc.
  - intros Hdone. unfold reports. split.
    + rewrite (run_completes_events _ _ _ Hdone).
      rewrite !spawned_app, spawned_to_phase2. eexists. reflexivity.
    + rewrite (run_completes_printed _ _ _ Hdone), !in_app_iff.
      repeat split.
      * do 3 right. left. right. left. reflexivity.
      * do 4 right. left. left. reflexivity.
      * do 6 right. do 4 right. left. reflexivity.
      * do 6 right. do 5 right. left. reflexivity.
Qed.

(** The sample run: 100 searches are sent, 33.33 searches per second
    are reported. *)
Lemma fixed_query_count_and_k_top_witness :
  let r := run (main Sample.str_float32 Sample.rt_ok Sample.cfg) in
  (exists inv cmds,
      nth_error (spawned (snd r)) 2 = Some inv
      /\ stdin inv = Some (String.concat "" cmds)
      /\ List.length (filter is_search_command cmds) = 100)
  /\ reports (printed (snd r)) "  Search throughput: " "33.33" " searches/sec".
Proof.
  destruct (fixed_query_count_and_k_top Sample.str_float32 Sample.rt_ok
              Sample.cfg) as [H1 H2].
  split.
  - destruct H1 as (inv & vectors & queries & Hn & Hin & _ & _ & _ & Hl & _).
    + reflexivity.
    + intros inv1 Hinv1. rewrite sample_spawned in Hinv1.
      injection Hinv1 as <-. reflexivity.
    + reflexivity.
    + reflexivity.
    + exists inv, (all_commands Sample.str_float32 vectors queries).
      split; [exact Hn |]. split; [exact Hin | exact Hl].
  - destruct (H2 sample_run_completes) as (_ & _ & H & _).
    vm_compute in H. vm_compute. exact H.
Defined.

End Properties.

(** * Further properties of the scripts *)

(** ** Integers converted to binary64 *)

Module FloatExtras.
Import Num FloatFacts.
Local Open Scope Z_scope.

Section NonZero.
Variables prec emax : Z.
Hypothesis Hprec : 0 < prec.

Lemma fexp_succ (d : Z) :
  fexp prec emax (d + 1) <= fexp prec emax d + 1.
Proof. unfold fexp. lia. Qed.

Lemma fexp_lt (d : Z) :
  SpecFloat.emin prec emax < d -> fexp prec emax d < d.
Proof. unfold fexp. lia. Qed.

Lemma digits_succ (m : Z) : 0 < m -> Zdigits2 (m + 1) <= Zdigits2 m + 1.
Proof.
  intros Hm. rewrite !Zdigits2_pos by lia.
  pose proof (Z.log2_succ_le m). unfold Z.succ in *. lia.
Qed.

Lemma digits_ge_2 (m : Z) : 0 < m -> 2 <= Zdigits2 m -> 2 <= m.
Proof.
  intros Hm H. rewrite Zdigits2_pos in H by exact Hm.
  change 2 with (2 ^ 1). apply Z.log2_le_pow2; lia.
Qed.

Lemma quotient_pos (m n : Z) :
  0 < m -> 0 <= n -> n < Zdigits2 m -> 0 < m / 2 ^ n.
Proof.
  intros Hm Hn Hd. rewrite Zdigits2_pos in Hd by exact Hm.
  apply Z.div_str_pos. split; [lia |].
  apply Z.log2_le_pow2; lia.
Qed.

(** A number at or above the smallest subnormal rounds to a finite
    number or, when its exponent is too large, to an infinity; the
    exponent is at most one above the canonical one. *)
Lemma binary_round_aux_shape (s : bool) (mz : positive) (ez : Z) :
  ez <= fexp prec emax (Zdigits2 (Zpos mz) + ez) ->
  SpecFloat.emin prec emax < Zdigits2 (Zpos mz) + ez ->
  exists m e,
    e <= fexp prec emax (Zdigits2 (Zpos mz) + ez) + 1
    /\ binary_round_aux prec emax s (Zpos mz) ez loc_Exact
       = if e <=? emax - prec then S754_finite s m e else S754_infinity s.
Proof.
  intros He Hd. unfold binary_round_aux.
  set (d := Zdigits2 (Zpos mz) + ez) in *.
  assert (Hfd : fexp prec emax d < d) by (apply fexp_lt; exact Hd).
  assert (H1 : exists m' e',
             shr_m (fst (shr_fexp prec emax (Zpos mz) ez loc_Exact)) = m'
             /\ snd (shr_fexp prec emax (Zpos mz) ez loc_Exact) = e'
             /\ 0 < m' /\ Zdigits2 m' + e' = d /\ e' = fexp prec emax d).
  { destruct (shr_fexp_spec prec emax (Zpos mz) ez loc_Exact)
      as [[Hn Heq]|(Hn & Hq & Hs)]; [lia | |].
    - fold d in Hn. rewrite Heq. cbn [fst snd shr_record_of_loc shr_m].
      exists (Zpos mz), ez. repeat split; lia.
    - fold d in Hn, Hq, Hs. rewrite Hq, Hs.
      exists (Zpos mz / 2 ^ (fexp prec emax d - ez)),
        (ez + (fexp prec emax d - ez)).
      assert (Hpos : 0 < Zpos mz / 2 ^ (fexp prec emax d - ez)).
      { apply quotient_pos; lia. }
      repeat split; try lia.
      rewrite digits_quotient by lia. lia. }
  destruct H1 as (m' & e' & Hm' & He' & Hpos & Hde & Hfe).
  destruct (shr_fexp prec emax (Zpos mz) ez loc_Exact) as [mrs' e1].
  cbn [fst snd] in Hm', He'. subst e1.
  set (m1 := round_nearest_even (shr_m mrs') (loc_of_shr_record mrs')).
  assert (Hm1 : m1 = m' \/ m1 = m' + 1).
  { subst m1. rewrite Hm'. apply round_nearest_even_cases. }
  assert (Hm1pos : 0 < m1) by lia.
  assert (Hd1 : Zdigits2 m' <= Zdigits2 m1 <= Zdigits2 m' + 1).
  { destruct Hm1 as [->| ->]; [lia |]. split.
    - apply digits_mono; lia.
    - apply digits_succ; lia. }
  destruct (shr_fexp_spec prec emax m1 e' loc_Exact)
    as [[Hn Heq]|(Hn & Hq & Hs)]; [lia | |].
  - rewrite Heq. cbn [shr_record_of_loc shr_m].
    destruct m1 as [|p|p]; try lia.
    exists p, e'. split; [lia | reflexivity].
  - destruct (shr_fexp prec emax m1 e' loc_Exact) as [mrs'' e''].
    cbn [fst snd] in Hq, Hs.
    set (n := fexp prec emax (Zdigits2 m1 + e') - e') in *.
    assert (Hn1 : n = 1).
    { assert (Hle : Zdigits2 m1 + e' <= d + 1) by lia.
      pose proof (fexp_mono prec emax _ _ Hle).
      pose proof (fexp_succ d). lia. }
    assert (Hbig : 2 <= m1).
    { apply digits_ge_2; [exact Hm1pos |].
      assert (Zdigits2 m1 = Zdigits2 m' + 1).
      { destruct (Z.eq_dec (Zdigits2 m1) (Zdigits2 m')) as [E|E]; [| lia].
        exfalso. unfold n in Hn. rewrite E, Hde in Hn. lia. }
      assert (1 <= Zdigits2 m').
      { rewrite Zdigits2_pos by lia. pose proof (Z.log2_nonneg m'). lia. }
      lia. }
    rewrite Hq, Hn1.
    assert (Hq1 : 0 < m1 / 2 ^ 1) by (apply Z.div_str_pos; lia).
    destruct (m1 / 2 ^ 1) as [|q|q]; try lia.
    exists q, e''. split; [lia | reflexivity].
Qed.

Lemma binary_round_shape (s : bool) (m : positive) (e : Z) :
  SpecFloat.emin prec emax < Zdigits2 (Zpos m) + e ->
  exists m' e',
    e' <= fexp prec emax (Zdigits2 (Zpos m) + e) + 1
    /\ binary_round prec emax s m e
       = if e' <=? emax - prec then S754_finite s m' e' else S754_infinity s.
Proof.
  intros Hd. unfold binary_round, shl_align.
  set (e0 := fexp prec emax (Zpos (digits2_pos m) + e)).
  cbn [Zdigits2] in Hd |- *. fold e0.
  destruct (e0 - e) as [|k|k] eqn:Ek.
  - destruct (binary_round_aux_shape s m e) as (m' & e' & H1 & H2);
      cbn [Zdigits2]; fold e0; try lia.
    exists m', e'. cbn [Zdigits2] in H1. fold e0 in H1. now split.
  - destruct (binary_round_aux_shape s m e) as (m' & e' & H1 & H2);
      cbn [Zdigits2]; fold e0; try lia.
    exists m', e'. cbn [Zdigits2] in H1. fold e0 in H1. now split.
  - assert (Hsame : Zpos (digits2_pos (Pos.iter xO m k)) + e0
                    = Zpos (digits2_pos m) + e).
    { rewrite digits_iter_xO. lia. }
    destruct (binary_round_aux_shape s (Pos.iter xO m k) e0)
      as (m' & e' & H1 & H2); cbn [Zdigits2]; rewrite ?Hsame; fold e0;
      try lia.
    exists m', e'. cbn [Zdigits2] in H1. rewrite Hsame in H1. fold e0 in H1.
    now split.
Qed.

End NonZero.

(** The binary64 image of a positive integer below [2^1023] is a finite
    non-zero number. *)
Lemma Z2float_finite (p : positive) :
  Zpos p < 2 ^ 1023 ->
  exists m e, Prim2SF (Z2float (Zpos p)) = S754_finite false m e.
Proof.
  intros Hp. unfold Z2float. cbn [binary_normalize].
  rewrite FloatAxioms.Prim2SF_SF2Prim by (apply binary_round_valid; reflexivity).
  destruct (binary_round_shape prec emax ltac:(reflexivity) false p 0)
    as (m & e & He & Hr).
  { cbn [Zdigits2]. unfold SpecFloat.emin, prec, emax. lia. }
  exists m, e. rewrite Hr.
  assert (Hd : Zdigits2 (Zpos p) <= 1023).
  { rewrite Zdigits2_pos by lia.
    assert (Z.log2 (Zpos p) < 1023) by (apply Z.log2_lt_pow2; lia). lia. }
  assert (Hle : e <= emax - prec).
  { unfold fexp, SpecFloat.emin, prec, emax in *. lia. }
  apply Z.leb_le in Hle. now rewrite Hle.
Qed.

(** The binary64 image of a natural number is zero only for 0. *)
Lemma Z2float_is_zero (n : nat) :
  Z.of_nat n < 2 ^ 1023 ->
  is_zero (Z2float (Z.of_nat n)) = true <-> n = 0%nat.
Proof.
  intros Hn. split.
  - intros H. destruct n as [|n]; [reflexivity | exfalso].
    change (Z.of_nat (S n)) with (Zpos (Pos.of_succ_nat n)) in *.
    destruct (Z2float_finite _ Hn) as (m & e & Hf).
    unfold is_zero in H. rewrite FloatAxioms.eqb_spec, Hf in H. discriminate H.
  - intros ->. reflexivity.
Qed.

(** ... and is never an infinity. *)
Lemma Z2float_not_infinite (n : nat) :
  Z.of_nat n < 2 ^ 1023 ->
  is_infinity (Z2float (Z.of_nat n)) = false.
Proof.
  intros Hn. destruct n as [|n]; [reflexivity |].
  change (Z.of_nat (S n)) with (Zpos (Pos.of_succ_nat n)) in *.
  destruct (Z2float_finite _ Hn) as (m & e & Hf).
  unfold is_infinity. rewrite FloatAxioms.eqb_spec, FloatAxioms.abs_spec, Hf. reflexivity.
Qed.

End FloatExtras.

(** ** Further properties of the benchmark *)

Module BenchmarkExtras.
Import Py Text Num Benchmark TextFacts FloatFacts FloatExtras Runs RunFacts
  CommandFacts SampleFacts.
Local Open Scope list_scope.

(** X1. For a configured count of vectors between 0 and 2^1023, the
    benchmark runs to its last line exactly when the pre-flight launch
    exits with status 0, both phase launches exit with status 0 and
    with output that is text, the count of vectors is not 0, and
    neither the insertion time nor the derived search time is zero. *)
Theorem run_completes_iff :
  forall (str_float32 : float32 -> string) (rt : runtime) (cfg : config),
    (Z.of_nat (NUM_VECTORS cfg) < 2 ^ 1023)%Z ->
    let insert_time := (clock rt 1 - clock rt 0)%float in
    let total_time := (clock rt 3 - clock rt 2)%float in
    fst (run (main str_float32 rt cfg)) = Return tt
    <->
    ((exists out err,
         child rt 0 (preflight_call cfg) = Exited 0 out err
         \/ child rt 0 (preflight_call cfg) = ExitedUndecodable 0 out err)
     /\ (exists out err,
           child rt 1 (phase1_call str_float32 rt cfg) = Exited 0 out err)
     /\ (exists out err,
           child rt 2 (phase2_call str_float32 rt cfg) = Exited 0 out err)
     /\ NUM_VECTORS cfg <> 0
     /\ is_zero insert_time = false
     /\ is_zero (total_time - insert_time) = false).
Proof.
  intros str_float32 rt cfg Hsmall insert_time total_time.
  pose proof (Z2float_not_infinite _ Hsmall) as Hinf.
  pose proof (Z2float_is_zero _ Hsmall) as Hzero.
  rewrite main_run. unfold expected_run.
  change (insert_time_of rt) with insert_time.
  change (search_time_of rt) with (total_time - insert_time)%float.
  rewrite Hinf.
  split.
  - fork_run; cbn [fst]; intros H; try discriminate H.
    all: repeat match goal with
           | H : negb (_ =? _)%Z = false |- _ =>
               apply negb_false_iff, Z.eqb_eq in H; subst
           end.
    all: repeat split; eauto.
    all: intros Hn; apply Hzero in Hn; congruence.
  - intros ((o0 & e0 & H0) & (o1 & e1 & H1) & (o2 & e2 & H2)
            & Hn & Hi & Hs).
    assert (Ez : is_zero (Z2float (Z.of_nat (NUM_VECTORS cfg))) = false).
    { apply not_true_is_false. intros E. apply Hzero in E. contradiction. }
    destruct H0 as [H0|H0]; rewrite H0, H1, H2, Hi, Hs, Ez; reflexivity.
Qed.

Lemma run_completes_iff_witness :
  fst (run (main Sample.str_float32 Sample.rt_ok Sample.cfg)) = Return tt.
Proof.
  apply (run_completes_iff Sample.str_float32 Sample.rt_ok Sample.cfg).
  - reflexivity.
  - split; [exists ""%string, ""%string; left; reflexivity |].
    repeat split; try (do 2 eexists; reflexivity); try reflexivity.
    discriminate.
Defined.

(** X2. When the two clock readings around phase 1 coincide, the
    insertion time is zero and the throughput of line 80 raises
    [ZeroDivisionError]: the script ends with status 1 after the
    pre-flight check and phase 1 only, and the last line it prints is
    the one reporting the inserted vectors. *)
Theorem zero_insert_time_raises :
  forall (str_float32 : float32 -> string) (rt : runtime) (cfg : config)
         (out0 err0 out1 err1 : string),
    (Z.of_nat (NUM_VECTORS cfg) < 2 ^ 1023)%Z ->
    child rt 0 (preflight_call cfg) = Exited 0 out0 err0 ->
    child rt 1 (phase1_call str_float32 rt cfg) = Exited 0 out1 err1 ->
    is_zero (clock rt 1 - clock rt 0)%float = true ->
    let r := run (main str_float32 rt cfg) in
    fst r = Raise ZeroDivisionError
    /\ exit_status (fst r) = 1%Z
    /\ spawned (snd r) = [preflight_call cfg; phase1_call str_float32 rt cfg]
    /\ printed (snd r)
       = banner_lines cfg ++ generation_lines cfg
         ++ ["Phase 1: Benchmarking insertions...";
             ("  Inserted " ++ str_nat (NUM_VECTORS cfg) ++ " vectors in "
              ++ format_fixed 3 (clock rt 1 - clock rt 0)%float
              ++ " seconds")%string].
Proof.
  intros str_float32 rt cfg out0 err0 out1 err1 Hsmall H0 H1 Hz r. subst r.
  rewrite main_run. unfold expected_run.
  rewrite H0, H1, (Z2float_not_infinite _ Hsmall).
  cbn [Z.eqb negb]. change (insert_time_of rt) with (clock rt 1 - clock rt 0)%float.
  rewrite Hz. cbn [fst snd].
  split; [reflexivity | split; [reflexivity | split]].
  - now rewrite spawned_app, spawned_prints, spawned_to_phase1, app_nil_r.
  - rewrite printed_app, printed_prints, printed_to_phase1, <- !app_assoc.
    reflexivity.
Qed.

Lemma zero_insert_time_raises_witness :
  fst (run (main Sample.str_float32 Scenario.frozen_clock_rt Sample.cfg))
  = Raise ZeroDivisionError.
Proof.
  apply (zero_insert_time_raises Sample.str_float32 Scenario.frozen_clock_rt Sample.cfg
           "" "" "" ""); reflexivity.
Defined.

(** X3. When phase 2 takes exactly as long as phase 1, the derived
    search time is zero: the lines reporting the search time and its
    average are printed, then the throughput of line 121 raises
    [ZeroDivisionError] and the script ends with status 1, without a
    summary. *)
Theorem zero_search_time_raises :
  forall (str_float32 : float32 -> string) (rt : runtime) (cfg : config)
         (out0 err0 out1 err1 out2 err2 : string),
    (Z.of_nat (NUM_VECTORS cfg) < 2 ^ 1023)%Z ->
    child rt 0 (preflight_call cfg) = Exited 0 out0 err0 ->
    child rt 1 (phase1_call str_float32 rt cfg) = Exited 0 out1 err1 ->
    child rt 2 (phase2_call str_float32 rt cfg) = Exited 0 out2 err2 ->
    let insert_time := (clock rt 1 - clock rt 0)%float in
    let total_time := (clock rt 3 - clock rt 2)%float in
    is_zero insert_time = false ->
    is_zero (total_time - insert_time) = true ->
    let r := run (main str_float32 rt cfg) in
    fst r = Raise ZeroDivisionError
    /\ exit_status (fst r) = 1%Z
    /\ exists progress,
         printed (snd r)
         = progress
           ++ [("  Completed 100 searches in "
                ++ format_fixed 3 (total_time - insert_time)%float
                ++ " seconds")%string;
               ("  Average search time: "
                ++ format_fixed 3
                     ((total_time - insert_time) / 100 * 1000)%float
                ++ " ms")%string]
         /\ progress
            = banner_lines cfg ++ generation_lines cfg
              ++ ["Phase 1: Benchmarking insertions...";
                  inserted_line rt cfg; insert_throughput_line rt cfg; "";
                  "Phase 2: Benchmarking 100 random searches...";
                  "  Generating query vectors..."].
Proof.
  intros str_float32 rt cfg out0 err0 out1 err1 out2 err2 Hsmall H0 H1 H2
    insert_time total_time Hi Hs r. subst r.
  rewrite main_run. unfold expected_run.
  rewrite H0, H1, H2, (Z2float_not_infinite _ Hsmall).
  cbn [Z.eqb negb].
  change (insert_time_of rt) with insert_time.
  change (search_time_of rt) with (total_time - insert_time)%float.
  rewrite Hi, Hs. cbn [fst snd].
  split; [reflexivity | split; [reflexivity |]].
  eexists. split; [| reflexivity].
  rewrite printed_app, printed_prints, printed_to_phase2, <- !app_assoc.
  reflexivity.
Qed.

Lemma zero_search_time_raises_witness :
  fst (run (main Sample.str_float32 Scenario.equal_phases_rt Sample.cfg))
  = Raise ZeroDivisionError.
Proof.
  apply (zero_search_time_raises Sample.str_float32 Scenario.equal_phases_rt Sample.cfg
           "" "" "" "" "" ""); reflexivity.
Defined.

(** X4. With no vector configured the benchmark never runs to its end.
    Phase 1 sends the database the single line [exit]; when every launch
    succeeds and both times are non-zero, the division by the number of
    vectors on line 134 raises [ZeroDivisionError], right after the
    insertion throughput line of the summary. *)
Theorem empty_workload_never_completes :
  forall (str_float32 : float32 -> string) (rt : runtime) (cfg : config),
    NUM_VECTORS cfg = 0 ->
    let r := run (main str_float32 rt cfg) in
    fst r <> Return tt
    /\ insert_commands str_float32 (vectors_from rt cfg 0) = [("exit" ++ nl)%string]
    /\ (forall inv, nth_error (spawned (snd r)) 1 = Some inv ->
          stdin inv = Some ("exit" ++ nl)%string)
    /\ (forall out0 err0 out1 err1 out2 err2,
          child rt 0 (preflight_call cfg) = Exited 0 out0 err0 ->
          child rt 1 (phase1_call str_float32 rt cfg) = Exited 0 out1 err1 ->
          child rt 2 (phase2_call str_float32 rt cfg) = Exited 0 out2 err2 ->
          is_zero (insert_time_of rt) = false ->
          is_zero (search_time_of rt) = false ->
          fst r = Raise ZeroDivisionError
          /\ exists before,
               printed (snd r)
               = before
                 ++ ["Insertion Performance:";
                     ("  Total time: " ++ format_fixed 3 (insert_time_of rt)
                      ++ " seconds")%string;
                     insert_throughput_line rt cfg]).
Proof.
  intros str_float32 rt cfg HN r. subst r.
  assert (Hv : vectors_from rt cfg 0 = []).
  { unfold vectors_from. now rewrite HN. }
  split; [| split; [| split]].
  - rewrite main_run. unfold expected_run. rewrite HN.
    change (is_zero (Z2float (Z.of_nat 0))) with true.
    fork_run; cbn [fst]; discriminate.
  - now rewrite Hv.
  - intros inv H. apply spawned_at in H. injection H as <-.
    unfold phase1_call. now rewrite Hv.
  - intros out0 err0 out1 err1 out2 err2 H0 H1 H2 Hi Hs.
    rewrite main_run. unfold expected_run.
    rewrite H0, H1, H2, Hi, Hs, HN.
    change (is_zero (Z2float (Z.of_nat 0))) with true.
    change (is_infinity (Z2float (Z.of_nat 0))) with false.
    cbn [Z.eqb negb fst snd].
    split; [reflexivity |].
    rewrite !printed_app, !printed_prints, printed_to_phase2.
    unfold summary_head_lines.
    eexists. rewrite !app_assoc.
    match goal with
    | |- (?pre ++ [?a; ?b; ?c; ?d; ?e; ?f; ?g; ?h; ?i])%list = _ =>
        change (pre ++ [a; b; c; d; e; f; g; h; i])%list
          with (pre ++ ([a; b; c; d; e; f] ++ [g; h; i]))%list
    end.
    rewrite app_assoc. reflexivity.
Qed.

Lemma empty_workload_never_completes_witness :
  fst (run (main Sample.str_float32 Sample.rt_ok Scenario.empty_cfg))
  = Raise ZeroDivisionError.
Proof.
  destruct (empty_workload_never_completes Sample.str_float32 Sample.rt_ok
              Scenario.empty_cfg eq_refl) as (_ & _ & _ & H).
  apply (H "" "" "" "" "" ""); reflexivity.
Defined.

(** X5. The database is launched in a fixed order: the launches of a
    run are the first one, two or three of pre-flight check, phase 1 and
    phase 2; the pre-flight check comes right after the banner; a run
    that completes has made all three. *)
Theorem launches_follow_the_plan :
  forall (str_float32 : float32 -> string) (rt : runtime) (cfg : config),
    let r := run (main str_float32 rt cfg) in
    let plan := [preflight_call cfg; phase1_call str_float32 rt cfg;
                 phase2_call str_float32 rt cfg] in
    (exists n, 1 <= n <= 3 /\ spawned (snd r) = firstn n plan)
    /\ (exists rest,
          snd r = prints (banner_lines cfg) ++ Spawn (preflight_call cfg) :: rest)
    /\ (fst r = Return tt -> spawned (snd r) = plan).
Proof.
  intros str_float32 rt cfg r plan. subst r plan.
  rewrite main_run. unfold expected_run.
  split; [| split].
  - fork_run; cbn [snd];
      rewrite ?spawned_app, ?spawned_prints, ?spawned_to_preflight,
        ?spawned_to_phase1, ?spawned_to_phase2, ?app_nil_r;
      first [ exists 1; split; [lia | reflexivity]
            | exists 2; split; [lia | reflexivity]
            | exists 3; split; [lia | reflexivity] ].
  - fork_run; cbn [snd];
      unfold events_to_phase2, events_to_phase1, events_to_preflight;
      rewrite <- ?app_assoc; eexists; reflexivity.
  - fork_run; cbn [fst snd]; intros H; try discriminate H.
    all: now rewrite !spawned_app, !spawned_prints, spawned_to_phase2,
           !app_nil_r.
Qed.

(** X6. The interpreter's exit status is 0 for a run in which [main]
    returns and 1 for a run that an exception ends: each [SystemExit]
    the script raises carries the code 1 (lines 44, 77 and 113), and the
    [CalledProcessError] of the pre-flight check never leaves [main].
    A pre-flight check that finds no binary, or whose [count] exits
    with a non-zero status, ends the run with status 1. *)
Theorem exit_status_is_0_or_1 :
  forall (str_float32 : float32 -> string) (rt : runtime) (cfg : config),
    let r := run (main str_float32 rt cfg) in
    (exit_status (fst r) = 0%Z <-> fst r = Return tt)
    /\ (exit_status (fst r) = 1%Z <-> fst r <> Return tt)
    /\ (forall code, fst r = Raise (SystemExit code) -> code = 1%Z)
    /\ (forall rc, fst r <> Raise (CalledProcessError rc))
    /\ (preflight_fails rt cfg ->
        fst r = Raise (SystemExit 1) /\ exit_status (fst r) = 1%Z).
Proof.
  intros str_float32 rt cfg r. subst r.
  rewrite main_run. unfold expected_run, preflight_fails.
  fork_run; cbn [fst exit_status].
  all: split; [split; [discriminate || reflexivity | discriminate || reflexivity] |].
  all: split; [split; [discriminate || (intros _; discriminate)
                      | (intros H; now contradiction H) || reflexivity] |].
  all: split; [intros code H; now inversion H |].
  all: split; [intros rc; discriminate |].
  all: intros Hfail; try contradiction; try (split; reflexivity).
  all: repeat match goal with
         | H : negb (_ =? _)%Z = false |- _ =>
             apply negb_false_iff, Z.eqb_eq in H; subst
         end.
  all: try congruence.
Qed.

(** The sample run without a binary exits with status 1. *)
Lemma exit_status_is_0_or_1_witness :
  exit_status (fst (run (main Sample.str_float32 Sample.rt_missing Sample.cfg)))
  = 1%Z.
Proof.
  destruct (exit_status_is_0_or_1 Sample.str_float32 Sample.rt_missing
              Sample.cfg) as (_ & _ & _ & _ & H).
  apply H. exact I.
Defined.

(** X7. A binary that disappears after the pre-flight check is not
    caught: when a later launch finds no file, the script ends at that
    launch with [FileNotFoundError] and status 1, and the hint to build
    the project is not printed. *)
Theorem binary_lost_after_preflight :
  forall (str_float32 : float32 -> string) (rt : runtime) (cfg : config)
         (k : nat) (inv : invocation),
    let r := run (main str_float32 rt cfg) in
    1 <= k ->
    nth_error (spawned (snd r)) k = Some inv ->
    child rt k inv = NoSuchFile ->
    fst r = Raise FileNotFoundError
    /\ exit_status (fst r) = 1%Z
    /\ (exists before, snd r = before ++ [Spawn inv])
    /\ List.length (spawned (snd r)) = S k
    /\ ~ In "Please build the project first: cargo build --release"%string
         (printed (snd r)).
Proof.
  intros str_float32 rt cfg k inv r Hk Hnth Hchild. subst r.
  rewrite main_run in *. unfold expected_run in *.
  fork_run; cbn [fst snd] in *.
  all: rewrite ?spawned_app, ?spawned_prints, ?spawned_to_preflight,
         ?spawned_to_phase1, ?spawned_to_phase2, ?app_nil_r in Hnth.
  all: destruct k as [|[|[|k]]]; try lia; cbn in Hnth; try discriminate.
  all: try (destruct k; discriminate).
  all: injection Hnth as Hinv; subst inv.
  all: repeat match goal with
       | H1 : child ?r ?n ?c = _, H2 : child ?r ?n ?c = _ |- _ =>
           rewrite H1 in H2; try discriminate H2
       end.
  all: split; [reflexivity | split; [reflexivity | split; [| split]]].
  all: try (unfold events_to_phase2, events_to_phase1;
            rewrite ?app_assoc; eexists; reflexivity).
  all: rewrite ?printed_to_phase1, ?printed_to_phase2; try reflexivity.
  all: unfold banner_lines, generation_lines, inserted_line,
         insert_throughput_line, rule;
       cbn [app In repeat_string String.append];
       intros H; repeat (destruct H as [H|H]; [discriminate H |]); exact H.
Qed.

Lemma binary_lost_after_preflight_witness :
  fst (run (main Sample.str_float32 Scenario.lost_binary_rt Sample.cfg))
  = Raise FileNotFoundError.
Proof.
  apply (binary_lost_after_preflight Sample.str_float32 Scenario.lost_binary_rt
           Sample.cfg 1
           (phase1_call Sample.str_float32 Scenario.lost_binary_rt Sample.cfg)).
  - lia.
  - vm_compute. reflexivity.
  - reflexivity.
Defined.

Lemma key_of_injective (i j : nat) : key_of i = key_of j -> i = j.
Proof.
  unfold key_of. cbn [String.append]. intros H.
  apply str_nat_injective. now injection H.
Qed.

Lemma NoDup_map_injective {A B} (f : A -> B) (l : list A) :
  (forall x y, f x = f y -> x = y) -> NoDup l -> NoDup (map f l).
Proof.
  intros Hf Hl. induction Hl as [|x l Hx Hl IH]; cbn [map]; constructor.
  - intros Hin. apply in_map_iff in Hin. destruct Hin as (y & Hy & Hin).
    apply Hf in Hy. now subst y.
  - exact IH.
Qed.

(** X8. The keys of the generated vectors are [vec_0], [vec_1], ... in
    order, and no two vectors share a key. *)
Theorem generated_keys_are_distinct :
  forall (rt : runtime) (cfg : config) (st : state),
    exists vectors : list (string * vector),
      fst (generate_vectors rt cfg st) = Return vectors
      /\ map fst vectors
         = map (fun i => ("vec_" ++ str_nat i)%string) (seq 0 (NUM_VECTORS cfg))
      /\ NoDup (map fst vectors)
      /\ (forall i j ki kj vi vj,
            nth_error vectors i = Some (ki, vi) ->
            nth_error vectors j = Some (kj, vj) ->
            ki = kj -> i = j).
Proof.
  intros rt cfg st. exists (vectors_from rt cfg (draws st)).
  rewrite run_generate_vectors. cbn [fst].
  assert (Hkeys : map fst (vectors_from rt cfg (draws st))
                  = map key_of (seq 0 (NUM_VECTORS cfg))).
  { unfold vectors_from. rewrite map_map. reflexivity. }
  split; [reflexivity | split; [exact Hkeys | split]].
  - rewrite Hkeys. apply NoDup_map_injective.
    + apply key_of_injective.
    + apply seq_NoDup.
  - intros i j ki kj vi vj Hi Hj Hk.
    assert (Hli : i < NUM_VECTORS cfg).
    { rewrite <- (vectors_from_length rt cfg (draws st)).
      apply nth_error_Some. now rewrite Hi. }
    assert (Hlj : j < NUM_VECTORS cfg).
    { rewrite <- (vectors_from_length rt cfg (draws st)).
      apply nth_error_Some. now rewrite Hj. }
    rewrite nth_vectors_from in Hi, Hj by assumption.
    injection Hi as <- _. injection Hj as <- _.
    now apply key_of_injective.
Qed.

Lemma generated_keys_are_distinct_witness :
  exists vectors : list (string * vector),
    fst (generate_vectors Sample.rt_ok Sample.cfg boot) = Return vectors
    /\ map fst vectors = ["vec_0"; "vec_1"]%string
    /\ NoDup (map fst vectors).
Proof.
  destruct (generated_keys_are_distinct Sample.rt_ok Sample.cfg boot)
    as (vectors & H1 & H2 & H3 & _).
  exists vectors. repeat split; assumption.
Defined.




End BenchmarkExtras.

(** ** The fetch script: batches and dictionaries *)

Module WikiFacts.
Import Wiki.
Local Open Scope list_scope.
Local Open Scope nat_scope.

Lemma firstn_skipn_firstn {A} (a b : nat) (l : list A) :
  firstn a l ++ firstn b (skipn a l) = firstn (a + b) l.
Proof.
  revert l. induction a as [|a IH]; intros [|x l]; cbn; try reflexivity.
  - now rewrite firstn_nil.
  - now rewrite IH.
Qed.

Lemma slice_window {A} (l : list A) (i n : nat) :
  slice l i (i + n) = firstn n (skipn i l).
Proof. unfold slice. f_equal. lia. Qed.

Lemma batches_of_eq (titles : list string) :
  batches_of titles
  = map (fun k => firstn 50 (skipn (k * 50) titles))
        (seq 0 ((List.length titles + 49) / 50)).
Proof.
  unfold batches_of, range_step. rewrite map_map.
  replace (List.length titles + 50 - 1) with (List.length titles + 49) by lia.
  apply map_ext. intros k. apply slice_window.
Qed.

Lemma concat_windows {A} (l : list A) (n : nat) :
  List.concat (map (fun k => firstn 50 (skipn (k * 50) l)) (seq 0 n))
  = firstn (n * 50) l.
Proof.
  induction n as [|n IH].
  - reflexivity.
  - rewrite seq_S, map_app, concat_app, IH. cbn [map List.concat Nat.add].
    rewrite app_nil_r, firstn_skipn_firstn. f_equal. lia.
Qed.

Lemma windows_cover (n : nat) : n <= (n + 49) / 50 * 50.
Proof.
  pose proof (Nat.div_mod_eq (n + 49) 50) as E.
  pose proof (Nat.mod_upper_bound (n + 49) 50 ltac:(lia)) as B.
  lia.
Qed.

Lemma window_starts_inside (n k : nat) : k < (n + 49) / 50 -> k * 50 < n.
Proof.
  intros Hk.
  pose proof (Nat.div_mod_eq (n + 49) 50) as E.
  pose proof (Nat.mod_upper_bound (n + 49) 50 ltac:(lia)) as B.
  nia.
Qed.

Lemma concat_batches_of (titles : list string) :
  List.concat (batches_of titles) = titles.
Proof.
  rewrite batches_of_eq, concat_windows.
  apply firstn_all2, windows_cover.
Qed.

Lemma length_batches_of (titles : list string) :
  List.length (batches_of titles) = (List.length titles + 49) / 50.
Proof. rewrite batches_of_eq, length_map, length_seq. reflexivity. Qed.

Lemma batches_of_bounds (titles : list string) :
  Forall (fun b => 1 <= List.length b <= 50) (batches_of titles).
Proof.
  rewrite batches_of_eq. apply Forall_forall. intros b Hb.
  apply in_map_iff in Hb. destruct Hb as [k [<- Hk]].
  apply in_seq in Hk. destruct Hk as [_ Hk]. cbn in Hk.
  apply window_starts_inside in Hk.
  rewrite length_firstn, length_skipn. lia.
Qed.

(** *** Titles of a reply *)

Lemma titles_of_map (titles : list string) :
  titles_of (map Some titles) = Some titles.
Proof. induction titles as [|t l IH]; cbn; [reflexivity | now rewrite IH]. Qed.

Lemma titles_of_Some (entries : list (option string)) (titles : list string) :
  titles_of entries = Some titles -> entries = map Some titles.
Proof.
  revert titles. induction entries as [|[t|] l IH]; cbn; intros titles H.
  - now inversion H.
  - destruct (titles_of l) as [l'|]; cbn in H; [|discriminate].
    inversion H. cbn. f_equal. now apply IH.
  - discriminate.
Qed.

Lemma titles_of_None (entries : list (option string)) :
  titles_of entries = None -> In None entries.
Proof.
  induction entries as [|[t|] l IH]; cbn; intros H.
  - discriminate.
  - right. apply IH. now destruct (titles_of l).
  - now left.
Qed.

(** *** Dictionaries *)

Lemma dict_set_keys (d : pydict) (k v : string) :
  map fst (dict_set d k v)
  = if existsb (fun k' => String.eqb k' k) (map fst d) then map fst d
    else map fst d ++ [k].
Proof.
  induction d as [|[k' v'] d IH]; cbn.
  - reflexivity.
  - destruct (String.eqb k' k) eqn:E; cbn.
    + reflexivity.
    + rewrite IH. destruct (existsb _ _); reflexivity.
Qed.

Lemma existsb_eqb_In (l : list string) (k : string) :
  existsb (fun k' => String.eqb k' k) l = true <-> In k l.
Proof.
  rewrite existsb_exists. split.
  - intros [x [Hx E]]. apply String.eqb_eq in E. now subst.
  - intros H. exists k. split; [assumption | apply String.eqb_refl].
Qed.

Lemma dict_set_NoDup (d : pydict) (k v : string) :
  NoDup (map fst d) -> NoDup (map fst (dict_set d k v)).
Proof.
  intros H. rewrite dict_set_keys.
  destruct (existsb _ _) eqn:E; [assumption|].
  apply NoDup_app; [assumption | repeat constructor; intros [] | ].
  intros x Hx [<-|[]].
  apply existsb_eqb_In in Hx. congruence.
Qed.

Lemma dict_set_In (d : pydict) (k v k0 v0 : string) :
  In (k0, v0) (dict_set d k v) -> (k0 = k /\ v0 = v) \/ In (k0, v0) d.
Proof.
  induction d as [|[k' v'] d IH]; cbn.
  - intros [E|[]]. left. now inversion E.
  - destruct (String.eqb k' k) eqn:E; cbn.
    + apply String.eqb_eq in E. subst k'.
      intros [H|H]; [left; now inversion H | right; now right].
    + intros [H|H]; [right; now left|].
      destruct (IH H) as [?|?]; [now left | right; now right].
Qed.

Lemma dict_set_length (d : pydict) (k v : string) :
  List.length d <= List.length (dict_set d k v) <= S (List.length d).
Proof.
  induction d as [|[k' v'] d IH]; cbn.
  - lia.
  - destruct (String.eqb k' k); cbn; lia.
Qed.

Lemma truthy_nonempty (s : string) : truthy s = true <-> s <> "".
Proof. destruct s; cbn; split; congruence. Qed.

Section Entries.
Variable P : string -> string -> Prop.

Lemma entries_ok_nil : entries_ok P [].
Proof. split; [constructor | intros ? ? []]. Qed.

Lemma entries_ok_set (d : pydict) (k v : string) :
  entries_ok P d -> P k v -> entries_ok P (dict_set d k v).
Proof.
  intros [Hn Hp] Hkv. split.
  - now apply dict_set_NoDup.
  - intros t x Hin. apply dict_set_In in Hin.
    destruct Hin as [[-> ->]|Hin]; auto.
Qed.

Lemma entries_ok_update (d other : pydict) :
  entries_ok P d -> (forall t v, In (t, v) other -> P t v) ->
  entries_ok P (dict_update d other).
Proof.
  unfold dict_update. revert d.
  induction other as [|[k v] other IH]; intros d Hd Ho; cbn.
  - assumption.
  - apply IH.
    + apply entries_ok_set; [assumption | apply Ho; now left].
    + intros t x Hin. apply Ho. now right.
Qed.

Lemma entries_ok_add_pages (pages : list page) (d : pydict) :
  entries_ok P d ->
  (forall t v, t <> "" -> v <> "" -> In (Page (Some t) (Some v)) pages -> P t v) ->
  entries_ok P (fold_left add_page pages d).
Proof.
  revert d. induction pages as [|p pages IH]; intros d Hd Hp; cbn.
  - assumption.
  - apply IH.
    + unfold add_page.
      destruct (truthy (get_or_empty (page_title p))
                && truthy (get_or_empty (page_description p)))%bool eqn:E;
        [|assumption].
      apply andb_prop in E. destruct E as [Et Ed].
      apply truthy_nonempty in Et, Ed.
      apply entries_ok_set; [assumption|].
      destruct p as [[t|] [v|]]; cbn in *; try congruence.
      apply Hp; auto.
    + intros t v Ht Hv Hin. apply Hp; auto. now right.
Qed.

End Entries.

Lemma dict_update_length (d other : pydict) :
  List.length d <= List.length (dict_update d other)
  <= List.length d + List.length other.
Proof.
  unfold dict_update. revert d.
  induction other as [|[k v] other IH]; intros d; cbn.
  - lia.
  - pose proof (IH (dict_set d k v)). pose proof (dict_set_length d k v). lia.
Qed.

Lemma add_pages_length (pages : list page) (d : pydict) :
  List.length (fold_left add_page pages d) <= List.length d + List.length pages.
Proof.
  revert d. induction pages as [|p pages IH]; intros d; cbn.
  - lia.
  - pose proof (IH (add_page d p)) as H.
    assert (List.length (add_page d p) <= S (List.length d)).
    { unfold add_page. destruct (_ && _)%bool; [apply dict_set_length | lia]. }
    lia.
Qed.

Lemma entries_ok_impl (P Q : string -> string -> Prop) (d : pydict) :
  (forall t v, P t v -> Q t v) -> entries_ok P d -> entries_ok Q d.
Proof. intros H [Hn Hp]. split; auto. Qed.

Lemma dict_set_keeps (d : pydict) (k v k0 : string) :
  In k0 (map fst d) -> In k0 (map fst (dict_set d k v)).
Proof.
  rewrite dict_set_keys. destruct (existsb _ _); [auto|].
  intros H. apply in_or_app. now left.
Qed.

Lemma dict_set_has (d : pydict) (k v : string) :
  In k (map fst (dict_set d k v)).
Proof.
  rewrite dict_set_keys. destruct (existsb _ _) eqn:E.
  - now apply existsb_eqb_In.
  - apply in_or_app. right. now left.
Qed.

Lemma dict_set_new (d : pydict) (k v : string) :
  ~ In k (map fst d) -> List.length (dict_set d k v) = S (List.length d).
Proof.
  induction d as [|[k' v'] d IH]; cbn; [reflexivity|].
  intros H. destruct (String.eqb k' k) eqn:E.
  - apply String.eqb_eq in E. tauto.
  - cbn. rewrite IH; tauto.
Qed.

Lemma dict_set_other (d : pydict) (k v k0 : string) :
  k0 <> k -> In k0 (map fst (dict_set d k v)) -> In k0 (map fst d).
Proof.
  rewrite dict_set_keys. destruct (existsb _ _); [auto|].
  intros Hne H. apply in_app_or in H. destruct H as [H|[H|[]]]; congruence.
Qed.

(** An update that brings a new key makes the dictionary longer. *)
Lemma dict_update_grows (d other : pydict) (k : string) :
  In k (map fst other) -> ~ In k (map fst d) ->
  List.length d < List.length (dict_update d other).
Proof.
  revert d. induction other as [|[k0 v0] other IH]; intros d Hin Hnew.
  - destruct Hin.
  - change (dict_update d ((k0, v0) :: other))
      with (dict_update (dict_set d k0 v0) other).
    destruct (string_dec k0 k) as [->|Hne].
    + pose proof (dict_set_new d k v0 Hnew).
      pose proof (dict_update_length (dict_set d k v0) other). lia.
    + destruct Hin as [Hin|Hin]; [cbn in Hin; congruence|].
      pose proof (dict_set_length d k0 v0).
      assert (List.length (dict_set d k0 v0)
              < List.length (dict_update (dict_set d k0 v0) other)).
      { apply IH; [assumption|]. intros H'. apply Hnew.
        eapply dict_set_other; [|exact H']. congruence. }
      lia.
Qed.

Lemma add_page_keeps (d : pydict) (p : page) (k : string) :
  In k (map fst d) -> In k (map fst (add_page d p)).
Proof.
  unfold add_page. destruct (_ && _)%bool; [apply dict_set_keeps | auto].
Qed.

Lemma add_pages_keep (pages : list page) (d : pydict) (k : string) :
  In k (map fst d) -> In k (map fst (fold_left add_page pages d)).
Proof.
  revert d. induction pages as [|p pages IH]; intros d H; cbn; [assumption|].
  apply IH. now apply add_page_keeps.
Qed.

Lemma add_pages_has (pages : list page) (d : pydict) (t v : string) :
  In (Page (Some t) (Some v)) pages -> t <> ""%string -> v <> ""%string ->
  In t (map fst (fold_left add_page pages d)).
Proof.
  revert d. induction pages as [|p pages IH]; intros d Hin Ht Hv; [destruct Hin|].
  cbn [fold_left]. destruct Hin as [->|Hin]; [|now apply IH].
  apply add_pages_keep. unfold add_page. cbn [page_title page_description get_or_empty].
  apply truthy_nonempty in Ht, Hv. rewrite Ht, Hv. apply dict_set_has.
Qed.

End WikiFacts.

(** ** The fetch script: symbolic runs *)

Module WikiRuns.
Import Wiki WikiFacts.
Local Open Scope list_scope.
Local Open Scope nat_scope.

Lemma gets_app (a b : list event) : gets (a ++ b) = gets a ++ gets b.
Proof.
  induction a as [|[| | |] a IH]; cbn; rewrite ?IH; reflexivity.
Qed.

Lemma writes_app (a b : list event) : writes (a ++ b) = writes a ++ writes b.
Proof.
  induction a as [|[| | |] a IH]; cbn; rewrite ?IH; reflexivity.
Qed.

Lemma gets_description (bs : list (list string)) :
  gets (map description_get bs)
  = map (fun b => api_request (description_params b)) bs.
Proof. induction bs as [|b bs IH]; cbn; rewrite ?IH; reflexivity. Qed.

Lemma writes_description (bs : list (list string)) :
  writes (map description_get bs) = [].
Proof. induction bs as [|b bs IH]; cbn; rewrite ?IH; reflexivity. Qed.

Section WithWorld.
Variable w : world.

Lemma get_json_run (ps : list (string * param)) (st : state) :
  get_json w ps st
  = (match web w (requests st) (api_request ps) with
     | Failed msg => Raise (RequestException msg)
     | Json b => Return b
     end,
     State (log st ++ [Get (api_request ps)]) (S (requests st))).
Proof. unfold get_json. destruct (web w _ _); reflexivity. Qed.

Lemma fetch_random_titles_run (c : nat) (st : state) :
  fetch_random_titles w c st
  = (match web w (requests st) (api_request (random_params c)) with
     | Failed msg => Raise (RequestException msg)
     | Json (RandomList entries) =>
         match titles_of entries with
         | Some titles => Return titles
         | None => Raise (KeyError "title")
         end
     | Json (PageSet _) => Raise (KeyError "random")
     | Json NoQuery => Raise (KeyError "query")
     end,
     State (log st ++ [random_get c]) (S (requests st))).
Proof.
  unfold fetch_random_titles, bind. rewrite get_json_run.
  destruct (web w _ _) as [msg|[t|p|]]; try reflexivity.
  destruct (titles_of t); reflexivity.
Qed.

Lemma describe_batch_run (b : list string) (acc : pydict) (st : state) :
  describe_batch w b acc st
  = (match web w (requests st) (api_request (description_params b)) with
     | Failed msg => Raise (RequestException msg)
     | Json data => Return (fold_left add_page (pages_of data) acc)
     end,
     State (log st ++ [description_get b]) (S (requests st))).
Proof.
  unfold describe_batch, bind. rewrite get_json_run.
  destruct (web w _ _); reflexivity.
Qed.

Lemma for_each_cons {A S} (x : A) (xs : list A) (body : A -> S -> M S)
      (acc : S) (st : state) :
  for_each (x :: xs) body acc st
  = match body x acc st with
    | (Return a, st') => for_each xs body a st'
    | (Raise e, st') => (Raise e, st')
    end.
Proof. reflexivity. Qed.

Lemma for_each_map {A B S} (f : A -> B) (xs : list A) (body : B -> S -> M S)
      (acc : S) (st : state) :
  for_each (map f xs) body acc st = for_each xs (fun x => body (f x)) acc st.
Proof.
  revert acc st. induction xs as [|x xs IH]; intros acc st; cbn.
  - reflexivity.
  - unfold bind. destruct (body (f x) acc st) as [[a|e] st']; [apply IH | reflexivity].
Qed.

Lemma fetch_descriptions_batches (titles : list string) (st : state) :
  fetch_descriptions w titles st
  = for_each (batches_of titles) (describe_batch w) [] st.
Proof. unfold fetch_descriptions, batches_of. now rewrite for_each_map. Qed.

(** The loop over the batches: it sends the requests of a prefix of the
    batches, all of them when it returns, and stops at the first failed
    request. *)
Lemma describe_loop (I : pydict -> Prop) (bs : list (list string))
      (acc : pydict) (st : state) :
  (forall k b pages d,
     In b bs ->
     web w k (api_request (description_params b)) = Json (PageSet pages) ->
     I d -> I (fold_left add_page pages d)) ->
  I acc ->
  let r := for_each bs (describe_batch w) acc st in
  exists n,
    n <= List.length bs
    /\ log (snd r) = log st ++ map description_get (firstn n bs)
    /\ requests (snd r) = requests st + n
    /\ match fst r with
       | Return res => n = List.length bs /\ I res
       | Raise e =>
           exists msg b,
             e = RequestException msg /\ nth_error bs (n - 1) = Some b
             /\ 1 <= n
             /\ web w (requests st + n - 1)
                  (api_request (description_params b)) = Failed msg
       end.
Proof.
  revert acc st. induction bs as [|b bs IH]; intros acc st Hstep Hacc; cbv zeta.
  - exists 0. cbn. rewrite app_nil_r. split; [lia|]. split; [reflexivity|].
    split; [lia|]. split; [reflexivity | assumption].
  - rewrite for_each_cons, describe_batch_run.
    destruct (web w (requests st) (api_request (description_params b)))
      as [msg|data] eqn:E.
    + exists 1. cbn. split; [lia|]. split; [reflexivity|]. split; [lia|].
      exists msg, b. split; [reflexivity|]. split; [reflexivity|].
      split; [lia|].
      now replace (requests st + 1 - 1) with (requests st) by lia.
    + set (acc' := fold_left add_page (pages_of data) acc).
      set (st' := State (log st ++ [description_get b]) (S (requests st))).
      assert (Hacc' : I acc').
      { unfold acc'. destruct data as [t|pages|]; cbn; auto.
        eapply Hstep; eauto. now left. }
      destruct (IH acc' st') as [n [Hn [Hlog [Hreq Hres]]]].
      { intros k b' pages d Hin. apply Hstep. now right. }
      { assumption. }
      exists (S n). cbn [firstn map List.length].
      split; [lia|]. split.
      { rewrite Hlog. unfold st'. cbn [log]. rewrite <- app_assoc. reflexivity. }
      split.
      { rewrite Hreq. unfold st'. cbn [requests]. lia. }
      destruct (fst (for_each bs (describe_batch w) acc' st')) as [res|e].
      * destruct Hres as [-> Hres]. split; [reflexivity | assumption].
      * destruct Hres as [msg [b' [-> [Hnth [Hpos Hweb]]]]].
        exists msg, b'. split; [reflexivity|]. split; [|split; [lia|]].
        -- destruct n as [|n]; [lia|]. cbn. cbn in Hnth.
           now rewrite Nat.sub_0_r in *.
        -- unfold st' in Hweb. cbn [requests] in Hweb.
           now replace (requests st + S n - 1) with (S (requests st) + n - 1) by lia.
Qed.

Lemma describe_loop_length (bs : list (list string)) (acc : pydict) (st : state)
      (res : pydict) :
  (forall k b pages,
     In b bs ->
     web w k (api_request (description_params b)) = Json (PageSet pages) ->
     List.length pages <= List.length b) ->
  fst (for_each bs (describe_batch w) acc st) = Return res ->
  List.length res <= List.length acc + List.length (List.concat bs).
Proof.
  revert acc st. induction bs as [|b bs IH]; intros acc st Hw.
  - cbn. intros E. inversion E. lia.
  - rewrite for_each_cons, describe_batch_run.
    destruct (web w (requests st) (api_request (description_params b)))
      as [msg|data] eqn:E; [discriminate|].
    intros Hres. apply IH in Hres.
    + cbn [List.concat]. rewrite length_app.
      pose proof (add_pages_length (pages_of data) acc) as Hl.
      assert (List.length (pages_of data) <= List.length b).
      { destruct data as [t|pages|]; cbn; try lia.
        eapply Hw; eauto. now left. }
      lia.
    + intros k b' pages Hin. apply Hw. now right.
Qed.


Lemma productive_on_all (born : string -> nat) :
  productive w born -> productive_on (fun _ => True) w born.
Proof.
  intros [Hrand Hdesc]. split.
  - intros k c Hc. destruct (Hrand k c Hc) as [titles [Hweb Hne]].
    exists titles. split; [assumption|]. split; [assumption|].
    apply Forall_forall. auto.
  - intros k batch _ _. apply Hdesc.
Qed.

(** On a productive web the loop returns, and every batch leaves a
    page born at its request. *)
Lemma describe_loop_productive (ok : string -> Prop) (born : string -> nat)
      (bs : list (list string)) (acc : pydict) (st : state) :
  productive_on ok w born ->
  Forall (fun b => b <> [] /\ Forall ok b) bs ->
  entries_ok (fun t _ => born t < requests st) acc ->
  exists res st',
    for_each bs (describe_batch w) acc st = (Return res, st')
    /\ requests st' = requests st + List.length bs
    /\ entries_ok (fun t _ => born t < requests st') res
    /\ (forall k, In k (map fst acc) -> In k (map fst res))
    /\ (bs <> [] -> exists t, In t (map fst res) /\ requests st <= born t).
Proof.
  intros [_ Hdesc] Hbs. revert acc st.
  induction Hbs as [|b bs [Hb1 Hb2] Hbs IH]; intros acc st Hacc.
  - exists acc, st. cbn [for_each List.length]. unfold ret.
    split; [reflexivity|]. split; [lia|].
    split; [eapply entries_ok_impl; [|exact Hacc]; cbn; intros; lia|].
    split; [auto | congruence].
  - rewrite for_each_cons, describe_batch_run.
    destruct (Hdesc (requests st) b Hb1 Hb2)
      as [pages [Hweb [Hold [t [d [Hin [Ht [Hd Hb]]]]]]]].
    rewrite Hweb. cbn [pages_of].
    set (acc' := fold_left add_page pages acc).
    set (st1 := State (log st ++ [description_get b]) (S (requests st))).
    assert (Hacc' : entries_ok (fun t _ => born t < requests st1) acc').
    { apply entries_ok_add_pages.
      - eapply entries_ok_impl; [|exact Hacc]. cbn. intros; lia.
      - intros t' v' _ _ Hin'. cbn.
        specialize (Hold _ t' Hin' eq_refl). lia. }
    destruct (IH acc' st1 Hacc') as [res [st' [Hrun [Hreq [Hres [Hkeep _]]]]]].
    exists res, st'. split; [assumption|].
    split; [rewrite Hreq; cbn; lia|]. split; [assumption|]. split.
    + intros k Hk. apply Hkeep. now apply add_pages_keep.
    + intros _. exists t. split; [|lia].
      apply Hkeep. eapply add_pages_has; eauto.
Qed.

(** [fetch_descriptions], all at once. *)
Lemma fetch_descriptions_spec (titles : list string) (st : state) :
  let r := fetch_descriptions w titles st in
  exists n,
    n <= List.length (batches_of titles)
    /\ log (snd r) = log st ++ map description_get (firstn n (batches_of titles))
    /\ requests (snd r) = requests st + n
    /\ match fst r with
       | Return res => n = List.length (batches_of titles) /\ sound w res
       | Raise e =>
           exists msg b,
             e = RequestException msg
             /\ nth_error (batches_of titles) (n - 1) = Some b
             /\ 1 <= n
             /\ web w (requests st + n - 1)
                  (api_request (description_params b)) = Failed msg
       end.
Proof.
  cbv zeta. rewrite fetch_descriptions_batches.
  apply (describe_loop (sound w)).
  - intros k b pages d _ Hweb Hd.
    apply entries_ok_add_pages; [exact Hd|].
    intros t v Ht Hv Hin. repeat split; auto.
    exists k, b, pages. split; assumption.
  - apply entries_ok_nil.
Qed.

End WithWorld.

End WikiRuns.

(** ** The fetch script: the loop *)

Module WikiLoop.
Import Wiki WikiFacts WikiRuns.
Local Open Scope list_scope.
Local Open Scope nat_scope.

Section WithConfig.
Variable w : world.
Variables dump dumps : list (string * string) -> string.
Variable cfg : config.

Local Abbreviation fetch_count d :=
  (Nat.min (BATCH_SIZE cfg) (TARGET cfg - List.length d)).

(** A pass whose request for random titles fails. *)
Lemma iteration_random_failed (d : pydict) (bn : nat) (st : state) (msg : string) :
  web w (requests st) (api_request (random_params (fetch_count d))) = Failed msg ->
  iteration w cfg d bn st
  = (Return d,
     State (log st ++ [random_get (fetch_count d); Print (error_line bn msg);
                       Sleep 5])
           (S (requests st))).
Proof.
  intros E. unfold iteration, try_except_request, batch_step, bind.
  rewrite fetch_random_titles_run, E.
  unfold print, time_sleep, emit, ret. cbn [log requests].
  rewrite <- !app_assoc. reflexivity.
Qed.

(** The three ways one pass through the loop can go. *)
Lemma iteration_cases (d : pydict) (bn : nat) (st : state) :
  let c := fetch_count d in
  let r := iteration w cfg d bn st in
  (exists titles described,
     web w (requests st) (api_request (random_params c))
     = Json (RandomList (map Some titles))
     /\ fst (fetch_descriptions w titles
               (State (log st ++ [random_get c]) (S (requests st))))
        = Return described
     /\ sound w described
     /\ fst r = Return (dict_update d described)
     /\ log (snd r)
        = log st
          ++ events_of
               (Round c (batches_of titles)
                  (batch_line cfg bn (List.length described)
                     (List.length (dict_update d described)))
                  0.5)
     /\ requests (snd r) = requests st + 1 + List.length (batches_of titles))
  \/ (exists msg bs earlier t,
        fst r = Return d
        /\ log (snd r) = log st ++ events_of (Round c bs (error_line bn msg) 5)
        /\ Forall (fun b => 1 <= List.length b <= 50) bs
        /\ requests (snd r) = requests st + 1 + List.length bs
        /\ gets (events_of (Round c bs (error_line bn msg) 5)) = earlier ++ [t]
        /\ web w (requests st + List.length earlier) t = Failed msg)
  \/ (exists key,
        fst r = Raise (KeyError key)
        /\ log (snd r) = log st ++ [random_get c]
        /\ exists b, web w (requests st) (api_request (random_params c)) = Json b
                     /\ missing_key b key).
Proof.
  cbv zeta. unfold iteration, try_except_request, batch_step, bind.
  rewrite fetch_random_titles_run.
  set (c := fetch_count d).
  set (st1 := State (log st ++ [random_get c]) (S (requests st))).
  destruct (web w (requests st) (api_request (random_params c)))
    as [msg|[entries|pages|]] eqn:E;
    [| destruct (titles_of entries) as [titles|] eqn:T | |].
  - (* the request for titles fails *)
    right. left. exists msg, [], [], (api_request (random_params c)).
    unfold print, time_sleep, emit, ret, events_of. cbn.
    split; [reflexivity|]. split; [now rewrite <- !app_assoc|].
    split; [constructor|]. split; [lia|]. split; [reflexivity|].
    now rewrite Nat.add_0_r.
  - (* titles arrive *)
    apply titles_of_Some in T. subst entries.
    pose proof (fetch_descriptions_spec w titles st1) as H. cbv zeta in H.
    destruct H as [n [Hn [Hlog [Hreq Hres]]]].
    destruct (fetch_descriptions w titles st1) as [[described|e] st2] eqn:F;
      cbn [fst snd] in *.
    + left. exists titles, described. destruct Hres as [-> Hsound].
      rewrite firstn_all in Hlog.
      unfold print, time_sleep, emit, ret, events_of. cbn [fst snd log requests asked batches line pause].
      split; [reflexivity|]. split; [now rewrite F|]. split; [assumption|].
      split; [reflexivity|]. split.
      * rewrite Hlog. unfold st1. cbn [log]. rewrite <- !app_assoc. reflexivity.
      * rewrite Hreq. unfold st1. cbn [requests]. lia.
    + right. left. destruct Hres as [msg [b [-> [Hnth [Hpos Hweb]]]]].
      assert (Hlen : List.length (firstn (n - 1) (batches_of titles)) = n - 1).
      { rewrite length_firstn. lia. }
      assert (Hsplit : firstn n (batches_of titles)
                       = firstn (n - 1) (batches_of titles) ++ [b]).
      { replace n with (S (n - 1)) at 1 by lia.
        clear - Hnth. revert Hnth. generalize (n - 1) as m.
        generalize (batches_of titles) as l.
        induction l as [|x l IH]; intros [|m] H; cbn in H; try discriminate.
        - inversion H. reflexivity.
        - cbn. f_equal. now apply IH. }
      exists msg, (firstn n (batches_of titles)),
        (api_request (random_params c)
         :: map (fun b => api_request (description_params b))
              (firstn (n - 1) (batches_of titles))),
        (api_request (description_params b)).
      unfold print, time_sleep, emit, ret, events_of.
      cbn [fst snd log requests asked batches line pause].
      split; [reflexivity|]. split.
      { rewrite Hlog. unfold st1. cbn [log].
        rewrite <- !app_assoc. reflexivity. }
      split.
      { apply Forall_forall. intros x Hx.
        pose proof (batches_of_bounds titles) as Hb.
        rewrite Forall_forall in Hb. apply Hb.
        rewrite <- (firstn_skipn n (batches_of titles)).
        apply in_or_app. now left. }
      split.
      { rewrite Hreq, length_firstn. unfold st1. cbn [requests]. lia. }
      split.
      { cbn [gets random_get]. rewrite gets_app, gets_description.
        cbn [gets app]. rewrite app_nil_r, Hsplit, map_app. reflexivity. }
      cbn [List.length]. rewrite length_map, Hlen.
      unfold st1 in Hweb. cbn [requests] in Hweb.
      now replace (requests st + S (n - 1)) with (S (requests st) + n - 1) by lia.
  - (* an entry without a title *)
    right. right. exists "title"%string. cbn.
    split; [reflexivity|]. split; [reflexivity|].
    exists (RandomList entries). split; [reflexivity|].
    split; [reflexivity | now apply titles_of_None].
  - right. right. exists "random"%string. cbn.
    split; [reflexivity|]. split; [reflexivity|].
    exists (PageSet pages). split; reflexivity.
  - right. right. exists "query"%string. cbn.
    split; [reflexivity|]. split; [reflexivity|].
    exists NoQuery. split; reflexivity.
Qed.

Lemma fetch_count_bounds (d : pydict) :
  List.length d < TARGET cfg ->
  count_ok cfg (fetch_count d)
  /\ List.length d + fetch_count d <= TARGET cfg.
Proof. unfold count_ok. lia. Qed.

Lemma collect_unfold (fuel : nat) (d : pydict) (bn : nat) (st : state) :
  collect w cfg fuel d bn st
  = if List.length d <? TARGET cfg then
      match fuel with
      | O => (Return None, st)
      | S fuel' =>
          match iteration w cfg d (bn + 1) st with
          | (Return d', st') => collect w cfg fuel' d' (bn + 1) st'
          | (Raise e, st') => (Raise e, st')
          end
      end
    else (Return (Some d), st).
Proof.
  destruct fuel; cbn [collect]; destruct (List.length d <? TARGET cfg);
    reflexivity.
Qed.

(** The loop, as a sequence of rounds. *)
Lemma collect_rounds (fuel : nat) (d : pydict) (bn : nat) (st : state) :
  sound w d ->
  let r := collect w cfg fuel d bn st in
  exists rs,
    Forall (round_ok cfg) rs /\ List.length rs <= fuel
    /\ match fst r with
       | Return None =>
           log (snd r) = log st ++ rounds_events rs /\ List.length rs = fuel
       | Return (Some d') =>
           log (snd r) = log st ++ rounds_events rs
           /\ sound w d' /\ TARGET cfg <= List.length d'
           /\ (well_behaved w -> List.length d <= TARGET cfg ->
               List.length d' = TARGET cfg)
       | Raise (KeyError key) =>
           exists c k b,
             log (snd r) = log st ++ rounds_events rs ++ [random_get c]
             /\ count_ok cfg c
             /\ web w k (api_request (random_params c)) = Json b
             /\ missing_key b key
       | Raise _ => False
       end.
Proof.
  revert d bn st.
  induction fuel as [|fuel IH]; intros d bn st Hd; cbv zeta;
    rewrite collect_unfold; destruct (List.length d <? TARGET cfg) eqn:L.
  - exists []. cbn. rewrite app_nil_r. repeat split; auto.
  - apply Nat.ltb_ge in L. exists []. cbn. rewrite app_nil_r.
    split; [constructor|]. split; [lia|]. split; [reflexivity|].
    split; [assumption|]. split; [assumption|]. lia.
  - apply Nat.ltb_lt in L.
    destruct (fetch_count_bounds d L) as [Hc1 Hc3].
    pose proof (iteration_cases d (bn + 1) st) as H. cbv zeta in H.
    destruct (iteration w cfg d (bn + 1) st) as [[d1|e] st1] eqn:It;
      cbn [fst snd] in H.
    + (* the pass ends; the loop goes on *)
      assert (exists rd,
                 round_ok cfg rd /\ log st1 = log st ++ events_of rd
                 /\ sound w d1
                 /\ (well_behaved w -> List.length d <= TARGET cfg ->
                     List.length d1 <= TARGET cfg)) as [rd [Hrd [Hlog [Hd1 Hwb]]]].
      { destruct H as [H|[H|H]].
        - destruct H as [titles [described [Hweb [Hfetch [Hs [Hret [Hlog Hreq]]]]]]].
          inversion Hret; subst d1. eexists. split; [|split; [exact Hlog|split]].
          + unfold round_ok. cbn [asked batches pause].
            split; [assumption|]. split; [apply batches_of_bounds | now left].
          + apply entries_ok_update; [assumption | apply Hs].
          + intros [Hw1 Hw2] _.
            pose proof (dict_update_length d described) as Hl.
            apply Hw1 in Hweb. rewrite length_map in Hweb.
            rewrite fetch_descriptions_batches in Hfetch.
            apply describe_loop_length in Hfetch.
            * rewrite concat_batches_of in Hfetch. cbn [List.length] in Hfetch. lia.
            * intros k b pages _. apply Hw2.
        - destruct H as [msg [bs [earlier [t [Hret [Hlog [Hbs _]]]]]]].
          inversion Hret; subst d1. eexists. split; [|split; [exact Hlog|split]].
          + unfold round_ok. cbn [asked batches pause].
            split; [assumption|]. split; [assumption | now right].
          + assumption.
          + intros _ Hle. assumption.
        - destruct H as [key [Hret _]]. discriminate. }
      destruct (IH d1 (bn + 1) st1 Hd1) as [rs [Hrs [Hlen Hres]]].
      exists (rd :: rs). split; [now constructor|]. split; [cbn; lia|].
      unfold rounds_events in *. cbn [map List.concat List.length].
      destruct (fst (collect w cfg fuel d1 (bn + 1) st1)) as [[d'|]|[msg|key|]].
      * destruct Hres as [Hl [Hs [Ht Hw]]].
        split; [rewrite Hl, Hlog, <- app_assoc; reflexivity|].
        split; [assumption|]. split; [assumption|].
        intros Hwell Hle. apply Hw; auto.
      * destruct Hres as [Hl Hn].
        split; [rewrite Hl, Hlog, <- app_assoc; reflexivity | lia].
      * assumption.
      * destruct Hres as [c [k [b [Hl Hrest]]]]. exists c, k, b.
        split; [rewrite Hl, Hlog, <- !app_assoc; reflexivity | assumption].
      * assumption.
    + (* the pass raises *)
      destruct H as [H|[H|H]].
      * destruct H as [titles [described [_ [_ [_ [Hret _]]]]]]. discriminate.
      * destruct H as [msg [bs [earlier [t [Hret _]]]]]. discriminate.
      * destruct H as [key [Hret [Hlog [b [Hweb Hb]]]]].
        inversion Hret; subst e. exists []. split; [constructor|].
        split; [cbn; lia|]. cbn [fst snd].
        exists (fetch_count d), (requests st), b.
        split; [exact Hlog|]. split; [assumption|]. split; assumption.
  - apply Nat.ltb_ge in L. exists []. cbn. rewrite app_nil_r.
    split; [constructor|]. split; [lia|]. split; [reflexivity|].
    split; [assumption|]. split; [assumption|]. lia.
Qed.

Lemma print_all_run {A} (f : A -> string) (l : list A) (st : state) :
  for_each l (fun x _ => print (f x)) tt st
  = (Return tt, State (log st ++ map (fun x => Print (f x)) l) (requests st)).
Proof.
  revert st. induction l as [|x l IH]; intros st.
  - cbn. rewrite app_nil_r. now destruct st.
  - rewrite for_each_cons. unfold print at 1, emit. rewrite IH.
    cbn [log requests map]. rewrite <- app_assoc. reflexivity.
Qed.

Lemma save_run (d : pydict) (st : state) :
  save w dump dumps cfg d st
  = if can_open w
    then (Return tt,
          State (log st
                 ++ Write (OUTPUT_FILE cfg) (dump (firstn (TARGET cfg) d))
                    :: report cfg dumps (firstn (TARGET cfg) d))
                (requests st))
    else (Raise OSError, st).
Proof.
  unfold save, bind. destruct (can_open w).
  - unfold emit at 1, print at 1 2 3, emit, report.
    rewrite print_all_run. cbn [log requests].
    rewrite <- !app_assoc. reflexivity.
  - reflexivity.
Qed.

Lemma main_unfold (fuel : nat) :
  main w dump dumps cfg fuel boot
  = match collect w cfg fuel [] 0 (State (preamble cfg) 0) with
    | (Return None, st) => (Return None, st)
    | (Return (Some d), st) =>
        match save w dump dumps cfg d st with
        | (Return _, st') => (Return (Some tt), st')
        | (Raise e, st') => (Raise e, st')
        end
    | (Raise e, st) => (Raise e, st)
    end.
Proof.
  unfold main, bind, print, emit, boot, preamble, ret. cbn [log requests app].
  destruct (collect _ _ _ _ _ _) as [[[d|]|e] st]; reflexivity.
Qed.

Lemma sound_nil : sound w [].
Proof. apply entries_ok_nil. Qed.

(** The whole run, as a sequence of rounds. *)
Lemma main_rounds (fuel : nat) :
  let r := run (main w dump dumps cfg fuel) in
  exists rs,
    Forall (round_ok cfg) rs /\ List.length rs <= fuel
    /\ match fst r with
       | Return None =>
           snd r = preamble cfg ++ rounds_events rs /\ List.length rs = fuel
       | Return (Some _) =>
           exists d,
             snd r = preamble cfg ++ rounds_events rs
                     ++ Write (OUTPUT_FILE cfg) (dump (firstn (TARGET cfg) d))
                        :: report cfg dumps (firstn (TARGET cfg) d)
             /\ sound w d /\ TARGET cfg <= List.length d
             /\ (well_behaved w -> List.length d = TARGET cfg)
             /\ can_open w = true
       | Raise OSError =>
           snd r = preamble cfg ++ rounds_events rs /\ can_open w = false
       | Raise (KeyError key) =>
           exists c k b,
             snd r = preamble cfg ++ rounds_events rs ++ [random_get c]
             /\ count_ok cfg c
             /\ web w k (api_request (random_params c)) = Json b
             /\ missing_key b key
       | Raise (RequestException _) => False
       end.
Proof.
  cbv zeta. unfold run. rewrite main_unfold.
  pose proof (collect_rounds fuel [] 0 (State (preamble cfg) 0) sound_nil)
    as H. cbv zeta in H. destruct H as [rs [Hrs [Hlen H]]].
  exists rs. split; [assumption|]. split; [assumption|].
  destruct (collect w cfg fuel [] 0 (State (preamble cfg) 0))
    as [[[d|]|[msg|key|]] st]; cbn [fst snd log] in *.
  - rewrite save_run. destruct (can_open w) eqn:Open; cbn [fst snd log].
    + destruct H as [Hl [Hs [Ht Hw]]]. exists d.
      split; [rewrite Hl, <- app_assoc; reflexivity|].
      split; [assumption|]. split; [assumption|].
      split; [intros Hwell; apply Hw; [assumption | cbn; lia] | reflexivity].
    + destruct H as [Hl _]. split; [assumption | reflexivity].
  - assumption.
  - assumption.
  - assumption.
  - contradiction.
Qed.


Lemma writes_prints {A} (f : A -> string) (l : list A) :
  writes (map (fun x => Print (f x)) l) = [].
Proof. induction l; cbn; auto. Qed.


Lemma writes_report (pages : list (string * string)) :
  writes (report cfg dumps pages) = [].
Proof. unfold report. rewrite writes_app, writes_prints. reflexivity. Qed.

Lemma gets_events_of (rd : round) :
  gets (events_of rd)
  = api_request (random_params (asked rd))
    :: map (fun b => api_request (description_params b)) (batches rd).
Proof.
  unfold events_of. cbn [gets random_get].
  rewrite gets_app, gets_description. cbn. now rewrite app_nil_r.
Qed.

Lemma writes_rounds (rs : list round) : writes (rounds_events rs) = [].
Proof.
  unfold rounds_events. induction rs as [|rd rs IH]; cbn [map List.concat];
    [reflexivity|].
  rewrite writes_app, IH, app_nil_r. unfold events_of. cbn [writes random_get].
  rewrite writes_app, writes_description. reflexivity.
Qed.



Lemma sound_firstn (n : nat) (d : pydict) : sound w d -> sound w (firstn n d).
Proof.
  intros [Hnd Hin]. split.
  - rewrite <- (firstn_skipn n d), map_app in Hnd.
    now apply NoDup_app_remove_r in Hnd.
  - intros t v H. apply Hin.
    rewrite <- (firstn_skipn n d). apply in_or_app. now left.
Qed.

(** A web on which every request fails: every pass is a failed request
    for random titles. *)
Lemma collect_unreachable (fuel : nat) (bn : nat) (st : state) :
  (forall k req, exists msg, web w k req = Failed msg) -> 0 < TARGET cfg ->
  let r := collect w cfg fuel [] bn st in
  fst r = Return None
  /\ exists rs,
       log (snd r) = log st ++ rounds_events rs
       /\ List.length rs = fuel
       /\ Forall (fun rd => asked rd = Nat.min (BATCH_SIZE cfg) (TARGET cfg)
                            /\ batches rd = [] /\ pause rd = 5%float) rs.
Proof.
  intros Hdown Hpos. revert bn st.
  induction fuel as [|fuel IH]; intros bn st; cbv zeta; rewrite collect_unfold;
    cbn [List.length]; destruct (Nat.ltb_spec 0 (TARGET cfg)) as [_|Hle];
    try lia.
  - split; [reflexivity|]. exists []. cbn. rewrite app_nil_r.
    split; [reflexivity|]. split; [reflexivity | constructor].
  - destruct (Hdown (requests st)
                (api_request (random_params (fetch_count (@nil (string * string))))))
      as [msg Hmsg].
    rewrite (iteration_random_failed [] (bn + 1) st msg Hmsg).
    set (st1 := State _ _).
    destruct (IH (bn + 1) st1) as [Hret [rs [Hlog [Hlen Hrs]]]].
    split; [assumption|].
    exists (Round (fetch_count (@nil (string * string))) [] (error_line (bn + 1) msg) 5
            :: rs).
    split.
    { rewrite Hlog. unfold st1, rounds_events, events_of.
      cbn [log map List.concat asked batches line pause app].
      rewrite <- !app_assoc. reflexivity. }
    split; [cbn; lia|].
    constructor; [|assumption]. cbn [asked batches pause List.length].
    split; [f_equal; lia|]. split; reflexivity.
Qed.

(** The batches of titles that satisfy [ok] are non-empty batches of
    such titles. *)
Lemma batches_of_ok (ok : string -> Prop) (titles : list string) :
  Forall ok titles ->
  Forall (fun b => b <> [] /\ Forall ok b) (batches_of titles).
Proof.
  intros Hok. pose proof (batches_of_bounds titles) as Hb.
  rewrite Forall_forall in *. intros b Hin. split.
  - specialize (Hb b Hin). intros ->. cbn in Hb. lia.
  - apply Forall_forall. intros t Ht. apply Hok.
    rewrite <- (concat_batches_of titles). apply in_concat. eauto.
Qed.

(** On a productive web a pass adds at least one page. *)
Lemma iteration_productive (ok : string -> Prop) (born : string -> nat)
      (d : pydict) (bn : nat) (st : state) :
  productive_on ok w born -> 1 <= BATCH_SIZE cfg ->
  List.length d < TARGET cfg ->
  entries_ok (fun t _ => born t < requests st) d ->
  exists d' st',
    iteration w cfg d bn st = (Return d', st')
    /\ List.length d < List.length d'
    /\ entries_ok (fun t _ => born t < requests st') d'.
Proof.
  intros Hw Hbatch Hlt Hd.
  unfold iteration, try_except_request, batch_step, bind.
  rewrite fetch_random_titles_run.
  destruct Hw as [Hrand Hdesc].
  destruct (Hrand (requests st) (fetch_count d)) as [titles [Hweb [Hne Hok]]];
    [lia|].
  rewrite Hweb, titles_of_map. rewrite fetch_descriptions_batches.
  set (st1 := State (log st ++ [random_get (fetch_count d)]) (S (requests st))).
  destruct (describe_loop_productive w ok born (batches_of titles) [] st1
              (conj Hrand Hdesc) (batches_of_ok ok titles Hok)
              (entries_ok_nil _))
    as [res [st2 [Hrun [Hreq [Hres [_ Hfresh]]]]]].
  rewrite Hrun. unfold print, time_sleep, emit, ret. cbn [fst snd log requests].
  do 2 eexists. split; [reflexivity|].
  destruct Hfresh as [t [Ht Hb]].
  { intros E. apply Hne. rewrite <- (concat_batches_of titles), E. reflexivity. }
  split.
  - apply (dict_update_grows d res t Ht).
    intros Hin. apply in_map_iff in Hin. destruct Hin as [[t' v] [Et Hin]].
    cbn in Et. subst t'. apply Hd in Hin. cbn in Hin, Hb. lia.
  - cbn [requests]. apply entries_ok_update.
    + eapply entries_ok_impl; [|exact Hd]. cbn. intros t' _ H'.
      rewrite Hreq. cbn. lia.
    + apply Hres.
Qed.

(** On a productive web the loop ends within [TARGET] passes. *)
Lemma collect_productive (ok : string -> Prop) (born : string -> nat)
      (fuel : nat) (d : pydict) (bn : nat) (st : state) :
  productive_on ok w born -> 1 <= BATCH_SIZE cfg ->
  entries_ok (fun t _ => born t < requests st) d ->
  TARGET cfg <= List.length d + fuel ->
  exists d' st', collect w cfg fuel d bn st = (Return (Some d'), st').
Proof.
  intros Hw Hbatch. revert d bn st.
  induction fuel as [|fuel IH]; intros d bn st Hd Hfuel;
    rewrite collect_unfold;
    destruct (Nat.ltb_spec (List.length d) (TARGET cfg)) as [Hlt|Hge];
    try (do 2 eexists; reflexivity); try lia.
  destruct (iteration_productive ok born d (bn + 1) st Hw Hbatch Hlt Hd)
    as [d1 [st1 [Hrun [Hgrow Hd1]]]].
  rewrite Hrun. apply IH; [assumption | lia].
Qed.


End WithConfig.
End WikiLoop.

(** ** Properties of the fetch script *)

Module WikiExtras.
Import Wiki WikiFacts WikiRuns WikiLoop.
Local Open Scope list_scope.
Local Open Scope nat_scope.

(** X10. [fetch_descriptions] sends one request per batch of at most 50
    titles: the batches sent are never empty, taken together they are an
    initial part of the titles, in order, and all of them when the
    function returns, in which case their number is the number of titles
    divided by 50, rounded up.  Without titles nothing is sent. *)
Lemma descriptions_asked_in_batches (w : world) (titles : list string) (st : state) :
  let r := fetch_descriptions w titles st in
  exists sent,
    log (snd r) = log st ++ map description_get sent
    /\ requests (snd r) = requests st + List.length sent
    /\ Forall (fun b => 1 <= List.length b <= 50) sent
    /\ (exists rest, titles = List.concat sent ++ rest)
    /\ (forall res, fst r = Return res ->
        List.concat sent = titles
        /\ List.length sent = (List.length titles + 49) / 50)
    /\ (titles = [] -> sent = [] /\ fst r = Return []).
Proof.
  cbv zeta. pose proof (fetch_descriptions_spec w titles st) as H.
  cbv zeta in H. destruct H as [n [Hn [Hlog [Hreq Hres]]]].
  exists (firstn n (batches_of titles)).
  split; [assumption|]. split; [rewrite length_firstn; lia|]. split.
  { apply Forall_forall. intros x Hx.
    pose proof (batches_of_bounds titles) as Hb.
    rewrite Forall_forall in Hb. apply Hb.
    rewrite <- (firstn_skipn n (batches_of titles)).
    apply in_or_app. now left. }
  split.
  { exists (List.concat (skipn n (batches_of titles))).
    rewrite <- concat_app, firstn_skipn. symmetry. apply concat_batches_of. }
  split.
  { intros res Hr. rewrite Hr in Hres. destruct Hres as [-> _].
    rewrite firstn_all. split; [apply concat_batches_of | apply length_batches_of]. }
  intros ->. split.
  - cbn. now rewrite firstn_nil.
  - reflexivity.
Qed.

(** X11. What [fetch_descriptions] returns holds each title once, and
    only pages that a reply to a description request listed with a
    non-empty title and a non-empty description; it has no more entries
    than the replies had pages.  The only exception it raises is the
    [RequestException] of a failed request. *)
Lemma descriptions_come_from_replies (w : world) (titles : list string) (st : state) :
  match fst (fetch_descriptions w titles st) with
  | Return res =>
      NoDup (map fst res)
      /\ forall t d, In (t, d) res ->
           t <> ""%string /\ d <> ""%string
           /\ exists k batch pages,
                web w k (api_request (description_params batch))
                = Json (PageSet pages)
                /\ In (Page (Some t) (Some d)) pages
  | Raise e => exists msg, e = RequestException msg
  end.
Proof.
  pose proof (fetch_descriptions_spec w titles st) as H.
  cbv zeta in H. destruct H as [n [Hn [Hlog [Hreq Hres]]]].
  destruct (fst (fetch_descriptions w titles st)) as [res|e].
  - destruct Hres as [_ [Hnd Hin]]. split; [assumption|].
    intros t d Htd. apply Hin in Htd. exact Htd.
  - destruct Hres as [msg [b [-> _]]]. eauto.
Qed.





(** X14. The log of a run is the two opening lines, then a sequence of
    rounds, at most one per unit of fuel, then a tail.  Each round ends
    with one printed line and one pause of 0.5 or 5 seconds, so no two
    requests for random titles follow each other without a pause.  The
    tail holds no pause: it is empty when the loop is still running or
    the file cannot be opened, the written file and the report when the
    run ends, and a single request when a reply lacked the list of
    random titles. *)
Lemma passes_end_with_a_pause (w : world)
      (dump dumps : list (string * string) -> string) (cfg : config)
      (fuel : nat) :
  let r := run (main w dump dumps cfg fuel) in
  exists rs tail,
    snd r = preamble cfg ++ rounds_events rs ++ tail
    /\ List.length rs <= fuel
    /\ Forall (fun rd => pause rd = 0.5%float \/ pause rd = 5%float) rs
    /\ (forall s, ~ In (Sleep s) tail)
    /\ match fst r with
       | Return None => tail = [] /\ List.length rs = fuel
       | Return (Some _) =>
           exists pages,
             tail = Write (OUTPUT_FILE cfg) (dump pages) :: report cfg dumps pages
       | Raise OSError => tail = []
       | Raise (KeyError _) => exists c, tail = [random_get c]
       | Raise (RequestException _) => False
       end.
Proof.
  cbv zeta. pose proof (main_rounds w dump dumps cfg fuel) as H.
  cbv zeta in H. destruct H as [rs [Hrs [Hlen H]]].
  assert (Hp : Forall (fun rd => pause rd = 0.5%float \/ pause rd = 5%float) rs).
  { eapply Forall_impl; [|exact Hrs]. intros rd [_ [_ Hpause]]. exact Hpause. }
  exists rs.
  destruct (fst (run (main w dump dumps cfg fuel))) as [[u|]|[msg|key|]].
  - destruct H as [d [Hlog _]].
    exists (Write (OUTPUT_FILE cfg) (dump (firstn (TARGET cfg) d))
            :: report cfg dumps (firstn (TARGET cfg) d)).
    split; [assumption|]. split; [assumption|]. split; [assumption|].
    split; [|eauto].
    intros s [Hs|Hs]; [discriminate|]. unfold report in Hs.
    apply in_app_or in Hs. destruct Hs as [Hs|Hs].
    + cbn in Hs. intuition discriminate.
    + apply in_map_iff in Hs. destruct Hs as [x [Hx _]]. discriminate.
  - destruct H as [Hlog Hn]. exists [].
    rewrite app_nil_r. repeat split; auto.
  - contradiction.
  - destruct H as [c [k [b [Hlog _]]]]. exists [random_get c].
    split; [assumption|]. split; [assumption|]. split; [assumption|].
    split; [|eauto]. intros s [Hs|[]]. discriminate.
  - destruct H as [Hlog _]. exists [].
    rewrite app_nil_r. repeat split; auto.
Qed.

(** X15. A run that ends normally writes one file, [OUTPUT_FILE], with
    the serialisation of exactly [TARGET] pages: their titles are
    distinct, and each is a page that a reply to a description request
    listed with a non-empty title and a non-empty description.  The line
    printed after it reports [TARGET] pages. *)
Lemma saved_file_has_target_pages (w : world)
      (dump dumps : list (string * string) -> string) (cfg : config)
      (fuel : nat) (u : unit) :
  fst (run (main w dump dumps cfg fuel)) = Return (Some u) ->
  exists pages,
    writes (snd (run (main w dump dumps cfg fuel)))
    = [(OUTPUT_FILE cfg, dump pages)]
    /\ List.length pages = TARGET cfg
    /\ NoDup (map fst pages)
    /\ (forall t d, In (t, d) pages ->
        t <> ""%string /\ d <> ""%string /\ from_reply w t d)
    /\ In (Print (Benchmark.nl ++ "Done! Saved " ++ Text.str_nat (TARGET cfg)
                  ++ " pages to " ++ OUTPUT_FILE cfg)%string)
          (snd (run (main w dump dumps cfg fuel))).
Proof.
  intros Hret. pose proof (main_rounds w dump dumps cfg fuel) as H.
  cbv zeta in H. destruct H as [rs [_ [_ H]]]. rewrite Hret in H.
  destruct H as [d [Hlog [Hs [Ht _]]]].
  exists (firstn (TARGET cfg) d).
  assert (Hlen : List.length (firstn (TARGET cfg) d) = TARGET cfg).
  { rewrite length_firstn. lia. }
  destruct (sound_firstn w (TARGET cfg) d Hs) as [Hnd Hin].
  split.
  { rewrite Hlog, !writes_app, writes_rounds. cbn [preamble writes app].
    now rewrite writes_report. }
  split; [assumption|]. split; [assumption|]. split; [assumption|].
  rewrite Hlog. apply in_or_app. right. apply in_or_app. right. right.
  unfold report. rewrite Hlen. now left.
Qed.

Lemma saved_file_has_target_pages_witness :
  exists pages,
    writes (snd (run (main WikiSample.world_ok WikiSample.dump_indent2
                        WikiSample.dumps WikiSample.cfg 4)))
    = [(OUTPUT_FILE WikiSample.cfg, WikiSample.dump_indent2 pages)]
    /\ List.length pages = 3.
Proof.
  destruct (saved_file_has_target_pages WikiSample.world_ok
              WikiSample.dump_indent2 WikiSample.dumps WikiSample.cfg 4 tt)
    as [pages [Hw [Hl _]]].
  - vm_compute. reflexivity.
  - exists pages. split; [exact Hw | exact Hl].
Defined.



(** X17. The script never gives up: on a web where every request fails,
    and with at least one page wanted, the loop is still running after
    any number of passes.  Each pass is one request for random titles,
    always for the same number, the retry line and a pause of 5
    seconds; nothing is written. *)
Lemma unreachable_web_is_retried_forever (w : world)
      (dump dumps : list (string * string) -> string) (cfg : config)
      (fuel : nat) :
  (forall k req, exists msg, web w k req = Failed msg) ->
  0 < TARGET cfg ->
  let r := run (main w dump dumps cfg fuel) in
  fst r = Return None
  /\ writes (snd r) = []
  /\ gets (snd r)
     = repeat (api_request
                 (random_params (Nat.min (BATCH_SIZE cfg) (TARGET cfg)))) fuel
  /\ exists rs,
       snd r = preamble cfg ++ rounds_events rs
       /\ List.length rs = fuel
       /\ Forall (fun rd => batches rd = [] /\ pause rd = 5%float) rs.
Proof.
  intros Hdown Hpos. cbv zeta. unfold run. rewrite main_unfold.
  pose proof (collect_unreachable w cfg fuel 0 (State (preamble cfg) 0)
                Hdown Hpos) as H.
  cbv zeta in H. destruct H as [Hret [rs [Hlog [Hlen Hrs]]]].
  destruct (collect w cfg fuel [] 0 (State (preamble cfg) 0)) as [o st].
  cbn [fst snd log] in *. subst o. cbn [fst snd].
  split; [reflexivity|]. split.
  { rewrite Hlog, writes_app, writes_rounds. reflexivity. }
  split.
  { rewrite Hlog, gets_app.
    change (gets (preamble cfg)) with (@nil request). rewrite app_nil_l.
    clear Hlog. revert fuel Hlen.
    unfold rounds_events.
    induction Hrs as [|rd rs [Ha [Hb _]] _ IH]; intros fuel Hlen.
    - now subst fuel.
    - destruct fuel as [|fuel]; [discriminate|]. cbn [map List.concat].
      rewrite gets_app, gets_events_of, Ha, Hb. cbn [map repeat].
      rewrite <- app_comm_cons, app_nil_l.
      f_equal. apply IH. now inversion Hlen. }
  exists rs. split; [assumption|]. split; [assumption|].
  eapply Forall_impl; [|exact Hrs]. intros rd [_ H]. exact H.
Qed.

Lemma unreachable_web_is_retried_forever_witness :
  fst (run (main WikiSample.world_down WikiSample.dump_indent2
              WikiSample.dumps WikiSample.cfg 5)) = Return None.
Proof.
  apply (unreachable_web_is_retried_forever WikiSample.world_down
           WikiSample.dump_indent2 WikiSample.dumps WikiSample.cfg 5).
  - intros k req. exists "unreachable"%string. reflexivity.
  - vm_compute. lia.
Defined.






(** X20. With nothing to fetch ([TARGET] is 0) the script sends no
    request and does not pause: it writes the serialisation of the empty
    list and reports it, or raises [OSError] when the file cannot be
    opened. *)
Lemma nothing_to_fetch (w : world)
      (dump dumps : list (string * string) -> string) (cfg : config)
      (fuel : nat) :
  TARGET cfg = 0 ->
  run (main w dump dumps cfg fuel)
  = if can_open w
    then (Return (Some tt),
          preamble cfg ++ Write (OUTPUT_FILE cfg) (dump []) :: report cfg dumps [])
    else (Raise OSError, preamble cfg).
Proof.
  intros Hz. unfold run. rewrite main_unfold, collect_unfold.
  rewrite Hz. cbn [List.length Nat.ltb Nat.leb].
  rewrite save_run, Hz. destruct (can_open w); reflexivity.
Qed.

Lemma nothing_to_fetch_witness :
  gets (snd (run (main WikiSample.world_ok WikiSample.dump_indent2
                    WikiSample.dumps WikiSample.cfg_none 4))) = [].
Proof.
  rewrite (nothing_to_fetch WikiSample.world_ok WikiSample.dump_indent2
             WikiSample.dumps WikiSample.cfg_none 4).
  - reflexivity.
  - reflexivity.
Defined.

Lemma fresh_web_is_productive :
  productive WikiSample.world_fresh WikiSample.born.
Proof.
  split.
  - intros k c _. exists ["anything"%string]. split; [reflexivity | discriminate].
  - intros k batch.
    exists [WikiSample.described ("p" ++ Text.str_nat k) "a page"].
    split; [reflexivity|].
    assert (Hb : WikiSample.born ("p" ++ Text.str_nat k) = k).
    { cbn. pose proof (TextFacts.str_nat_reads_back k) as H.
      destruct (NilEmpty.uint_of_string (Text.str_nat k)); cbn in H; congruence. }
    split.
    + intros p t [<-|[]] E. cbn in E. inversion E. subst t.
      apply Nat.eq_le_incl. exact Hb.
    + exists ("p" ++ Text.str_nat k)%string, "a page"%string.
      split; [now left|]. split; [discriminate|]. split; [discriminate | exact Hb].
Qed.

(** X21. On a web that always brings something new, and with
    [BATCH_SIZE] at least 1, the loop ends within [TARGET] passes: the
    run writes its file and returns, or raises [OSError] when the file
    cannot be opened.  Something new means that a request for random
    titles is answered with at least one title, and that the reply to a
    request for descriptions holds a titled, described page not seen
    before. *)
Lemma productive_web_ends_within_target_passes (w : world)
      (born : string -> nat)
      (dump dumps : list (string * string) -> string) (cfg : config) :
  productive w born -> 1 <= BATCH_SIZE cfg ->
  fst (run (main w dump dumps cfg (TARGET cfg)))
  = if can_open w then Return (Some tt) else Raise OSError.
Proof.
  intros Hw Hbatch. unfold run. rewrite main_unfold.
  destruct (collect_productive w cfg (fun _ => True) born (TARGET cfg) [] 0
              (State (preamble cfg) 0) (productive_on_all w born Hw) Hbatch
              (entries_ok_nil _))
    as [d [st Hrun]]; [cbn; lia|].
  rewrite Hrun, save_run. destruct (can_open w); reflexivity.
Qed.

Lemma productive_web_ends_within_target_passes_witness :
  fst (run (main WikiSample.world_fresh WikiSample.dump_indent2
              WikiSample.dumps WikiSample.cfg 3)) = Return (Some tt).
Proof.
  apply (productive_web_ends_within_target_passes WikiSample.world_fresh
           WikiSample.born WikiSample.dump_indent2 WikiSample.dumps
           WikiSample.cfg).
  - exact fresh_web_is_productive.
  - vm_compute. lia.
Defined.

End WikiExtras.
